(** * Feedback aggregation worker: webhooks, D1 store, summarizer and workflows

    A shallow embedding of the worker's source files
    ([src/webhooks.js], [src/db.js], [src/summarize.js], [src/aggregate.js],
    [src/index.js], [src/workflows/FeedbackProcessingWorkflow.js],
    [src/workflows/AggregationWorkflow.js]) and the properties of its two
    pipelines.

    Conventions of the embedding:
    - a JavaScript string is a [string] of code units below 256;
    - a JavaScript number is an integer [Z] (ids, counts, second-resolution
      timestamps), printed in decimal;
    - a JavaScript object is the association list of its own properties, in
      property order, with distinct keys; it has no own [toString], [valueOf]
      or [toJSON] key;
    - code that can throw returns a [result];  code that talks to D1, to the
      clock or to Workers AI runs in the monad [M], whose state survives an
      exception (a row written before a throw stays written). *)

From Stdlib Require Import ZArith List String Ascii Bool Lia Permutation.
From Stdlib Require Import DecimalString.
Import ListNotations.

Local Open Scope string_scope.
Local Open Scope Z_scope.

(** ** Results of code that may throw *)

Inductive result (A : Type) : Type :=
| Ok (a : A)
| Throw (message : string).
Arguments Ok {A} a.
Arguments Throw {A} message.

Definition rbind {A B : Type} (r : result A) (k : A -> result B) : result B :=
  match r with
  | Ok a => k a
  | Throw e => Throw e
  end.

Declare Scope result_scope.
Delimit Scope result_scope with result.
Notation "x <- e ;; k" := (rbind e (fun x => k))
  (at level 61, e at next level, right associativity) : result_scope.

Fixpoint mapR {A B : Type} (f : A -> result B) (l : list A) : result (list B) :=
  match l with
  | [] => Ok []
  | a :: l' =>
      match f a with
      | Ok b =>
          match mapR f l' with
          | Ok bs => Ok (b :: bs)
          | Throw e => Throw e
          end
      | Throw e => Throw e
      end
  end.

(** ** JavaScript values *)

Module JS.

#[local] Set Warnings "-register-all".

Inductive value : Type :=
| VUndefined
| VNull
| VBool (b : bool)
| VNum (z : Z)
| VStr (s : string)
| VArr (elements : list value)
| VObj (fields : list (string * value)).

Definition nl : string := String (ascii_of_nat 10) "".

Definition number_to_string (z : Z) : string :=
  NilZero.string_of_int (Z.to_int z).

Fixpoint join (sep : string) (l : list string) : string :=
  match l with
  | [] => ""
  | [s] => s
  | s :: l' => s ++ sep ++ join sep l'
  end.

(** ToString, as applied by template literals and by [+] on a string. *)
Fixpoint to_string (v : value) : string :=
  match v with
  | VUndefined => "undefined"
  | VNull => "null"
  | VBool true => "true"
  | VBool false => "false"
  | VNum z => number_to_string z
  | VStr s => s
  | VArr l =>
      join ","
        (map (fun e => match e with
                       | VUndefined | VNull => ""
                       | _ => to_string e
                       end) l)
  | VObj _ => "[object Object]"
  end.

(** ToBoolean. *)
Definition truthy (v : value) : bool :=
  match v with
  | VUndefined | VNull => false
  | VBool b => b
  | VNum z => negb (z =? 0)
  | VStr s => negb (s =? "")%string
  | VArr _ | VObj _ => true
  end.

Fixpoint lookup (k : string) (fields : list (string * value)) : value :=
  match fields with
  | [] => VUndefined
  | (k', v) :: rest => if (k =? k')%string then v else lookup k rest
  end.

(** [v.k] for the keys the worker reads.  None of them is inherited from a
    prototype except [length] on strings and arrays. *)
Definition get (v : value) (k : string) : result value :=
  match v with
  | VUndefined =>
      Throw ("Cannot read properties of undefined (reading '" ++ k ++ "')")
  | VNull =>
      Throw ("Cannot read properties of null (reading '" ++ k ++ "')")
  | VObj fields => Ok (lookup k fields)
  | VStr s =>
      if (k =? "length")%string then Ok (VNum (Z.of_nat (String.length s)))
      else Ok VUndefined
  | VArr l =>
      if (k =? "length")%string then Ok (VNum (Z.of_nat (List.length l)))
      else Ok VUndefined
  | VBool _ | VNum _ => Ok VUndefined
  end.

(** [v?.k] *)
Definition get_opt (v : value) (k : string) : value :=
  match v with
  | VUndefined | VNull => VUndefined
  | _ => match get v k with Ok x => x | Throw _ => VUndefined end
  end.

(** [a || b] on values already computed. *)
Definition or (a b : value) : value := if truthy a then a else b.

(** [v.map(f)]: only arrays have a [map] method. *)
Definition array_map (what : string) (v : value) (f : value -> result value)
  : result (list value) :=
  match v with
  | VArr l => mapR f l
  | VUndefined =>
      Throw ("Cannot read properties of undefined (reading 'map')")
  | VNull => Throw ("Cannot read properties of null (reading 'map')")
  | _ => Throw (what ++ ".map is not a function")
  end.

(** Decimal digits, for the numeric strings of [positive_number] below. *)
Definition is_digit (c : ascii) : bool :=
  let n := nat_of_ascii c in (Nat.leb 48 n && Nat.leb n 57)%bool.

Fixpoint all_digits (s : string) : bool :=
  match s with
  | EmptyString => true
  | String c s' => (is_digit c && all_digits s')%bool
  end.

Fixpoint some_nonzero (s : string) : bool :=
  match s with
  | EmptyString => false
  | String c s' => (negb (Nat.eqb (nat_of_ascii c) 48) || some_nonzero s')%bool
  end.

(** [typeof v === 'string'] *)
Definition is_string (v : value) : bool :=
  match v with VStr _ => true | _ => false end.

(** *** String.prototype.trim and toLowerCase on code units below 256 *)

Definition is_space (c : ascii) : bool :=
  let n := nat_of_ascii c in
  (Nat.eqb n 9 || Nat.eqb n 10 || Nat.eqb n 11 || Nat.eqb n 12
   || Nat.eqb n 13 || Nat.eqb n 32 || Nat.eqb n 160)%bool.

Fixpoint trim_start (s : string) : string :=
  match s with
  | String c s' => if is_space c then trim_start s' else s
  | EmptyString => EmptyString
  end.

Fixpoint trim_end (s : string) : string :=
  match s with
  | EmptyString => EmptyString
  | String c s' =>
      match trim_end s' with
      | EmptyString => if is_space c then EmptyString else String c EmptyString
      | t => String c t
      end
  end.

Definition trim (s : string) : string := trim_end (trim_start s).

Definition lower_char (c : ascii) : ascii :=
  let n := nat_of_ascii c in
  if ((Nat.leb 65 n && Nat.leb n 90)
      || (Nat.leb 192 n && Nat.leb n 222 && negb (Nat.eqb n 215)))%bool
  then ascii_of_nat (n + 32) else c.

Fixpoint toLowerCase (s : string) : string :=
  match s with
  | EmptyString => EmptyString
  | String c s' => String (lower_char c) (toLowerCase s')
  end.

(** *** JSON.stringify *)

Definition hex_digit (n : nat) : ascii :=
  if Nat.ltb n 10 then ascii_of_nat (48 + n) else ascii_of_nat (87 + n).

Definition quote_char (c : ascii) : string :=
  let n := nat_of_ascii c in
  if Nat.eqb n 34 then "\" ++ String c ""
  else if Nat.eqb n 92 then "\\"
  else if Nat.eqb n 8 then "\b"
  else if Nat.eqb n 9 then "\t"
  else if Nat.eqb n 10 then "\n"
  else if Nat.eqb n 12 then "\f"
  else if Nat.eqb n 13 then "\r"
  else if Nat.ltb n 32 then
    "\u00" ++ String (hex_digit (n / 16)) (String (hex_digit (n mod 16)) "")
  else String c "".

Fixpoint quote_body (s : string) : string :=
  match s with
  | EmptyString => EmptyString
  | String c s' => quote_char c ++ quote_body s'
  end.

Definition dq : string := String (ascii_of_nat 34) "".

Definition quote (s : string) : string := dq ++ quote_body s ++ dq.

(** The JSON text of a value other than [undefined]. *)
Fixpoint JSON_text (v : value) : string :=
  match v with
  | VUndefined | VNull => "null"
  | VBool true => "true"
  | VBool false => "false"
  | VNum z => number_to_string z
  | VStr s => quote s
  | VArr l => "[" ++ join "," (map JSON_text l) ++ "]"
  | VObj fields =>
      "{" ++ join ","
        ((fix members (fs : list (string * value)) : list string :=
            match fs with
            | [] => []
            | (k, VUndefined) :: rest => members rest
            | (k, x) :: rest => (quote k ++ ":" ++ JSON_text x) :: members rest
            end) fields) ++ "}"
  end.

Definition JSON_stringify (v : value) : value :=
  match v with
  | VUndefined => VUndefined
  | _ => VStr (JSON_text v)
  end.

(** The document that [JSON.parse(JSON.stringify(v))] yields: properties
    holding [undefined] are dropped, [undefined] array elements become
    [null]. *)
Fixpoint JSON_doc (v : value) : value :=
  match v with
  | VUndefined => VNull
  | VArr l => VArr (map JSON_doc l)
  | VObj fields =>
      VObj ((fix members (fs : list (string * value)) : list (string * value) :=
               match fs with
               | [] => []
               | (k, VUndefined) :: rest => members rest
               | (k, x) :: rest => (k, JSON_doc x) :: members rest
               end) fields)
  | _ => v
  end.

End JS.

(** ** src/webhooks.js *)

Module Webhooks.
Import JS.
Local Open Scope result_scope.

Record item : Type := mkItem { content : value; metadata : value }.

(** [v > 0] for [v = payload.embeds.length].  On an array or a string the
    length is a number.  When [embeds] is a plain object with a [length] key
    of its own, the value found is converted with ToNumber; a string is read
    as the decimal integer it spells (other numeric spellings are outside
    the model). *)
Definition positive_string (s : string) : bool :=
  let t := trim s in
  let d := match t with
           | String c t' => if Nat.eqb (nat_of_ascii c) 43 then t' else t
           | EmptyString => t
           end in
  (negb (d =? "")%string && all_digits d && some_nonzero d)%bool.

Definition positive_number (v : value) : bool :=
  match v with
  | VNum z => 0 <? z
  | VBool b => b
  | VStr s => positive_string s
  | VArr _ => positive_string (to_string v)
  | VUndefined | VNull | VObj _ => false
  end.

(** Parse GitHub webhook payload *)
Definition parseGitHubWebhook (payload : value) : result (list item) :=
  issue <- get payload "issue" ;;
  action <- get payload "action" ;;
  (* Handle GitHub Issues *)
  items1 <-
    (if truthy issue then
       number <- get issue "number" ;;
       title <- get issue "title" ;;
       body <- get issue "body" ;;
       html_url <- get issue "html_url" ;;
       user <- get issue "user" ;;
       labels <- get issue "labels" ;;
       names <-
         (match labels with
          | VUndefined | VNull => Ok (VArr [])
          | _ =>
              ns <- array_map "payload.issue.labels" labels
                      (fun l => get l "name") ;;
              Ok (VArr ns)
          end) ;;
       state <- get issue "state" ;;
       Ok [ {| content :=
                 VStr ("Issue #" ++ to_string number ++ ": " ++ to_string title
                       ++ nl ++ nl ++ to_string (or body (VStr "")));
               metadata :=
                 VObj [ ("issue_number", number);
                        ("issue_url", html_url);
                        ("author", get_opt user "login");
                        ("labels", names);
                        ("state", state);
                        ("action", action) ] |} ]
     else Ok []) ;;
  (* Handle GitHub Issue Comments *)
  comment <- get payload "comment" ;;
  items2 <-
    (if (truthy comment && truthy issue)%bool then
       number <- get issue "number" ;;
       cbody <- get comment "body" ;;
       html_url <- get issue "html_url" ;;
       cid <- get comment "id" ;;
       cuser <- get comment "user" ;;
       Ok [ {| content :=
                 VStr ("Comment on Issue #" ++ to_string number ++ ": "
                       ++ to_string cbody);
               metadata :=
                 VObj [ ("issue_number", number);
                        ("issue_url", html_url);
                        ("comment_id", cid);
                        ("author", get_opt cuser "login");
                        ("action", action) ] |} ]
     else Ok []) ;;
  (* Handle GitHub Discussions *)
  discussion <- get payload "discussion" ;;
  items3 <-
    (if truthy discussion then
       title <- get discussion "title" ;;
       body <- get discussion "body" ;;
       number <- get discussion "number" ;;
       html_url <- get discussion "html_url" ;;
       user <- get discussion "user" ;;
       category <- get discussion "category" ;;
       Ok [ {| content :=
                 VStr ("Discussion: " ++ to_string title ++ nl ++ nl
                       ++ to_string (or body (VStr "")));
               metadata :=
                 VObj [ ("discussion_number", number);
                        ("discussion_url", html_url);
                        ("author", get_opt user "login");
                        ("category", get_opt category "name");
                        ("action", action) ] |} ]
     else Ok []) ;;
  Ok (items1 ++ items2 ++ items3)%list.

(** The text of one Discord embed. *)
Definition embedText (embed : value) : result value :=
  title <- get embed "title" ;;
  let text := "" in
  let text :=
    if truthy title then text ++ "**" ++ to_string title ++ "**" ++ nl
    else text in
  description <- get embed "description" ;;
  let text :=
    if truthy description then text ++ to_string description ++ nl
    else text in
  fields <- get embed "fields" ;;
  if truthy fields then
    lines <- array_map "embed.fields" fields
               (fun f =>
                  name <- get f "name" ;;
                  val <- get f "value" ;;
                  Ok (VStr ("**" ++ to_string name ++ "**: " ++ to_string val))) ;;
    Ok (VStr (text ++ join nl (map to_string lines)))
  else Ok (VStr text).

(** Parse Discord webhook payload *)
Definition parseDiscordWebhook (payload : value) : result (list item) :=
  pcontent <- get payload "content" ;;
  embeds <- get payload "embeds" ;;
  (* Handle Discord messages *)
  if (truthy pcontent || truthy embeds)%bool then
    let content0 := or pcontent (VStr "") in
    (* Add embed content if present *)
    len <- (if truthy embeds then get embeds "length" else Ok VUndefined) ;;
    content1 <-
      (if (truthy embeds && positive_number len)%bool then
         embedTexts <- array_map "payload.embeds" embeds embedText ;;
         Ok (VStr (to_string content0 ++ nl ++ nl
                   ++ join (nl ++ nl) (map to_string embedTexts)))
       else Ok content0) ;;
    trimmed <-
      (match content1 with
       | VStr s => Ok (VStr (trim s))
       | _ => Throw "content.trim is not a function"
       end) ;;
    channel_id <- get payload "channel_id" ;;
    guild_id <- get payload "guild_id" ;;
    author <- get payload "author" ;;
    id <- get payload "id" ;;
    timestamp <- get payload "timestamp" ;;
    Ok [ {| content := trimmed;
            metadata :=
              VObj [ ("channel_id", channel_id);
                     ("guild_id", guild_id);
                     ("author", or (get_opt author "username")
                                   (get_opt author "name"));
                     ("author_id", get_opt author "id");
                     ("message_id", id);
                     ("timestamp", timestamp) ] |} ]
  else Ok [].

(** Parse Twitter/X webhook payload (generic format) *)
Definition parseTwitterWebhook (payload : value) : result (list item) :=
  tweet <- get payload "tweet" ;;
  (* Handle tweet mentions *)
  items1 <-
    (if truthy tweet then
       text <- get tweet "text" ;;
       full_text <- get tweet "full_text" ;;
       id <- get tweet "id" ;;
       user <- get tweet "user" ;;
       created_at <- get tweet "created_at" ;;
       Ok [ {| content := or (or text full_text) (VStr "");
               metadata :=
                 VObj [ ("tweet_id", id);
                        ("author", get_opt user "screen_name");
                        ("author_id", get_opt user "id");
                        ("created_at", created_at);
                        ("url",
                         VStr ("https://twitter.com/"
                               ++ to_string (get_opt user "screen_name")
                               ++ "/status/" ++ to_string id)) ] |} ]
     else Ok []) ;;
  (* Handle direct mentions *)
  text <- get payload "text" ;;
  items2 <-
    (if truthy text then
       id <- get payload "id" ;;
       author <- get payload "author" ;;
       created_at <- get payload "created_at" ;;
       url <- get payload "url" ;;
       Ok [ {| content := text;
               metadata :=
                 VObj [ ("tweet_id", id);
                        ("author", author);
                        ("created_at", created_at);
                        ("url", url) ] |} ]
     else Ok []) ;;
  Ok (items1 ++ items2)%list.

(** Parse email webhook payload (generic format) *)
Definition parseEmailWebhook (payload : value) : result (list item) :=
  subject <- get payload "subject" ;;
  body <- get payload "body" ;;
  text <- get payload "text" ;;
  if truthy (or (or subject body) text) then
    html <- get payload "html" ;;
    from <- get payload "from" ;;
    sender <- get payload "sender" ;;
    to <- get payload "to" ;;
    recipient <- get payload "recipient" ;;
    message_id <- get payload "message_id" ;;
    id <- get payload "id" ;;
    date <- get payload "date" ;;
    timestamp <- get payload "timestamp" ;;
    Ok [ {| content :=
              VStr ("Subject: " ++ to_string (or subject (VStr "No Subject"))
                    ++ nl ++ nl
                    ++ to_string (or (or (or body text) html) (VStr "")));
            metadata :=
              VObj [ ("from", or from sender);
                     ("to", or to recipient);
                     ("subject", subject);
                     ("message_id", or message_id id);
                     ("date", or date timestamp) ] |} ]
  else Ok [].

(** Parse support ticket webhook payload (generic format) *)
Definition parseSupportTicketWebhook (payload : value) : result (list item) :=
  ticket <- get payload "ticket" ;;
  if truthy ticket then
    id <- get ticket "id" ;;
    number <- get ticket "number" ;;
    subject <- get ticket "subject" ;;
    title <- get ticket "title" ;;
    description <- get ticket "description" ;;
    body <- get ticket "body" ;;
    tcontent <- get ticket "content" ;;
    status <- get ticket "status" ;;
    priority <- get ticket "priority" ;;
    requester <- get ticket "requester" ;;
    customer <- get ticket "customer" ;;
    created_at <- get ticket "created_at" ;;
    created <- get ticket "created" ;;
    url <- get ticket "url" ;;
    Ok [ {| content :=
              VStr ("Ticket #" ++ to_string (or id number) ++ ": "
                    ++ to_string (or subject title) ++ nl ++ nl
                    ++ to_string
                         (or (or (or description body) tcontent) (VStr "")));
            metadata :=
              VObj [ ("ticket_id", or id number);
                     ("status", status);
                     ("priority", priority);
                     ("requester", or requester customer);
                     ("created_at", or created_at created);
                     ("url", url) ] |} ]
  else
    subject <- get payload "subject" ;;
    pcontent <- get payload "content" ;;
    if truthy (or subject pcontent) then
      body <- get payload "body" ;;
      description <- get payload "description" ;;
      id <- get payload "id" ;;
      ticket_id <- get payload "ticket_id" ;;
      status <- get payload "status" ;;
      priority <- get payload "priority" ;;
      requester <- get payload "requester" ;;
      customer <- get payload "customer" ;;
      created_at <- get payload "created_at" ;;
      created <- get payload "created" ;;
      Ok [ {| content :=
                VStr ("Subject: " ++ to_string (or subject (VStr "No Subject"))
                      ++ nl ++ nl
                      ++ to_string
                           (or (or (or pcontent body) description) (VStr "")));
              metadata :=
                VObj [ ("ticket_id", or id ticket_id);
                       ("status", status);
                       ("priority", priority);
                       ("requester", or requester customer);
                       ("created_at", or created_at created) ] |} ]
    else Ok [].

(** Parse forum webhook payload (generic format) *)
Definition parseForumWebhook (payload : value) : result (list item) :=
  post <- get payload "post" ;;
  (* Handle forum posts *)
  if truthy post then
    title <- get post "title" ;;
    pcontent <- get post "content" ;;
    body <- get post "body" ;;
    text <- get post "text" ;;
    id <- get post "id" ;;
    author <- get post "author" ;;
    user <- get post "user" ;;
    forum <- get post "forum" ;;
    pforum <- get payload "forum" ;;
    category <- get post "category" ;;
    created_at <- get post "created_at" ;;
    created <- get post "created" ;;
    url <- get post "url" ;;
    Ok [ {| content :=
              VStr ("Post: " ++ to_string (or title (VStr "No Title"))
                    ++ nl ++ nl
                    ++ to_string (or (or (or pcontent body) text) (VStr "")));
            metadata :=
              VObj [ ("post_id", id);
                     ("author", or author user);
                     ("forum", or forum pforum);
                     ("category", category);
                     ("created_at", or created_at created);
                     ("url", url) ] |} ]
  else
    title <- get payload "title" ;;
    pcontent <- get payload "content" ;;
    if truthy (or title pcontent) then
      body <- get payload "body" ;;
      text <- get payload "text" ;;
      id <- get payload "id" ;;
      author <- get payload "author" ;;
      user <- get payload "user" ;;
      forum <- get payload "forum" ;;
      category <- get payload "category" ;;
      created_at <- get payload "created_at" ;;
      created <- get payload "created" ;;
      url <- get payload "url" ;;
      Ok [ {| content :=
                VStr ("Post: " ++ to_string (or title (VStr "No Title"))
                      ++ nl ++ nl
                      ++ to_string (or (or (or pcontent body) text) (VStr "")));
              metadata :=
                VObj [ ("post_id", id);
                       ("author", or author user);
                       ("forum", forum);
                       ("category", category);
                       ("created_at", or created_at created);
                       ("url", url) ] |} ]
    else Ok [].

(** *** Main webhook parser router *)

Inductive adapter : Type :=
| GitHub | Discord | Twitter | Email | Support | Forum.

Definition adapt (a : adapter) : value -> result (list item) :=
  match a with
  | GitHub => parseGitHubWebhook
  | Discord => parseDiscordWebhook
  | Twitter => parseTwitterWebhook
  | Email => parseEmailWebhook
  | Support => parseSupportTicketWebhook
  | Forum => parseForumWebhook
  end.

(** What [parsers[key]] evaluates to.  [parsers] is an object literal, so a key
    it does not own is looked up on [Object.prototype]; after [toLowerCase]
    the only inherited names that can be hit are [constructor] and
    [__proto__]. *)
Inductive slot : Type :=
| Parser (a : adapter)
| ObjectConstructor
| ObjectPrototype
| Absent.

Definition parsers (key : string) : slot :=
  if (key =? "github")%string then Parser GitHub
  else if (key =? "discord")%string then Parser Discord
  else if (key =? "twitter")%string then Parser Twitter
  else if (key =? "email")%string then Parser Email
  else if (key =? "support")%string then Parser Support
  else if (key =? "forum")%string then Parser Forum
  else if (key =? "constructor")%string then ObjectConstructor
  else if (key =? "__proto__")%string then ObjectPrototype
  else Absent.

(** What [parseWebhook] hands back: an array of items, or, when the slot is
    the [Object] constructor, the payload coerced to an object. *)
Inductive parsed : Type :=
| Items (items : list item)
| ObjectOf (payload : value).

Definition parseWebhook (source : string) (payload : value) : result parsed :=
  match parsers (toLowerCase source) with
  | Absent =>
      (* Generic fallback - try to extract any text content *)
      Ok (Items
            [ {| content :=
                   if is_string payload then payload else JSON_stringify payload;
                 metadata := VObj [ ("raw", VBool true) ] |} ])
  | Parser a => items <- adapt a payload ;; Ok (Items items)
  | ObjectConstructor => Ok (ObjectOf payload)
  | ObjectPrototype => Throw "parser is not a function"
  end.

End Webhooks.

(** ** Tables of schema.sql and the bindings of the worker *)

Module Store.
Import JS.

(** A row of [feedback].  The [metadata] column holds JSON text; the row
    carries the document that text denotes, which is what [JSON.parse] gives
    back when the worker reads the column. *)
Record feedback_row : Type := mkFeedback {
  id : Z;
  source : string;
  content : string;
  metadata : value;
  created_at : Z;
  processed : bool
}.

Record source_summary : Type := mkSourceSummary {
  ss_id : Z;
  ss_source : string;
  summary : value;
  date_range_start : Z;
  date_range_end : Z;
  feedback_count : Z;
  ss_created_at : Z
}.

Record aggregated_summary : Type := mkAggregated {
  agg_id : Z;
  agg_summary : value;
  agg_date_range_start : Z;
  agg_date_range_end : Z;
  source_count : Z;
  total_feedback_count : Z;
  agg_created_at : Z
}.

(** The database: each table in rowid order with its AUTOINCREMENT counter
    (the largest rowid ever handed out). *)
Record database : Type := mkDatabase {
  feedback : list feedback_row;
  feedback_seq : Z;
  source_summaries : list source_summary;
  source_summaries_seq : Z;
  aggregated_summaries : list aggregated_summary;
  aggregated_summaries_seq : Z
}.

Definition empty : database := mkDatabase [] 0 [] 0 [] 0.

(** The SQL statements of db.js and of the workflows. *)
Inductive statement : Type :=
| InsertFeedback
| SelectFeedbackByIds
| SelectUnprocessedFeedback
| UpdateProcessed
| InsertSourceSummary
| SelectSourceSummaries
| InsertAggregatedSummary.

(** Durable effects, in the order they happened: rows written to D1 and the
    outcome the workflow engine records for each [step.do]. *)
Inductive event : Type :=
| InsertedFeedback (row_id : Z)
| InsertedSourceSummary (row_id : Z)
| MarkedProcessed (ids : list Z)
| InsertedAggregatedSummary (row_id : Z)
| StepCompleted (name : string)
| StepFailed (name : string).

Record world : Type := mkWorld {
  DB : database;
  ticks : nat;
  log : list event
}.

(** The request handed to [AI.run] and what comes back. *)
Record ai_request : Type := mkRequest {
  model : string;
  system_message : string;
  user_message : string;
  max_tokens : Z;
  temperature : string
}.

Inductive ai_outcome : Type :=
| Responds (response : value)
| Rejects (message : string).

(** The collaborators: Workers AI, the clock ([Math.floor(Date.now() / 1000)]
    at the n-th reading), D1's failures (the message a statement is rejected
    with, if it is; a statement is accepted or rejected alike every time it
    is issued) and the locale's date format. *)
Record env : Type := mkEnv {
  AI_run : ai_request -> ai_outcome;
  now_seconds : nat -> Z;
  D1_fault : statement -> option string;
  toLocaleDateString : Z -> string
}.

(** *** The monad of worker code *)

Definition M (A : Type) : Type := world -> result A * world.

Definition ret {A : Type} (a : A) : M A := fun w => (Ok a, w).

Definition throw {A : Type} (e : string) : M A := fun w => (Throw e, w).

Definition bind {A B : Type} (m : M A) (k : A -> M B) : M B :=
  fun w =>
    match m w with
    | (Ok a, w') => k a w'
    | (Throw e, w') => (Throw e, w')
    end.

Definition lift {A : Type} (r : result A) : M A := fun w => (r, w).

(** [try { body } catch (error) { handler(error.message) }] *)
Definition try_catch {A : Type} (body : M A) (handler : string -> M A) : M A :=
  fun w =>
    match body w with
    | (Ok a, w') => (Ok a, w')
    | (Throw e, w') => handler e w'
    end.

Definition emit (e : event) : M unit :=
  fun w => (Ok tt, mkWorld (DB w) (ticks w) (log w ++ [e])).

Definition read_db : M database := fun w => (Ok (DB w), w).

Definition write_db (d : database) : M unit :=
  fun w => (Ok tt, mkWorld d (ticks w) (log w)).

(** [await step.do(name, body)]: the engine records how the step ended.  A
    step is attempted once; the engine's retries of a failed step are not
    part of the model. *)
Definition step_do {A : Type} (name : string) (body : M A) : M A :=
  fun w =>
    match body w with
    | (Ok a, w') => (Ok a, mkWorld (DB w') (ticks w') (log w' ++ [StepCompleted name]))
    | (Throw e, w') => (Throw e, mkWorld (DB w') (ticks w') (log w' ++ [StepFailed name]))
    end.

Declare Scope M_scope.
Delimit Scope M_scope with M.
Notation "x <- e ;; k" := (bind e (fun x => k))
  (at level 61, e at next level, right associativity) : M_scope.
Notation "e ;;; k" := (bind e (fun _ => k))
  (at level 61, right associativity) : M_scope.

(** *** ORDER BY: a stable insertion sort *)

Section Sort.
Context {A : Type} (before : A -> A -> bool).

Fixpoint insert (x : A) (l : list A) : list A :=
    match l with
    | [] => [x]
    | y :: l' => if before x y then x :: l else y :: insert x l'
    end.

Fixpoint order_by (l : list A) : list A :=
    match l with
    | [] => []
    | x :: l' => insert x (order_by l')
    end.
End Sort.

Definition mem (x : Z) (l : list Z) : bool := existsb (Z.eqb x) l.

Section Bindings.
Variable E : env.
Local Open Scope M_scope.

Definition now : M Z :=
    fun w => (Ok (now_seconds E (ticks w)), mkWorld (DB w) (S (ticks w)) (log w)).

  (** [.run()] / [.all()] of a prepared statement: D1 may reject it. *)
Definition execute (s : statement) : M unit :=
    fun w =>
      match D1_fault E s with
      | None => (Ok tt, w)
      | Some e => (Throw e, w)
      end.

Definition AI (request : ai_request) : M value :=
    fun w =>
      match AI_run E request with
      | Responds v => (Ok v, w)
      | Rejects e => (Throw e, w)
      end.

  (** **** src/db.js *)

  (** Insert a new feedback entry *)
Definition insertFeedback (src text : string) (meta : value) : M Z :=
    let meta := match meta with VUndefined => VObj [] | _ => meta end in
    t <- now ;;
    execute InsertFeedback ;;;
    d <- read_db ;;
    let last_row_id := feedback_seq d + 1 in
    write_db (mkDatabase
                (feedback d ++ [mkFeedback last_row_id src text (JSON_doc meta) t false])
                last_row_id
                (source_summaries d) (source_summaries_seq d)
                (aggregated_summaries d) (aggregated_summaries_seq d)) ;;;
    emit (InsertedFeedback last_row_id) ;;;
    ret last_row_id.

  (** Get unprocessed feedback for a source *)
Definition getUnprocessedFeedback (src : string) (limit : nat)
    : M (list feedback_row) :=
    execute SelectUnprocessedFeedback ;;;
    d <- read_db ;;
    ret (firstn limit
           (order_by (fun a b => created_at a <=? created_at b)
              (filter (fun r => ((source r =? src)%string && negb (processed r))%bool)
                 (feedback d)))).

Definition set_processed (ids : list Z) (r : feedback_row) : feedback_row :=
    if mem (id r) ids
    then mkFeedback (id r) (source r) (content r) (metadata r) (created_at r) true
    else r.

  (** Mark feedback as processed.  Returns [undefined] on the empty list,
      else [result.meta.changes], the number of rows the UPDATE touched. *)
Definition markFeedbackProcessed (feedbackIds : list Z) : M value :=
    if (List.length feedbackIds =? 0)%nat then ret VUndefined
    else
      execute UpdateProcessed ;;;
      d <- read_db ;;
      write_db (mkDatabase
                  (map (set_processed feedbackIds) (feedback d))
                  (feedback_seq d)
                  (source_summaries d) (source_summaries_seq d)
                  (aggregated_summaries d) (aggregated_summaries_seq d)) ;;;
      emit (MarkedProcessed feedbackIds) ;;;
      ret (VNum (Z.of_nat
                   (List.length
                      (filter (fun r => mem (id r) feedbackIds) (feedback d))))).

  (** Insert a source summary *)
Definition insertSourceSummary (src : string) (text : value)
             (dateRangeStart dateRangeEnd feedbackCount : Z) : M Z :=
    t <- now ;;
    execute InsertSourceSummary ;;;
    d <- read_db ;;
    let last_row_id := source_summaries_seq d + 1 in
    write_db (mkDatabase
                (feedback d) (feedback_seq d)
                (source_summaries d ++
                   [mkSourceSummary last_row_id src text dateRangeStart
                      dateRangeEnd feedbackCount t])
                last_row_id
                (aggregated_summaries d) (aggregated_summaries_seq d)) ;;;
    emit (InsertedSourceSummary last_row_id) ;;;
    ret last_row_id.

  (** Get source summaries for a date range *)
Definition getSourceSummaries (dateRangeStart dateRangeEnd : Z)
    : M (list source_summary) :=
    execute SelectSourceSummaries ;;;
    d <- read_db ;;
    ret (order_by (fun a b => ss_created_at b <=? ss_created_at a)
           (filter (fun s => ((dateRangeStart <=? date_range_start s)
                              && (date_range_end s <=? dateRangeEnd))%bool)
              (source_summaries d))).

  (** Insert an aggregated summary *)
Definition insertAggregatedSummary (text : value)
             (dateRangeStart dateRangeEnd sourceCount totalFeedbackCount : Z)
    : M Z :=
    t <- now ;;
    execute InsertAggregatedSummary ;;;
    d <- read_db ;;
    let last_row_id := aggregated_summaries_seq d + 1 in
    write_db (mkDatabase
                (feedback d) (feedback_seq d)
                (source_summaries d) (source_summaries_seq d)
                (aggregated_summaries d ++
                   [mkAggregated last_row_id text dateRangeStart dateRangeEnd
                      sourceCount totalFeedbackCount t])
                last_row_id) ;;;
    emit (InsertedAggregatedSummary last_row_id) ;;;
    ret last_row_id.

  (** [SELECT * FROM feedback WHERE id IN (...) AND processed = 0], the
      query of the workflow's reload step and of [processFeedbackBatch]. *)
Definition selectUnprocessedByIds (feedbackIds : list Z) : M (list feedback_row) :=
    execute SelectFeedbackByIds ;;;
    d <- read_db ;;
    ret (filter (fun r => (mem (id r) feedbackIds && negb (processed r))%bool)
           (feedback d)).

End Bindings.
End Store.

(** ** src/summarize.js *)

Module Summarize.
Import JS Store.
Local Open Scope M_scope.

Definition separator : string := nl ++ nl ++ "---" ++ nl ++ nl.

(** The callback of [feedbackItems.map((item, index) => ...)]. *)
Definition feedbackText (index : nat) (item : feedback_row) : result string :=
  let text := "Feedback " ++ number_to_string (Z.of_nat index + 1) ++ ":" ++ nl
              ++ content item in
  rbind (get (metadata item) "author")
    (fun author =>
       if truthy author
       then Ok (text ++ nl ++ "[From: " ++ to_string author ++ "]")
       else Ok text).

Fixpoint mapi_from (index : nat) (items : list feedback_row) : result (list string) :=
  match items with
  | [] => Ok []
  | item :: rest =>
      rbind (feedbackText index item)
        (fun t => rbind (mapi_from (S index) rest) (fun ts => Ok (t :: ts)))
  end.

(** Combine all feedback content *)
Definition combinedContent (items : list feedback_row) : result string :=
  rbind (mapi_from 0 items) (fun ts => Ok (join separator ts)).

Definition feedbackPrompt (combined : string) : string :=
  "You are a product feedback analyst. Analyze the following feedback items and create a concise summary that highlights:" ++ nl
  ++ "1. Main themes and topics" ++ nl
  ++ "2. Common pain points or issues" ++ nl
  ++ "3. Positive feedback or praise" ++ nl
  ++ "4. Suggestions or feature requests" ++ nl
  ++ "5. Overall sentiment" ++ nl
  ++ nl
  ++ "Feedback items:" ++ nl
  ++ combined ++ nl
  ++ nl
  ++ "Provide a well-structured summary that would help a product manager understand the key insights from this feedback.".

Definition feedbackRequest (prompt : string) : ai_request :=
  {| model := "@cf/meta/llama-3.1-8b-instruct";
     system_message := "You are a helpful assistant that summarizes product feedback concisely and clearly.";
     user_message := prompt;
     max_tokens := 1000;
     temperature := "0.7" |}.

(** Extract the summary from the response *)
Definition extract (response : value) : result value :=
  rbind (get response "response")
    (fun r =>
       if truthy r then Ok r
       else if is_string response then Ok response
       else Ok (JSON_stringify response)).

Definition fallbackSummary (n : nat) (message : string) : string :=
  "Summary of " ++ number_to_string (Z.of_nat n)
  ++ " feedback items. Error generating AI summary: " ++ message.

Section WithEnv.
Variable E : env.

(** Generate summary using Workers AI *)
Definition generateSummary (feedbackItems : list feedback_row) : M value :=
  if (List.length feedbackItems =? 0)%nat then ret (VStr "No feedback to summarize.")
  else
    combined <- lift (combinedContent feedbackItems) ;;
    let prompt := feedbackPrompt combined in
    try_catch
      (response <- AI E (feedbackRequest prompt) ;;
       lift (extract response))
      (fun message =>
         (* Fallback to a simple summary if AI fails *)
         ret (VStr (fallbackSummary (List.length feedbackItems) message))).

(** [Math.min(...timestamps)] and [Math.max(...timestamps)] on the spread of
    a non-empty array [t :: ts], the only way the worker calls them. *)
Definition Math_min (t : Z) (ts : list Z) : Z := fold_left Z.min ts t.
Definition Math_max (t : Z) (ts : list Z) : Z := fold_left Z.max ts t.

(** Process a batch of feedback items and generate summaries.  The argument
    is the [id] of each element of [feedbackData]. *)
Definition processFeedbackBatch (src : string) (feedbackData : list Z) : M unit :=
  if (List.length feedbackData =? 0)%nat then ret tt
  else
    try_catch
      (let feedbackIds := feedbackData in
       feedbackItems <- selectUnprocessedByIds E feedbackIds ;;
       match feedbackItems with
       | [] => ret tt
       | first :: others =>
           (* Generate summary for this batch *)
           text <- generateSummary feedbackItems ;;
           (* Calculate date range *)
           let dateRangeStart := Math_min (created_at first) (map created_at others) in
           let dateRangeEnd := Math_max (created_at first) (map created_at others) in
           (* Store summary in database *)
           insertSourceSummary E src text dateRangeStart dateRangeEnd
             (Z.of_nat (List.length feedbackItems)) ;;;
           (* Mark feedback as processed *)
           markFeedbackProcessed E feedbackIds ;;;
           ret tt
       end)
      (fun _ =>
         (* Don't throw - we don't want to fail the webhook if summarization fails *)
         ret tt).

End WithEnv.
End Summarize.

(** ** src/workflows/FeedbackProcessingWorkflow.js *)

Module FeedbackProcessingWorkflow.
Import JS Store.
Local Open Scope M_scope.

(** An element of [event.params.feedbackItems]. *)
Record item : Type := mkItem { item_content : string; item_metadata : value }.

Record params : Type := mkParams { p_source : string; feedbackItems : list item }.

Record stored_item : Type := mkStored {
  stored_id : Z;
  stored_source : string;
  stored_content : string;
  stored_metadata : value
}.

Record stored : Type := mkStoredFeedback {
  feedbackIds : list Z;
  items : list stored_item;
  count : nat
}.

Record summary_result : Type := mkSummaryResult {
  dateRangeStart : Z;
  dateRangeEnd : Z;
  feedbackCount : Z
}.

(** What [run] returns. *)
Record outcome : Type := mkOutcome {
  success : bool;
  message : string;
  out_feedbackIds : list Z;
  summaryId : option summary_result;
  summaryPreview : option string
}.

Section WithEnv.
Variable E : env.

(** The [for (const item of feedbackItems)] loop of the first step. *)
Fixpoint store_loop (src : string) (todo : list item)
         (ids : list Z) (storedItems : list stored_item)
  : M (list Z * list stored_item) :=
  match todo with
  | [] => ret (ids, storedItems)
  | it :: rest =>
      id <- insertFeedback E src (item_content it)
              (or (item_metadata it) (VObj [])) ;;
      store_loop src rest
        (ids ++ [id])
        (storedItems ++ [mkStored id src (item_content it) (item_metadata it)])
  end.

(** Step 1: Store feedback items in D1 *)
Definition store_feedback (p : params) : M stored :=
  step_do "store-feedback"
    (r <- store_loop (p_source p) (feedbackItems p) [] [] ;;
     ret (mkStoredFeedback (fst r) (snd r) (List.length (snd r)))).

(** Step 2: Fetch stored feedback records (to get timestamps) *)
Definition fetch_feedback_records (storedFeedback : stored) : M (list feedback_row) :=
  step_do "fetch-feedback-records"
    (selectUnprocessedByIds E (feedbackIds storedFeedback)).

(** Step 3: Generate summary using Workers AI *)
Definition generate_summary (feedbackRecords : list feedback_row) : M value :=
  step_do "generate-summary"
    (combined <- lift (Summarize.combinedContent feedbackRecords) ;;
     let prompt := Summarize.feedbackPrompt combined in
     try_catch
       (response <- AI E (Summarize.feedbackRequest prompt) ;;
        lift (Summarize.extract response))
       (fun message => throw ("Failed to generate summary: " ++ message))).

(** Step 4: Calculate date range and store summary.  The step is reached
    with a non-empty [feedbackRecords], [first :: others]. *)
Definition store_summary (src : string) (text : value)
           (first : feedback_row) (others : list feedback_row) : M summary_result :=
  step_do "store-summary"
    (let start_ := Summarize.Math_min (created_at first) (map created_at others) in
     let end_ := Summarize.Math_max (created_at first) (map created_at others) in
     let n := Z.of_nat (List.length (first :: others)) in
     insertSourceSummary E src text start_ end_ n ;;;
     ret (mkSummaryResult start_ end_ n)).

(** Step 5: Mark feedback as processed *)
Definition mark_processed (storedFeedback : stored) : M Z :=
  step_do "mark-processed"
    (markFeedbackProcessed E (feedbackIds storedFeedback) ;;;
     ret (Z.of_nat (List.length (feedbackIds storedFeedback)))).

Definition preview (text : value) : result string :=
  match text with
  | VStr s => Ok (String.substring 0 200 s ++ "...")
  | _ => Throw "summary.substring is not a function"
  end.

Definition run (p : params) : M outcome :=
  storedFeedback <- store_feedback p ;;
  if (count storedFeedback =? 0)%nat then
    ret (mkOutcome true "No feedback items to process" [] None None)
  else
    feedbackRecords <- fetch_feedback_records storedFeedback ;;
    match feedbackRecords with
    | [] =>
        ret (mkOutcome true "No unprocessed feedback found"
               (feedbackIds storedFeedback) None None)
    | first :: others =>
        text <- generate_summary feedbackRecords ;;
        summaryResult <- store_summary (p_source p) text first others ;;
        mark_processed storedFeedback ;;;
        shown <- lift (preview text) ;;
        ret (mkOutcome true
               ("Processed " ++ number_to_string (Z.of_nat (count storedFeedback))
                ++ " feedback items for " ++ p_source p)
               (feedbackIds storedFeedback)
               (Some summaryResult)
               (Some shown))
    end.

End WithEnv.
End FeedbackProcessingWorkflow.

(** ** src/aggregate.js and src/workflows/AggregationWorkflow.js *)

Module Aggregation.
Import JS Store.
Local Open Scope M_scope.

(** The callback of [sourceSummaries.map(summary => ...)]. *)
Definition summaryText (dateString : Z -> string) (s : source_summary) : string :=
  let sourceName := if (ss_source s =? "")%string then "Unknown" else ss_source s in
  let dateRange := dateString (date_range_start s * 1000) ++ " to "
                   ++ dateString (date_range_end s * 1000) in
  "Source: " ++ sourceName ++ " (" ++ number_to_string (feedback_count s)
  ++ " items, " ++ dateRange ++ ")" ++ nl ++ to_string (summary s).

Definition combinedSummaries (dateString : Z -> string) (l : list source_summary)
  : string :=
  join Summarize.separator (map (summaryText dateString) l).

Definition aggregationPrompt (combined : string) : string :=
  "You are a product manager analyzing feedback summaries from multiple sources. " ++ nl
  ++ "Create a comprehensive aggregated summary that:" ++ nl
  ++ "1. Identifies common themes across all sources" ++ nl
  ++ "2. Highlights the most critical issues or pain points" ++ nl
  ++ "3. Notes positive feedback and what users love" ++ nl
  ++ "4. Prioritizes feature requests and suggestions by frequency/importance" ++ nl
  ++ "5. Provides overall sentiment analysis" ++ nl
  ++ "6. Suggests actionable insights for the product team" ++ nl
  ++ nl
  ++ "Source Summaries:" ++ nl
  ++ combined ++ nl
  ++ nl
  ++ "Provide a well-structured, executive-level summary that synthesizes insights from all sources.".

Definition aggregationRequest (prompt : string) : ai_request :=
  {| model := "@cf/meta/llama-3.1-8b-instruct";
     system_message := "You are a product management assistant that synthesizes feedback from multiple sources into actionable insights.";
     user_message := prompt;
     max_tokens := 1500;
     temperature := "0.7" |}.

(** [sourceSummaries.reduce((sum, s) => sum + s.feedback_count, 0)] *)
Definition totalFeedback (l : list source_summary) : Z :=
  fold_left (fun sum s => sum + feedback_count s) l 0.

(** [new Set(sourceSummaries.map(s => s.source)).size] *)
Definition uniqueSources (l : list source_summary) : Z :=
  Z.of_nat (List.length (nodup string_dec (map ss_source l))).

Record date_range : Type := mkRange { range_start : Z; range_end : Z }.

Record fetched : Type := mkFetched {
  summaries : list source_summary;
  dateRange : date_range
}.

(** What [AggregationWorkflow.run] and [aggregateSummaries] return. *)
Record outcome : Type := mkOutcome {
  success : bool;
  message : string;
  out_summary : option value;
  sourceCount : option Z;
  totalFeedbackCount : option Z;
  out_dateRange : option date_range
}.

Section WithEnv.
Variable E : env.

(** Generate aggregated summary using Workers AI (aggregate.js) *)
Definition generateAggregatedSummary (sourceSummaries : list source_summary) : M value :=
  if (List.length sourceSummaries =? 0)%nat
  then ret (VStr "No source summaries available to aggregate.")
  else
    let prompt :=
      aggregationPrompt (combinedSummaries (toLocaleDateString E) sourceSummaries) in
    try_catch
      (response <- AI E (aggregationRequest prompt) ;;
       lift (Summarize.extract response))
      (fun message =>
         (* Fallback to a simple aggregation if AI fails *)
         ret (VStr ("Aggregated summary of "
                    ++ number_to_string (Z.of_nat (List.length sourceSummaries))
                    ++ " sources covering "
                    ++ number_to_string (totalFeedback sourceSummaries)
                    ++ " total feedback items. Error generating AI summary: "
                    ++ message))).

(** Aggregate summaries from all sources for a given time period (aggregate.js) *)
Definition aggregateSummaries (days : Z) : M outcome :=
  (* Calculate date range *)
  t <- now E ;;
  let startTime := t - days * 24 * 60 * 60 in
  try_catch
    ((* Get all source summaries for the time period *)
     sourceSummaries <- getSourceSummaries E startTime t ;;
     if (List.length sourceSummaries =? 0)%nat then
       ret (mkOutcome true "No source summaries found for the specified time period"
              None None None None)
     else
       (* Generate aggregated summary *)
       aggregatedSummary <- generateAggregatedSummary sourceSummaries ;;
       (* Calculate totals *)
       let total := totalFeedback sourceSummaries in
       let sources := uniqueSources sourceSummaries in
       (* Store aggregated summary *)
       insertAggregatedSummary E aggregatedSummary startTime t sources total ;;;
       ret (mkOutcome true "Aggregated summary generated successfully"
              (Some aggregatedSummary) (Some sources) (Some total)
              (Some (mkRange startTime t))))
    (fun e => ret (mkOutcome false ("Error: " ++ e) None None None None)).

(** Step 1: Calculate date range and fetch source summaries *)
Definition fetch_source_summaries (days : Z) : M fetched :=
  step_do "fetch-source-summaries"
    (t <- now E ;;
     let startTime := t - days * 24 * 60 * 60 in
     l <- getSourceSummaries E startTime t ;;
     ret (mkFetched l (mkRange startTime t))).

(** Step 2: Generate aggregated summary using Workers AI *)
Definition generate_aggregated_summary (sourceSummaries : fetched) : M value :=
  step_do "generate-aggregated-summary"
    (let prompt :=
       aggregationPrompt
         (combinedSummaries (toLocaleDateString E) (summaries sourceSummaries)) in
     try_catch
       (response <- AI E (aggregationRequest prompt) ;;
        lift (Summarize.extract response))
       (fun e => throw ("Failed to generate aggregated summary: " ++ e))).

(** Step 3: Calculate totals and store aggregated summary *)
Definition store_aggregated_summary (sourceSummaries : fetched)
           (aggregatedSummary : value) : M (Z * Z * date_range) :=
  step_do "store-aggregated-summary"
    (let total := totalFeedback (summaries sourceSummaries) in
     let sources := uniqueSources (summaries sourceSummaries) in
     insertAggregatedSummary E aggregatedSummary
       (range_start (dateRange sourceSummaries))
       (range_end (dateRange sourceSummaries))
       sources total ;;;
     ret (sources, total, dateRange sourceSummaries)).

(** [AggregationWorkflow.run], with [days] read from [event.params]. *)
Definition run (days : Z) : M outcome :=
  sourceSummaries <- fetch_source_summaries days ;;
  if (List.length (summaries sourceSummaries) =? 0)%nat then
    ret (mkOutcome true "No source summaries found for the specified time period"
           None None None (Some (dateRange sourceSummaries)))
  else
    aggregatedSummary <- generate_aggregated_summary sourceSummaries ;;
    r <- store_aggregated_summary sourceSummaries aggregatedSummary ;;
    ret (mkOutcome true "Aggregated summary generated successfully"
           (Some aggregatedSummary)
           (Some (fst (fst r))) (Some (snd (fst r))) (Some (snd r))).

End WithEnv.
End Aggregation.

(** ** src/index.js: POST /api/summarize/:source *)

Module Worker.
Import JS Store.
Local Open Scope M_scope.

(** The JSON bodies this route answers with. *)
Inductive response : Type :=
| NoUnprocessedFeedback (src : string)
| WorkflowStarted (src : string) (feedbackCount : nat)
| ServerError (status : Z) (error : string).

(** The callback of [recentFeedback.map(item => ...)]: the record as an
    adapter-shaped item, its metadata parsed. *)
Definition rewrap (item : feedback_row) : FeedbackProcessingWorkflow.item :=
  FeedbackProcessingWorkflow.mkItem (content item) (metadata item).

Section WithEnv.
Variable E : env.

(** [env.FEEDBACK_WORKFLOW.run({ params })]: the instance executes
    [FeedbackProcessingWorkflow.run]; how it ends stays with the instance. *)
Definition FEEDBACK_WORKFLOW_run (p : FeedbackProcessingWorkflow.params) : M unit :=
  fun w => (Ok tt, snd (FeedbackProcessingWorkflow.run E p w)).

(** The [/api/summarize/] branch of [handleAPI], with [days] already read
    from the body. *)
Definition handleAPI_summarize (src : string) (days : Z) : M response :=
  try_catch
    ((* Fetch unprocessed feedback for this source *)
     t <- now E ;;
     let cutoffTime := t - days * 24 * 60 * 60 in
     feedbackItems <- getUnprocessedFeedback E src 100 ;;
     let recentFeedback := filter (fun f => cutoffTime <=? created_at f) feedbackItems in
     if (List.length recentFeedback =? 0)%nat then ret (NoUnprocessedFeedback src)
     else
       FEEDBACK_WORKFLOW_run
         (FeedbackProcessingWorkflow.mkParams src (map rewrap recentFeedback)) ;;;
       ret (WorkflowStarted src (List.length recentFeedback)))
    (fun e => ret (ServerError 500 e)).

End WithEnv.
End Worker.

(** ** The adapter contract of the specification, in terms of the guards of
    webhooks.js *)

Module Contract.
Import JS Webhooks.

Definition nullish (v : value) : bool :=
  match v with VUndefined | VNull => true | _ => false end.

(** The guard under which an adapter pushes at least one item. *)
Definition recognizable (a : adapter) (payload : value) : bool :=
  let has k := truthy (get_opt payload k) in
  match a with
  | GitHub => has "issue" || has "discussion"
  | Discord => has "content" || has "embeds"
  | Twitter => has "tweet" || has "text"
  | Email => has "subject" || has "body" || has "text"
  | Support => has "ticket" || has "subject" || has "content"
  | Forum => has "post" || has "title" || has "content"
  end.

Definition elements_present (v : value) : bool :=
  match v with
  | VArr l => forallb (fun e => negb (nullish e)) l
  | _ => false
  end.

Definition embed_valid (embed : value) : bool :=
  negb (nullish embed)
  && (if truthy (get_opt embed "fields")
      then elements_present (get_opt embed "fields")
      else true).

(** The payloads an adapter does not reject with a TypeError: anything but
    [null]; for GitHub, [issue.labels] absent or an array without [null]
    elements; for Discord, [embeds] of positive length an array of objects
    whose [fields], if any, are arrays without [null] elements, and a
    [content] that is text when nothing is appended to it. *)
Definition valid_input (a : adapter) (payload : value) : bool :=
  negb (nullish payload)
  && match a with
     | GitHub =>
         let issue := get_opt payload "issue" in
         if truthy issue
         then nullish (get_opt issue "labels")
              || elements_present (get_opt issue "labels")
         else true
     | Discord =>
         let pcontent := get_opt payload "content" in
         let embeds := get_opt payload "embeds" in
         if truthy embeds && positive_number (get_opt embeds "length")
         then match embeds with
              | VArr l => forallb embed_valid l
              | _ => false
              end
         else is_string (or pcontent (VStr ""))
     | _ => true
     end.

(** Text content that is not the empty string. *)
Definition has_content (i : item) : bool :=
  match content i with
  | VStr s => negb (s =? "")%string
  | _ => false
  end.

(** The adapters whose content starts with a fixed header. *)
Definition headed (a : adapter) : bool :=
  match a with
  | GitHub | Email | Support | Forum => true
  | Discord | Twitter => false
  end.

(** The property as the specification words it. *)
Definition adapter_contract (a : adapter) (payload : value) : Prop :=
  valid_input a payload = true ->
  recognizable a payload = true ->
  exists items,
    adapt a payload = Ok items /\ items <> [] /\ forallb has_content items = true.

End Contract.

(** ** A run of the feedback workflow in closed form

    What [FeedbackProcessingWorkflow.run] does to the store is decided by
    the collaborators' answers.  The definitions below name the rows, the
    stage reached and the resulting tables; [Runs] is related to [run] by
    the lemma [run_stage] further down. *)

Module Runs.
Import JS Store FeedbackProcessingWorkflow.

(** The rows the store step appends: ids [seq + 1, seq + 2, ...], one clock
    reading each. *)
Fixpoint inserted_rows (E : env) (src : string) (seq : Z) (tick : nat)
         (todo : list item) : list feedback_row :=
  match todo with
  | [] => []
  | it :: rest =>
      mkFeedback (seq + 1) src (item_content it)
        (JSON_doc (or (item_metadata it) (VObj [])))
        (now_seconds E tick) false
      :: inserted_rows E src (seq + 1) (S tick) rest
  end.

(** The value of the generate-summary step on a batch. *)
Definition generated (E : env) (recs : list feedback_row) : result value :=
  match Summarize.combinedContent recs with
  | Throw e => Throw e
  | Ok combined =>
      match AI_run E (Summarize.feedbackRequest (Summarize.feedbackPrompt combined)) with
      | Rejects e => Throw ("Failed to generate summary: " ++ e)
      | Responds v =>
          match Summarize.extract v with
          | Ok text => Ok text
          | Throw e => Throw ("Failed to generate summary: " ++ e)
          end
      end
  end.

Inductive stage : Type :=
| StoreFailed
| NoItems
| FetchFailed
| NoneUnprocessed
| SummaryFailed
| StoreSummaryFailed (text : value)
| MarkFailed (text : value)
| Completed (text : value).

Section Run.
Variable E : env.
Variable p : params.
Variable w : world.

Definition rows : list feedback_row :=
  inserted_rows E (p_source p) (feedback_seq (DB w)) (ticks w) (feedbackItems p).

Definition ids : list Z := map id rows.

(** The batch the reload step returns. *)
Definition reloaded : list feedback_row :=
  filter (fun r => (mem (id r) ids && negb (processed r))%bool)
    (feedback (DB w) ++ rows).

Definition stage_reached : stage :=
  match feedbackItems p with
  | [] => NoItems
  | _ :: _ =>
      match D1_fault E InsertFeedback with
      | Some _ => StoreFailed
      | None =>
          match D1_fault E SelectFeedbackByIds with
          | Some _ => FetchFailed
          | None =>
              match reloaded with
              | [] => NoneUnprocessed
              | _ :: _ =>
                  match generated E reloaded with
                  | Throw _ => SummaryFailed
                  | Ok text =>
                      match D1_fault E InsertSourceSummary with
                      | Some _ => StoreSummaryFailed text
                      | None =>
                          match D1_fault E UpdateProcessed with
                          | Some _ => MarkFailed text
                          | None => Completed text
                          end
                      end
                  end
              end
          end
      end
  end.

(** The summary row of the batch. *)
Definition summary_row (text : value) : source_summary :=
  match reloaded with
  | [] => mkSourceSummary 0 "" text 0 0 0 0
  | first :: others =>
      mkSourceSummary
        (source_summaries_seq (DB w) + 1) (p_source p) text
        (Summarize.Math_min (created_at first) (map created_at others))
        (Summarize.Math_max (created_at first) (map created_at others))
        (Z.of_nat (List.length reloaded))
        (now_seconds E (ticks w + List.length rows))
  end.

Definition stored_db : database :=
  mkDatabase (feedback (DB w) ++ rows)
    (feedback_seq (DB w) + Z.of_nat (List.length rows))
    (source_summaries (DB w)) (source_summaries_seq (DB w))
    (aggregated_summaries (DB w)) (aggregated_summaries_seq (DB w)).

Definition summarised_db (text : value) : database :=
  mkDatabase (feedback stored_db) (feedback_seq stored_db)
    (source_summaries (DB w) ++ [summary_row text])
    (source_summaries_seq (DB w) + 1)
    (aggregated_summaries (DB w)) (aggregated_summaries_seq (DB w)).

Definition marked_db (text : value) : database :=
  mkDatabase (map (set_processed ids) (feedback stored_db)) (feedback_seq stored_db)
    (source_summaries (summarised_db text))
    (source_summaries_seq (summarised_db text))
    (aggregated_summaries (DB w)) (aggregated_summaries_seq (DB w)).

Definition db_at (s : stage) : database :=
  match s with
  | StoreFailed | NoItems => DB w
  | FetchFailed | NoneUnprocessed | SummaryFailed | StoreSummaryFailed _ => stored_db
  | MarkFailed text => summarised_db text
  | Completed text => marked_db text
  end.

Definition inserts : list event := map InsertedFeedback ids.

Definition events_at (s : stage) : list event :=
  match s with
  | StoreFailed => [StepFailed "store-feedback"]
  | NoItems => [StepCompleted "store-feedback"]
  | FetchFailed =>
      inserts ++ [StepCompleted "store-feedback"; StepFailed "fetch-feedback-records"]
  | NoneUnprocessed =>
      inserts ++ [StepCompleted "store-feedback"; StepCompleted "fetch-feedback-records"]
  | SummaryFailed =>
      inserts ++ [StepCompleted "store-feedback"; StepCompleted "fetch-feedback-records";
                  StepFailed "generate-summary"]
  | StoreSummaryFailed _ =>
      inserts ++ [StepCompleted "store-feedback"; StepCompleted "fetch-feedback-records";
                  StepCompleted "generate-summary"; StepFailed "store-summary"]
  | MarkFailed _ =>
      inserts ++ [StepCompleted "store-feedback"; StepCompleted "fetch-feedback-records";
                  StepCompleted "generate-summary";
                  InsertedSourceSummary (source_summaries_seq (DB w) + 1);
                  StepCompleted "store-summary"; StepFailed "mark-processed"]
  | Completed _ =>
      inserts ++ [StepCompleted "store-feedback"; StepCompleted "fetch-feedback-records";
                  StepCompleted "generate-summary";
                  InsertedSourceSummary (source_summaries_seq (DB w) + 1);
                  StepCompleted "store-summary";
                  MarkedProcessed ids; StepCompleted "mark-processed"]
  end.

End Run.

(** Rowids never exceed the AUTOINCREMENT counter. *)
Definition well_formed (d : database) : Prop :=
  Forall (fun r => id r <= feedback_seq d) (feedback d).

(** No D1 statement is rejected. *)
Definition d1_healthy (E : env) : Prop := forall s, D1_fault E s = None.

Definition logged (w : world) (evs : list event) : world :=
  mkWorld (DB w) (ticks w) (log w ++ evs).

(** A row with its flag set. *)
Definition flagged (r : feedback_row) : feedback_row :=
  mkFeedback (id r) (source r) (content r) (metadata r) (created_at r) true.

(** What [run] hands back at the stages that end without a summary. *)
Definition result_at (E : env) (p : params) (w : world) (r : result outcome) : Prop :=
  match stage_reached E p w with
  | NoItems => r = Ok (mkOutcome true "No feedback items to process" [] None None)
  | NoneUnprocessed =>
      r = Ok (mkOutcome true "No unprocessed feedback found" (ids E p w) None None)
  | SummaryFailed =>
      exists e, generated E (reloaded E p w) = Throw e /\ r = Throw e
  | _ => True
  end.

(** Workers AI answers every request with something a summary can be
    extracted from. *)
Definition ai_answers (E : env) : Prop :=
  forall request, exists v text,
    AI_run E request = Responds v /\ Summarize.extract v = Ok text.

(** The records [POST /api/summarize/:source] finds: unprocessed, of that
    source, oldest first, at most 100, created since the cutoff. *)
Definition matched (E : env) (src : string) (days : Z) (w : world) : list feedback_row :=
  filter (fun f => now_seconds E (ticks w) - days * 24 * 60 * 60 <=? created_at f)
    (firstn 100
       (order_by (fun a b => created_at a <=? created_at b)
          (filter (fun r => ((source r =? src)%string && negb (processed r))%bool)
             (feedback (DB w))))).

(** The columns of an aggregated summary, as the persist step computes
    them from the fetched source summaries and the query window. *)
Definition aggregates (a : aggregated_summary) (fetched : list source_summary)
           (window_start window_end : Z) : Prop :=
  (exists names,
      NoDup names /\
      (forall x, In x names <-> exists s, In s fetched /\ ss_source s = x) /\
      source_count a = Z.of_nat (List.length names)) /\
  total_feedback_count a = fold_right Z.add 0 (map feedback_count fetched) /\
  agg_date_range_start a = window_start /\
  agg_date_range_end a = window_end.



End Runs.

(** ** Concrete collaborators and inputs *)

Module Scenario.
Import JS Store.

Definition clock (n : nat) : Z := 1700000000 + 30 * Z.of_nat n.

(** Workers AI answers every request. *)
Definition answering : env :=
  mkEnv (fun _ => Responds (VObj [("response", VStr "Users ask for dark mode.")]))
    clock (fun _ => None) (fun _ => "1/1/2024").

(** Workers AI rejects every request. *)
Definition ai_down : env :=
  mkEnv (fun _ => Rejects "quota exceeded")
    clock (fun _ => None) (fun _ => "1/1/2024").

(** D1 rejects the summary insert. *)
Definition summary_insert_down : env :=
  mkEnv (fun _ => Responds (VObj [("response", VStr "Users ask for dark mode.")]))
    clock
    (fun s => match s with InsertSourceSummary => Some "D1_ERROR" | _ => None end)
    (fun _ => "1/1/2024").

Definition start : world := mkWorld Store.empty 0 [].

Definition discord_batch : FeedbackProcessingWorkflow.params :=
  FeedbackProcessingWorkflow.mkParams "discord"
    [ FeedbackProcessingWorkflow.mkItem "Love the new editor"
        (VObj [("author", VStr "al")]);
      FeedbackProcessingWorkflow.mkItem "Search is slow" (VObj []);
      FeedbackProcessingWorkflow.mkItem "Please add dark mode" VUndefined ].

Definition no_items : FeedbackProcessingWorkflow.params :=
  FeedbackProcessingWorkflow.mkParams "discord" [].

(** Two unprocessed GitHub records, stored but not yet summarized. *)
Definition pending : world :=
  mkWorld
    (mkDatabase
       [ mkFeedback 1 "github" "Issue #5: Bug" (VObj [("author", VStr "al")])
           1699999000 false;
         mkFeedback 2 "github" "Issue #6: Typo" (VObj []) 1699999500 false ]
       2 [] 0 [] 0)
    0 [].

(** Two source summaries, from github (4 items) and discord (6 items). *)
Definition summarized : world :=
  mkWorld
    (mkDatabase [] 0
       [ mkSourceSummary 1 "github" (VStr "Crashes on save.") 1699900000 1699950000 4
           1699950001;
         mkSourceSummary 2 "discord" (VStr "Dark mode.") 1699960000 1699990000 6
           1699990001 ]
       2 [] 0)
    0 [].

(** A tweet object without text next to a direct mention. *)
Definition tweet_without_text : value :=
  VObj [ ("tweet", VObj [("id", VNum 1)]); ("text", VStr "hi") ].

(** The GitHub issue of the specification's first scenario. *)
Definition github_issue : value :=
  VObj [ ("issue", VObj [ ("number", VNum 5); ("title", VStr "Bug");
                          ("body", VStr "Crashes");
                          ("user", VObj [("login", VStr "al")]) ]);
         ("action", VStr "opened") ].

End Scenario.

From Stdlib Require Import Sorted.

(** ** How the result of an ORDER BY ... LIMIT query relates to its table *)

Module Ranking.

(** [result] holds the [limit] first rows of [table] in the order [le]:
    it is ordered, it has [limit] rows (or all of them), and the rows left
    out come no earlier than any row returned. *)
Definition ranked {A : Type} (le : A -> A -> Prop) (limit : nat)
           (table result : list A) : Prop :=
  exists rest,
    Permutation (result ++ rest) table /\
    List.length result = Nat.min limit (List.length table) /\
    Sorted le result /\
    forall r r', In r result -> In r' rest -> le r r'.

End Ranking.

(** ** The remaining queries of src/db.js *)

Module Queries.
Import JS Store.

(** The read-only statements of db.js that the pipelines do not issue. *)
Inductive query : Type :=
| SelectLatestSourceSummaries
| SelectSourceSummariesBySource
| SelectLatestAggregatedSummaries
| SelectFeedbackCounts.

(** A row of [SELECT source, COUNT( * ) as count ... GROUP BY source]. *)
Record source_count_row : Type := mkCount { count_source : string; count : Z }.

Section WithFaults.
(** The message D1 rejects a query with, if it does. *)
Variable Q_fault : query -> option string.

Definition execute_query (q : query) : M unit :=
  fun w =>
    match Q_fault q with
    | None => (Ok tt, w)
    | Some e => (Throw e, w)
    end.

(** Get latest source summaries.  [limit] is the non-negative bound the
    callers pass (50, 10). *)
Definition getLatestSourceSummaries (limit : nat) : M (list source_summary) :=
  bind (execute_query SelectLatestSourceSummaries)
    (fun _ =>
       bind read_db
         (fun d =>
            ret (firstn limit
                   (order_by (fun a b => ss_created_at b <=? ss_created_at a)
                      (source_summaries d))))).

(** Get source summaries by source *)
Definition getSourceSummariesBySource (src : string) (limit : nat)
  : M (list source_summary) :=
  bind (execute_query SelectSourceSummariesBySource)
    (fun _ =>
       bind read_db
         (fun d =>
            ret (firstn limit
                   (order_by (fun a b => ss_created_at b <=? ss_created_at a)
                      (filter (fun s => (ss_source s =? src)%string)
                         (source_summaries d)))))).

(** Get latest aggregated summaries *)
Definition getLatestAggregatedSummaries (limit : nat) : M (list aggregated_summary) :=
  bind (execute_query SelectLatestAggregatedSummaries)
    (fun _ =>
       bind read_db
         (fun d =>
            ret (firstn limit
                   (order_by (fun a b => agg_created_at b <=? agg_created_at a)
                      (aggregated_summaries d))))).

(** Get feedback count by source.  SQL leaves the order of the groups
    open; they are listed in the order [nodup] keeps. *)
Definition getFeedbackCountsBySource : M (list source_count_row) :=
  bind (execute_query SelectFeedbackCounts)
    (fun _ =>
       bind read_db
         (fun d =>
            ret (map (fun src =>
                        mkCount src
                          (Z.of_nat
                             (List.length
                                (filter (fun r => (source r =? src)%string)
                                   (feedback d)))))
                   (nodup string_dec (map source (feedback d)))))).

End WithFaults.
End Queries.

(** ** src/summarize.js: summarizeSourceFeedback *)

Module SummarizeSource.
Import JS Store.
Local Open Scope M_scope.

(** What [summarizeSourceFeedback] returns. *)
Record outcome : Type := mkOutcome {
  success : bool;
  message : string;
  out_summary : option value;
  feedbackCount : option nat
}.

Section WithEnv.
Variable E : env.

(** Summarize feedback for a specific source (called from cron or manual
    trigger) *)
Definition summarizeSourceFeedback (src : string) (days : Z) : M outcome :=
  t <- now E ;;
  let cutoffTime := t - days * 24 * 60 * 60 in
  (* Get unprocessed feedback for this source *)
  feedbackItems <- getUnprocessedFeedback E src 100 ;;
  if (List.length feedbackItems =? 0)%nat then
    ret (mkOutcome true ("No unprocessed feedback for " ++ src) None None)
  else
    (* Filter by date if needed *)
    let recentFeedback := filter (fun f => cutoffTime <=? created_at f) feedbackItems in
    match recentFeedback with
    | [] => ret (mkOutcome true ("No recent feedback for " ++ src) None None)
    | first :: others =>
        try_catch
          ((* Generate summary *)
           text <- Summarize.generateSummary E recentFeedback ;;
           (* Calculate date range *)
           let dateRangeStart :=
             Summarize.Math_min (created_at first) (map created_at others) in
           let dateRangeEnd :=
             Summarize.Math_max (created_at first) (map created_at others) in
           (* Store summary *)
           insertSourceSummary E src text dateRangeStart dateRangeEnd
             (Z.of_nat (List.length recentFeedback)) ;;;
           (* Mark as processed *)
           let feedbackIds := map id recentFeedback in
           markFeedbackProcessed E feedbackIds ;;;
           ret (mkOutcome true ("Generated summary for " ++ src) (Some text)
                  (Some (List.length recentFeedback))))
          (fun e => ret (mkOutcome false ("Error: " ++ e) None None))
    end.

End WithEnv.
End SummarizeSource.

(** ** src/aggregate.js: getAggregationStats; src/index.js: handleCronTrigger *)

Module Stats.
Import JS Store Queries.
Local Open Scope M_scope.


Section WithEnv.
Variable E : env.
Variable Q_fault : query -> option string.


(** [env.AGGREGATION_WORKFLOW.run({ params })]: the instance executes
    [AggregationWorkflow.run]; how it ends stays with the instance. *)
Definition AGGREGATION_WORKFLOW_run (days : Z) : M unit :=
  fun w => (Ok tt, snd (Aggregation.run E days w)).

(** Handle cron trigger - triggers AggregationWorkflow *)
Definition handleCronTrigger : M unit :=
  try_catch
    ((* Trigger aggregation workflow for the last 7 days *)
     AGGREGATION_WORKFLOW_run 7)
    (fun _ => ret tt).

End WithEnv.
End Stats.

(** ** What aggregation may change *)

Module Frames.
Import Store.

(** [after] has the feedback and the source summaries of [before] and at
    most one aggregated summary more. *)
Definition reads_only (before after : database) : Prop :=
  feedback after = feedback before /\
  source_summaries after = source_summaries before /\
  (aggregated_summaries after = aggregated_summaries before \/
   exists row,
     aggregated_summaries after = (aggregated_summaries before ++ [row])%list).

End Frames.

(** ** Bounds on what one payload yields *)

Module Bounds.
Import Webhooks.

(** The number of [items.push] calls an adapter can reach on one payload. *)
Definition most_items (a : adapter) : nat :=
  match a with GitHub => 3 | Twitter => 2 | _ => 1 end.

End Bounds.

(** ** src/index.js: handleWebhook *)

Module Handlers.
Import JS Store Webhooks.
Local Open Scope M_scope.

(** [s.split(sep)] for a non-empty separator: [skip] counts the code units
    of a separator still to be passed over, [cur] is the piece being
    collected. *)
Fixpoint split_from (sep : string) (skip : nat) (cur : string) (s : string)
  : list string :=
  match s with
  | EmptyString => [cur]
  | String c s' =>
      match skip with
      | S k => split_from sep k cur s'
      | O =>
          if String.prefix sep s
          then cur :: split_from sep (String.length sep - 1) "" s'
          else split_from sep 0 (cur ++ String c "") s'
      end
  end.

Definition split (sep s : string) : list string := split_from sep 0 "" s.

(** What the handler needs of the request: the method, [url.pathname] and
    the outcome of [request.json()]. *)
Record request : Type := mkRequest {
  method : string;
  pathname : string;
  json : result value
}.

Record response : Type := mkResponse {
  status : Z;
  body : string;
  is_json : bool
}.

(** [new Response(JSON.stringify(data), { status, headers: json })] *)
Definition jsonResponse (data : value) (code : Z) : response :=
  mkResponse code (JSON_text data) true.

(** [feedbackItems.length] when [parseWebhook] handed back [Object(payload)]. *)
Definition object_length (payload : value) : value :=
  match payload with
  | VArr l => VNum (Z.of_nat (List.length l))
  | VStr s => VNum (Z.of_nat (String.length s))
  | VObj fields => lookup "length" fields
  | _ => VUndefined
  end.

(** [x === 0] *)
Definition is_zero (v : value) : bool :=
  match v with VNum 0 => true | _ => false end.

Section WithBindings.
(** [env.FEEDBACK_WORKFLOW.run({ params: { source, feedbackItems } })]: the
    binding, which hands back the workflow instance or throws. *)
Variable FEEDBACK_WORKFLOW_run : string -> list item -> M value.

Definition started (source : string) (feedbackItems : list item) (n : nat) : M response :=
  workflowId <- FEEDBACK_WORKFLOW_run source feedbackItems ;;
  id <- lift (get workflowId "id") ;;
  ret (jsonResponse
         (VObj [ ("success", VBool true);
                 ("message",
                  VStr ("Processing " ++ number_to_string (Z.of_nat n)
                        ++ " feedback items via workflow"));
                 ("workflowId", id) ])
         200).

Definition no_items : response :=
  jsonResponse (VObj [("message", VStr "No feedback items extracted")]) 200.

(** Handle webhook requests *)
Definition handleWebhook (req : request) : M response :=
  if negb (method req =? "POST")%string then
    ret (mkResponse 405 "Method not allowed" false)
  else
    match nth_error (split "/webhook/" (pathname req)) 1 with
    | None | Some EmptyString => ret (mkResponse 400 "Source required" false)
    | Some source =>
        try_catch
          (payload <- lift (json req) ;;
           (* Parse webhook based on source *)
           parsed <- lift (parseWebhook source payload) ;;
           match parsed with
           | Items feedbackItems =>
               if (List.length feedbackItems =? 0)%nat then ret no_items
               else started source feedbackItems (List.length feedbackItems)
           | ObjectOf object =>
               if is_zero (object_length object) then ret no_items
               else
                 match object with
                 | VArr elements =>
                     rewrapped <-
                       lift (mapR (fun element =>
                                     rbind (get element "content")
                                       (fun c =>
                                          rbind (get element "metadata")
                                            (fun m => Ok (mkItem c m))))
                               elements) ;;
                     started source rewrapped (List.length elements)
                 | _ => throw "feedbackItems.map is not a function"
                 end
           end)
          (fun e =>
             ret (jsonResponse
                    (VObj [("success", VBool false); ("error", VStr e)]) 500))
    end.

End WithBindings.

(** The response of the handler's catch block. *)
Definition failure (e : string) : response :=
  jsonResponse (VObj [("success", VBool false); ("error", VStr e)]) 500.

(** A POST to [/webhook/<source>] whose body parses as [body], or fails to
    parse. *)
Definition post (source : string) (body : result value) : request :=
  mkRequest "POST" ("/webhook/" ++ source) body.

(** No code unit of [s] is a slash. *)
Fixpoint no_slash (s : string) : bool :=
  match s with
  | EmptyString => true
  | String c s' => (negb (Nat.eqb (nat_of_ascii c) 47) && no_slash s')%bool
  end.

(** The item of the workflow that an adapter item with text content is
    passed as. *)
Definition text_item (i : item) : option FeedbackProcessingWorkflow.item :=
  match content i with
  | VStr s => Some (FeedbackProcessingWorkflow.mkItem s (metadata i))
  | _ => None
  end.

(** A binding starts the feedback workflow when, handed items with text
    content, it hands back an instance with an id and the store is as the
    run of the workflow leaves it. *)
Definition starts_workflow (E : env) (binding : string -> list item -> M value) : Prop :=
  forall source feedbackItems texts w,
    map text_item feedbackItems = map Some texts ->
    exists instance,
      fst (binding source feedbackItems w) = Ok (VObj [("id", VStr instance)]) /\
      DB (snd (binding source feedbackItems w))
      = DB (snd (FeedbackProcessingWorkflow.run E
                   (FeedbackProcessingWorkflow.mkParams source texts) w)).

(** An example binding: it starts the workflow on items with text content
    and refuses the others. *)
Definition text_only_binding (E : env) (source : string) (feedbackItems : list item)
  : M value :=
  let texts :=
    fold_right (fun i acc =>
                  match text_item i, acc with
                  | Some t, Some l => Some (t :: l)
                  | _, _ => None
                  end) (Some []) feedbackItems in
  match texts with
  | Some l =>
      fun w =>
        (Ok (VObj [("id", VStr "instance-1")]),
         snd (FeedbackProcessingWorkflow.run E
                (FeedbackProcessingWorkflow.mkParams source l) w))
  | None => throw "content is not text"
  end.

End Handlers.

(** ** Stored metadata *)

Module Documents.
Import JS Store.

(** [m] is what [item.metadata || {}] gives back after
    [JSON.parse(JSON.stringify(...))]: storing it again stores the same. *)
Definition round_trips (m : value) : Prop := JSON_doc (or m (VObj [])) = m.

(** Every feedback row holds such a document. *)
Definition documents (d : database) : Prop :=
  Forall (fun r => round_trips (metadata r)) (feedback d).

End Documents.

(** * Properties *)

(** ** Source adapters *)

Module WebhookFacts.
Import JS Webhooks Contract.

Lemma get_present v k : nullish v = false -> get v k = Ok (get_opt v k).
Proof.
  destruct v; simpl; try discriminate; intros _; try reflexivity;
    destruct (k =? "length")%string; reflexivity.
Qed.

Lemma truthy_present v : truthy v = true -> nullish v = false.
Proof. destruct v; simpl; congruence. Qed.

Lemma truthy_or a b : truthy (or a b) = truthy a || truthy b.
Proof. unfold or. destruct (truthy a) eqn:H; [exact H | reflexivity]. Qed.

Lemma mapR_total {A B : Type} (f : A -> result B) (good : A -> bool) l :
  (forall x, good x = true -> exists y, f x = Ok y) ->
  forallb good l = true -> exists ys, mapR f l = Ok ys.
Proof.
  intros Hf. induction l as [|x l IH]; simpl; intros H; [eauto|].
  apply andb_true_iff in H. destruct H as [Hx Hl].
  destruct (Hf x Hx) as [y ->]. destruct (IH Hl) as [ys ->]. eauto.
Qed.

Ltac reads :=
  repeat match goal with
    | H : truthy ?v = true |- context [get ?v ?k] =>
        rewrite (get_present v k) by (apply truthy_present; exact H)
    | H : nullish ?v = false |- context [get ?v ?k] =>
        rewrite (get_present v k) by exact H
    end; cbn [rbind].

Ltac found := eexists; split; [reflexivity | split; [discriminate | try reflexivity]].

Lemma recognizable_present a payload :
  recognizable a payload = true -> nullish payload = false.
Proof. destruct payload; try reflexivity; destruct a; discriminate. Qed.

Lemma github_items payload :
  valid_input GitHub payload = true -> recognizable GitHub payload = true ->
  exists items, parseGitHubWebhook payload = Ok items /\ items <> []
                /\ forallb has_content items = true.
Proof.
  intros Hv Hr. pose proof (recognizable_present _ _ Hr) as Hn.
  unfold valid_input in Hv. rewrite Hn in Hv. cbn [negb andb] in Hv.
  cbn [recognizable] in Hr. unfold parseGitHubWebhook. reads.
  destruct (truthy (get_opt payload "issue")) eqn:Hi; reads.
  - assert (exists names,
               match get_opt (get_opt payload "issue") "labels" with
               | VUndefined | VNull => Ok (VArr [])
               | _ => rbind (array_map "payload.issue.labels"
                               (get_opt (get_opt payload "issue") "labels")
                               (fun l => get l "name"))
                        (fun ns => Ok (VArr ns))
               end = Ok names) as [names ->].
    { destruct (get_opt (get_opt payload "issue") "labels") eqn:Hl;
        cbn in Hv; try discriminate; eauto.
      destruct (mapR_total (fun l => get l "name") (fun e => negb (nullish e)) elements)
        as [ys Hys]; [| exact Hv |].
      - intros x Hx. rewrite get_present by (destruct (nullish x); simpl in *; congruence).
        eauto.
      - cbn [array_map]. rewrite Hys. cbn. eauto. }
    cbn [rbind].
    destruct (truthy (get_opt payload "comment")) eqn:Hc; cbn [andb]; reads;
      destruct (truthy (get_opt payload "discussion")) eqn:Hd; reads; found.
  - cbn [orb] in Hr. rewrite Hr. rewrite andb_false_r. reads. found.
Qed.




Lemma email_items payload :
  recognizable Email payload = true ->
  exists items, parseEmailWebhook payload = Ok items /\ items <> []
                /\ forallb has_content items = true.
Proof.
  intros Hr. pose proof (recognizable_present _ _ Hr) as Hn.
  unfold parseEmailWebhook. reads. cbn [recognizable] in Hr.
  assert (truthy (or (or (get_opt payload "subject") (get_opt payload "body"))
                     (get_opt payload "text")) = true) as ->.
  { rewrite !truthy_or. exact Hr. }
  found.
Qed.

Lemma support_items payload :
  recognizable Support payload = true ->
  exists items, parseSupportTicketWebhook payload = Ok items /\ items <> []
                /\ forallb has_content items = true.
Proof.
  intros Hr. pose proof (recognizable_present _ _ Hr) as Hn.
  unfold parseSupportTicketWebhook. reads. cbn [recognizable] in Hr.
  destruct (truthy (get_opt payload "ticket")) eqn:Ht; reads; [found|].
  assert (truthy (or (get_opt payload "subject") (get_opt payload "content")) = true)
    as ->.
  { rewrite truthy_or. exact Hr. }
  found.
Qed.

Lemma forum_items payload :
  recognizable Forum payload = true ->
  exists items, parseForumWebhook payload = Ok items /\ items <> []
                /\ forallb has_content items = true.
Proof.
  intros Hr. pose proof (recognizable_present _ _ Hr) as Hn.
  unfold parseForumWebhook. reads. cbn [recognizable] in Hr.
  destruct (truthy (get_opt payload "post")) eqn:Ht; reads; [found|].
  assert (truthy (or (get_opt payload "title") (get_opt payload "content")) = true)
    as ->.
  { rewrite truthy_or. exact Hr. }
  found.
Qed.


(** Scenario 1 of the specification: the GitHub issue payload gives one item
    whose content starts with the issue header and whose author is the
    issue's user. *)
Example github_issue_scenario :
  parseWebhook "github" Scenario.github_issue =
  Ok (Items
        [ {| content := VStr ("Issue #5: Bug" ++ nl ++ nl ++ "Crashes");
             metadata :=
               VObj [ ("issue_number", VNum 5); ("issue_url", VUndefined);
                      ("author", VStr "al"); ("labels", VArr []);
                      ("state", VUndefined); ("action", VStr "opened") ] |} ]).
Proof. reflexivity. Qed.

Lemma lower_char_idempotent c : lower_char (lower_char c) = lower_char c.
Proof.
  destruct c as [[] [] [] [] [] [] [] []]; reflexivity.
Qed.

Lemma toLowerCase_idempotent s : toLowerCase (toLowerCase s) = toLowerCase s.
Proof.
  induction s as [|c s IH]; cbn; [reflexivity|].
  now rewrite lower_char_idempotent, IH.
Qed.

(** Adapter selection ignores the case of the source identifier. *)
Lemma parseWebhook_case_insensitive source payload :
  parseWebhook (toLowerCase source) payload = parseWebhook source payload.
Proof. unfold parseWebhook. now rewrite toLowerCase_idempotent. Qed.

(** A source whose lowercased name is a key of [parsers] is handed to that
    adapter. *)
Lemma parseWebhook_named source a payload :
  parsers (toLowerCase source) = Parser a ->
  parseWebhook source payload = rbind (adapt a payload) (fun items => Ok (Items items)).
Proof. unfold parseWebhook. now intros ->. Qed.

(** A source whose lowercased name is found neither on [parsers] nor on its
    prototype takes the generic fallback: one raw item carrying the payload,
    as it is when it is a string, as JSON text otherwise. *)
Lemma parseWebhook_generic source payload :
  parsers (toLowerCase source) = Absent ->
  parseWebhook source payload =
  Ok (Items [ {| content := if is_string payload then payload
                            else JSON_stringify payload;
                 metadata := VObj [("raw", VBool true)] |} ]).
Proof. unfold parseWebhook. now intros ->. Qed.

(** C3. For every source with no matching named adapter [parseWebhook]
    should fall back to one raw item and never throw.  The lookup
    [parsers[source.toLowerCase()]] also finds what the object literal
    inherits: the source [__proto__] names no adapter, yet the lookup yields
    [Object.prototype], the fallback is skipped and calling it throws. *)
Theorem parseWebhook_inherited_key_throws :
  (forall a, parsers (toLowerCase "__proto__") <> Parser a) /\
  parseWebhook "__proto__" (VObj []) = Throw "parser is not a function".
Proof. split; [intros a; discriminate | reflexivity]. Qed.

(** The other inherited name, [constructor], selects [Object]: the payload
    comes back as it is, not as an array of items. *)
Lemma parseWebhook_constructor payload :
  parseWebhook "constructor" payload = Ok (ObjectOf payload).
Proof. reflexivity. Qed.




(** The same happens for a Discord message that has an empty [embeds] array
    and no text. *)
Lemma adapter_contract_fails_for_discord :
  ~ adapter_contract Discord (VObj [("embeds", VArr [])]).
Proof.
  intros H. destruct (H eq_refl eq_refl) as (items & Hitems & _ & Hall).
  cbn in Hitems. injection Hitems as <-. discriminate Hall.
Qed.

End WebhookFacts.

(** ** The D1 bindings *)

Module StoreFacts.
Import JS Store.

Section Ordering.
Context {A : Type} (before : A -> A -> bool).

Lemma insert_permutation x l : Permutation (insert before x l) (x :: l).
Proof.
  induction l as [|y l IH]; cbn; [reflexivity|].
  destruct (before x y); [reflexivity|].
  rewrite IH. apply perm_swap.
Qed.

Lemma order_by_permutation l : Permutation (order_by before l) l.
Proof.
  induction l as [|x l IH]; cbn; [constructor|].
  rewrite insert_permutation. now constructor.
Qed.

Lemma order_by_In x l : In x (order_by before l) <-> In x l.
Proof.
  split; apply Permutation_in;
    [apply order_by_permutation | symmetry; apply order_by_permutation].
Qed.

Lemma order_by_length l : List.length (order_by before l) = List.length l.
Proof. apply Permutation_length, order_by_permutation. Qed.

End Ordering.

(** C5.  When D1 runs the query, [getSourceSummaries] returns exactly the
    source summaries whose range lies inside the window: those with
    [date_range_start >= start] and [date_range_end <= end], each as often as
    it is stored; a summary that starts before the window or ends after it
    is never returned. *)
Theorem getSourceSummaries_containment (E : env) (dateRangeStart dateRangeEnd : Z)
        (w : world) :
  D1_fault E SelectSourceSummaries = None ->
  exists l,
    getSourceSummaries E dateRangeStart dateRangeEnd w = (Ok l, w) /\
    (forall s, In s l <->
               In s (source_summaries (DB w)) /\
               dateRangeStart <= date_range_start s /\
               date_range_end s <= dateRangeEnd) /\
    Permutation l
      (filter (fun s => (dateRangeStart <=? date_range_start s)
                        && (date_range_end s <=? dateRangeEnd))
         (source_summaries (DB w))).
Proof.
  intros H. eexists. split; [|split].
  - unfold getSourceSummaries, bind, execute, read_db, ret. rewrite H. reflexivity.
  - intros s. rewrite order_by_In, filter_In, andb_true_iff, Z.leb_le, Z.leb_le.
    reflexivity.
  - apply order_by_permutation.
Qed.

Lemma getSourceSummaries_containment_witness :
  exists l,
    getSourceSummaries Scenario.answering 1699900000 1699980000 Scenario.summarized
    = (Ok l, Scenario.summarized) /\
    (forall s, In s l <->
               In s (source_summaries (DB Scenario.summarized)) /\
               1699900000 <= date_range_start s /\
               date_range_end s <= 1699980000) /\
    Permutation l
      (filter (fun s => (1699900000 <=? date_range_start s)
                        && (date_range_end s <=? 1699980000))
         (source_summaries (DB Scenario.summarized))).
Proof.
  apply (getSourceSummaries_containment Scenario.answering 1699900000 1699980000
           Scenario.summarized).
  reflexivity.
Defined.

(** A summary that straddles the end of the window is left out. *)
Example straddling_summary_excluded :
  fst (getSourceSummaries Scenario.answering 1699900000 1699980000 Scenario.summarized)
  = Ok [ mkSourceSummary 1 "github" (VStr "Crashes on save.") 1699900000 1699950000 4
           1699950001 ].
Proof. reflexivity. Qed.

(** C8 (as amended).  [markFeedbackProcessed] on the empty id list raises no
    error and leaves the store as it is; it returns [undefined], not a row
    count. *)
Theorem markFeedbackProcessed_empty (E : env) (w : world) :
  markFeedbackProcessed E [] w = (Ok VUndefined, w).
Proof. reflexivity. Qed.

(** C8, as the specification words it, asks for the number 0. *)
Lemma markFeedbackProcessed_empty_not_zero :
  fst (markFeedbackProcessed Scenario.answering [] Scenario.pending) <> Ok (VNum 0).
Proof. discriminate. Qed.

(** On a non-empty list the UPDATE runs and its row count is returned. *)
Lemma markFeedbackProcessed_count (E : env) (i : Z) (rest : list Z) (w : world) :
  D1_fault E UpdateProcessed = None ->
  fst (markFeedbackProcessed E (i :: rest) w) =
  Ok (VNum (Z.of_nat (List.length
                        (filter (fun r => mem (id r) (i :: rest)) (feedback (DB w)))))).
Proof.
  intros H. unfold markFeedbackProcessed. cbn [List.length Nat.eqb].
  unfold bind, execute. rewrite H. reflexivity.
Qed.

End StoreFacts.

(** ** The feedback processing workflow *)

Module RunFacts.
Import JS Store FeedbackProcessingWorkflow Runs.

Lemma or_default m : or m (VObj []) <> VUndefined.
Proof. unfold or. destruct (truthy m) eqn:H; [|discriminate]. destruct m; discriminate. Qed.

Lemma insertFeedback_ok E src text m w :
  D1_fault E InsertFeedback = None ->
  insertFeedback E src text (or m (VObj [])) w =
  (Ok (feedback_seq (DB w) + 1),
   mkWorld
     (mkDatabase
        (feedback (DB w)
         ++ [mkFeedback (feedback_seq (DB w) + 1) src text
               (JSON_doc (or m (VObj []))) (now_seconds E (ticks w)) false])
        (feedback_seq (DB w) + 1)
        (source_summaries (DB w)) (source_summaries_seq (DB w))
        (aggregated_summaries (DB w)) (aggregated_summaries_seq (DB w)))
     (S (ticks w))
     (log w ++ [InsertedFeedback (feedback_seq (DB w) + 1)])).
Proof.
  intros H. pose proof (or_default m) as Hm. unfold insertFeedback.
  unfold bind, now, execute, read_db, write_db, emit, ret. rewrite H.
  destruct (or m (VObj [])); [contradiction | reflexivity ..].
Qed.

Lemma insertFeedback_rejected E src text m w e :
  D1_fault E InsertFeedback = Some e ->
  insertFeedback E src text m w = (Throw e, mkWorld (DB w) (S (ticks w)) (log w)).
Proof.
  intros H. unfold insertFeedback, bind, now, execute. rewrite H. reflexivity.
Qed.

Lemma store_loop_ok E src todo :
  D1_fault E InsertFeedback = None ->
  forall acc st w,
  exists st',
    store_loop E src todo acc st w =
    (Ok ((acc ++ map id (inserted_rows E src (feedback_seq (DB w)) (ticks w) todo))%list, st'),
     mkWorld
       (mkDatabase
          (feedback (DB w) ++ inserted_rows E src (feedback_seq (DB w)) (ticks w) todo)
          (feedback_seq (DB w) + Z.of_nat (List.length todo))
          (source_summaries (DB w)) (source_summaries_seq (DB w))
          (aggregated_summaries (DB w)) (aggregated_summaries_seq (DB w)))
       (ticks w + List.length todo)
       (log w ++ map InsertedFeedback
              (map id (inserted_rows E src (feedback_seq (DB w)) (ticks w) todo))))
    /\ List.length st' = (List.length st + List.length todo)%nat.
Proof.
  intros H. induction todo as [|it rest IH]; intros acc st w.
  - exists st. cbn [store_loop inserted_rows map List.length]. unfold ret.
    rewrite !app_nil_r, Z.add_0_r, Nat.add_0_r. destruct w as [[] ? ?]. split; [reflexivity | cbn; lia].
  - cbn [store_loop]. unfold bind at 1. rewrite insertFeedback_ok by exact H.
    match goal with |- context [store_loop E src rest ?a ?s ?w'] =>
      destruct (IH a s w') as [st' [-> Hlen]] end.
    exists st'. cbn [DB feedback feedback_seq ticks log source_summaries
                       source_summaries_seq aggregated_summaries
                       aggregated_summaries_seq inserted_rows map List.length id].
    split.
    + rewrite <- !app_assoc. cbn [app].
      replace (feedback_seq (DB w) + 1 + Z.of_nat (List.length rest))
        with (feedback_seq (DB w) + Z.of_nat (S (List.length rest))) by lia.
      replace (S (ticks w) + List.length rest)%nat
        with (ticks w + S (List.length rest))%nat by lia.
      reflexivity.
    + rewrite Hlen, length_app. cbn. lia.
Qed.

Lemma inserted_rows_length E src seq tick todo :
  List.length (inserted_rows E src seq tick todo) = List.length todo.
Proof.
  revert seq tick. induction todo as [|it rest IH]; intros; cbn; [reflexivity|].
  now rewrite IH.
Qed.

Lemma store_feedback_ok E p w :
  D1_fault E InsertFeedback = None ->
  exists st,
    store_feedback E p w =
    (Ok (mkStoredFeedback (ids E p w) st (List.length (feedbackItems p))),
     mkWorld (stored_db E p w) (ticks w + List.length (feedbackItems p))
       (log w ++ inserts E p w ++ [StepCompleted "store-feedback"])).
Proof.
  intros H. unfold store_feedback, step_do, bind.
  destruct (store_loop_ok E (p_source p) (feedbackItems p) H [] [] w) as [st [-> Hlen]].
  exists st. unfold ret. cbn [fst snd DB ticks log app]. cbn in Hlen. rewrite Hlen.
  unfold stored_db, inserts, ids, rows. rewrite inserted_rows_length, <- app_assoc.
  reflexivity.
Qed.

Lemma store_feedback_rejected E p w e it rest :
  D1_fault E InsertFeedback = Some e ->
  feedbackItems p = it :: rest ->
  store_feedback E p w =
  (Throw e, mkWorld (DB w) (S (ticks w)) (log w ++ [StepFailed "store-feedback"])).
Proof.
  intros H Hi. unfold store_feedback, step_do, bind. rewrite Hi. cbn [store_loop].
  unfold bind. rewrite (insertFeedback_rejected _ _ _ _ _ e H). reflexivity.
Qed.

Lemma fetch_feedback_records_run E st w :
  fetch_feedback_records E st w =
  match D1_fault E SelectFeedbackByIds with
  | None =>
      (Ok (filter (fun r => (mem (id r) (feedbackIds st) && negb (processed r))%bool)
             (feedback (DB w))),
       logged w [StepCompleted "fetch-feedback-records"])
  | Some e => (Throw e, logged w [StepFailed "fetch-feedback-records"])
  end.
Proof.
  unfold fetch_feedback_records, step_do, selectUnprocessedByIds, bind, execute.
  destruct (D1_fault E SelectFeedbackByIds); reflexivity.
Qed.

Lemma generate_summary_run E recs w :
  generate_summary E recs w =
  (generated E recs,
   logged w [match generated E recs with
             | Ok _ => StepCompleted "generate-summary"
             | Throw _ => StepFailed "generate-summary"
             end]).
Proof.
  unfold generate_summary, step_do, generated, bind, lift, try_catch, AI, throw.
  destruct (Summarize.combinedContent recs); [|reflexivity].
  destruct (AI_run E _); [|reflexivity].
  destruct (Summarize.extract response); reflexivity.
Qed.

Lemma store_summary_run E src text first others w :
  store_summary E src text first others w =
  match D1_fault E InsertSourceSummary with
  | None =>
      (Ok (mkSummaryResult
             (Summarize.Math_min (created_at first) (map created_at others))
             (Summarize.Math_max (created_at first) (map created_at others))
             (Z.of_nat (List.length (first :: others)))),
       mkWorld
         (mkDatabase (feedback (DB w)) (feedback_seq (DB w))
            (source_summaries (DB w)
             ++ [mkSourceSummary (source_summaries_seq (DB w) + 1) src text
                   (Summarize.Math_min (created_at first) (map created_at others))
                   (Summarize.Math_max (created_at first) (map created_at others))
                   (Z.of_nat (List.length (first :: others)))
                   (now_seconds E (ticks w))])
            (source_summaries_seq (DB w) + 1)
            (aggregated_summaries (DB w)) (aggregated_summaries_seq (DB w)))
         (S (ticks w))
         (log w ++ [InsertedSourceSummary (source_summaries_seq (DB w) + 1);
                    StepCompleted "store-summary"]))
  | Some e =>
      (Throw e, mkWorld (DB w) (S (ticks w)) (log w ++ [StepFailed "store-summary"]))
  end.
Proof.
  unfold store_summary, step_do, insertSourceSummary, bind, now, execute,
    read_db, write_db, emit, ret.
  destruct (D1_fault E InsertSourceSummary); cbn [DB ticks log];
    [reflexivity | rewrite <- app_assoc; reflexivity].
Qed.

Lemma mark_processed_run E st w i rest :
  feedbackIds st = i :: rest ->
  mark_processed E st w =
  match D1_fault E UpdateProcessed with
  | None =>
      (Ok (Z.of_nat (List.length (feedbackIds st))),
       mkWorld
         (mkDatabase (map (set_processed (feedbackIds st)) (feedback (DB w)))
            (feedback_seq (DB w))
            (source_summaries (DB w)) (source_summaries_seq (DB w))
            (aggregated_summaries (DB w)) (aggregated_summaries_seq (DB w)))
         (ticks w)
         (log w ++ [MarkedProcessed (feedbackIds st); StepCompleted "mark-processed"]))
  | Some e => (Throw e, logged w [StepFailed "mark-processed"])
  end.
Proof.
  intros Hi. unfold mark_processed, step_do, markFeedbackProcessed. rewrite Hi.
  cbn [List.length Nat.eqb]. unfold bind, execute, read_db, write_db, emit, ret.
  destruct (D1_fault E UpdateProcessed); cbn [DB ticks log];
    [reflexivity | rewrite <- app_assoc; reflexivity].
Qed.

(** [run] reaches the stage that the collaborators' answers decide, with the
    tables and the trace of that stage. *)
Lemma run_stage_of E p w r w' :
  run E p w = (r, w') ->
  DB w' = db_at E p w (stage_reached E p w) /\
  log w' = (log w ++ events_at E p w (stage_reached E p w))%list /\
  result_at E p w r.
Proof.
  intros Hrun. unfold run in Hrun. unfold result_at, stage_reached.
  unfold bind at 1 in Hrun.
  destruct (feedbackItems p) as [|it rest] eqn:Hitems.
  - unfold store_feedback, step_do, bind in Hrun. rewrite Hitems in Hrun.
    cbn in Hrun. injection Hrun as <- <-. cbn. auto.
  - destruct (D1_fault E InsertFeedback) as [e|] eqn:Hins.
    + rewrite (store_feedback_rejected E p w e it rest Hins Hitems) in Hrun.
      injection Hrun as <- <-. cbn. auto.
    + destruct (store_feedback_ok E p w Hins) as [st Hst]. rewrite Hst in Hrun.
      rewrite Hitems in Hrun.
      cbn [count List.length Nat.eqb] in Hrun. unfold bind at 1 in Hrun.
      rewrite fetch_feedback_records_run in Hrun.
      cbn [feedbackIds DB feedback stored_db] in Hrun.
      fold (reloaded E p w) in Hrun.
      destruct (D1_fault E SelectFeedbackByIds) as [e|] eqn:Hsel.
      * injection Hrun as <- <-. cbn. rewrite <- !app_assoc. auto.
      * destruct (reloaded E p w) as [|first others] eqn:Hrel.
        { injection Hrun as <- <-. cbn. rewrite <- !app_assoc. auto. }
        unfold bind at 1 in Hrun. rewrite generate_summary_run in Hrun.
        destruct (generated E (first :: others)) as [text|e] eqn:Hgen.
        2:{ injection Hrun as <- <-. cbn. rewrite <- !app_assoc. eauto. }
        unfold bind at 1 in Hrun. rewrite store_summary_run in Hrun.
        destruct (D1_fault E InsertSourceSummary) as [e|] eqn:Hsum.
        { injection Hrun as <- <-. cbn. rewrite <- !app_assoc. auto. }
        unfold bind at 1 in Hrun.
        assert (exists i l, ids E p w = i :: l) as (i & l & Hids).
        { unfold ids, rows. rewrite Hitems. cbn. eauto. }
        rewrite (mark_processed_run E _ _ i l) in Hrun by exact Hids.
        assert (Hrow : summary_row E p w text =
                       mkSourceSummary (source_summaries_seq (DB w) + 1) (p_source p) text
                         (Summarize.Math_min (created_at first) (map created_at others))
                         (Summarize.Math_max (created_at first) (map created_at others))
                         (Z.of_nat (List.length (first :: others)))
                         (now_seconds E (ticks w + List.length (it :: rest)))).
        { unfold summary_row. rewrite Hrel. unfold rows.
          rewrite inserted_rows_length, Hitems. reflexivity. }
        destruct (D1_fault E UpdateProcessed) as [e|] eqn:Hupd.
        { injection Hrun as <- <-. cbn [db_at events_at logged DB log].
          unfold summarised_db. rewrite Hrow. rewrite <- !app_assoc. cbn.
          auto. }
        unfold bind, lift, ret in Hrun.
        assert (w' = mkWorld (marked_db E p w text)
                       (S (ticks w + List.length (it :: rest)))
                       (log w ++ events_at E p w (Completed text))) as ->.
        { unfold marked_db, summarised_db. rewrite Hrow.
          destruct (preview text); injection Hrun as _ <-;
            cbn; rewrite <- !app_assoc; reflexivity. }
        cbn. auto.
Qed.

Lemma run_stage E p w :
  DB (snd (run E p w)) = db_at E p w (stage_reached E p w) /\
  log (snd (run E p w)) = (log w ++ events_at E p w (stage_reached E p w))%list /\
  result_at E p w (fst (run E p w)).
Proof. apply (run_stage_of E p w (fst (run E p w))). now destruct (run E p w). Qed.

(** *** Fresh rows *)

Lemma mem_In x l : mem x l = true <-> In x l.
Proof.
  unfold mem. rewrite existsb_exists. split.
  - intros (y & Hy & Heq). apply Z.eqb_eq in Heq. now subst.
  - intros H. exists x. split; [exact H | apply Z.eqb_refl].
Qed.

Lemma inserted_rows_fresh E src seq tick todo :
  Forall (fun r => seq < id r) (inserted_rows E src seq tick todo).
Proof.
  revert seq tick. induction todo as [|it rest IH]; intros seq tick; cbn; constructor.
  - cbn. lia.
  - eapply Forall_impl; [|apply IH]. cbn. intros r Hr. lia.
Qed.

Lemma inserted_rows_unprocessed E src seq tick todo :
  Forall (fun r => processed r = false) (inserted_rows E src seq tick todo).
Proof.
  revert seq tick. induction todo as [|it rest IH]; intros seq tick; cbn; constructor;
    [reflexivity | apply IH].
Qed.

Lemma JSON_doc_present v : Contract.nullish (JSON_doc (or v (VObj []))) = false.
Proof.
  unfold or. destruct (truthy v) eqn:H; [|reflexivity].
  destruct v; try discriminate; reflexivity.
Qed.

Lemma inserted_rows_present E src seq tick todo :
  Forall (fun r => Contract.nullish (metadata r) = false)
    (inserted_rows E src seq tick todo).
Proof.
  revert seq tick. induction todo as [|it rest IH]; intros seq tick; cbn; constructor;
    [apply JSON_doc_present | apply IH].
Qed.

Lemma old_rows_not_selected E p w :
  well_formed (DB w) ->
  Forall (fun r => mem (id r) (ids E p w) = false) (feedback (DB w)).
Proof.
  unfold well_formed. intros Hwf. eapply Forall_impl; [|exact Hwf].
  cbn. intros r Hr. destruct (mem (id r) (ids E p w)) eqn:Hm; [|reflexivity].
  apply mem_In in Hm. unfold ids in Hm. apply in_map_iff in Hm.
  destruct Hm as (r' & Hid & Hin).
  pose proof (inserted_rows_fresh E (p_source p) (feedback_seq (DB w)) (ticks w)
                (feedbackItems p)) as Hfresh.
  rewrite Forall_forall in Hfresh. specialize (Hfresh r' Hin). cbn in Hfresh. lia.
Qed.

Lemma filter_none {A} (f : A -> bool) l :
  Forall (fun x => f x = false) l -> filter f l = [].
Proof.
  induction 1 as [|x l Hx _ IH]; cbn; [reflexivity|]. now rewrite Hx.
Qed.

Lemma filter_all {A} (f : A -> bool) l :
  Forall (fun x => f x = true) l -> filter f l = l.
Proof.
  induction 1 as [|x l Hx _ IH]; cbn; [reflexivity|]. now rewrite Hx, IH.
Qed.

(** In a store whose rowids respect the counter, the reload step returns
    exactly the rows this run inserted. *)
Lemma reloaded_fresh E p w :
  well_formed (DB w) -> reloaded E p w = rows E p w.
Proof.
  intros Hwf. unfold reloaded. rewrite filter_app.
  rewrite filter_none, filter_all; [reflexivity | |].
  - rewrite Forall_forall. intros r Hr.
    assert (Hm : mem (id r) (ids E p w) = true).
    { apply mem_In. unfold ids. now apply in_map. }
    pose proof (inserted_rows_unprocessed E (p_source p) (feedback_seq (DB w))
                  (ticks w) (feedbackItems p)) as Hu.
    rewrite Forall_forall in Hu. rewrite Hm, (Hu r Hr). reflexivity.
  - eapply Forall_impl; [|apply old_rows_not_selected, Hwf].
    cbn. intros r ->. reflexivity.
Qed.

(** ... and the mark step flags exactly those rows. *)
Lemma marked_fresh E p w :
  well_formed (DB w) ->
  map (set_processed (ids E p w)) (feedback (DB w) ++ rows E p w) =
  (feedback (DB w) ++ map flagged (rows E p w))%list.
Proof.
  intros Hwf. rewrite map_app. f_equal.
  - pose proof (old_rows_not_selected E p w Hwf) as Hold.
    induction Hold as [|r l Hr _ IH]; cbn; [reflexivity|].
    unfold set_processed at 1. rewrite Hr. now rewrite IH.
  - apply map_ext_in. intros r Hr. unfold set_processed.
    assert (Hm : mem (id r) (ids E p w) = true).
    { apply mem_In. unfold ids. now apply in_map. }
    now rewrite Hm.
Qed.


(** *** Traces *)




Lemma not_in_inserts E p w e :
  In e (inserts E p w) -> exists i, e = InsertedFeedback i.
Proof. unfold inserts. intros H. apply in_map_iff in H. destruct H as (i & <- & _). eauto. Qed.

Ltac in_trace H :=
  apply in_app_or in H; destruct H as [H | H];
  [ apply not_in_inserts in H; destruct H as [? H]; discriminate H
  | cbn in H; repeat (destruct H as [H | H]; try discriminate H); try contradiction ].



(** Scenario 2 of the specification: three Discord items give three stored
    records, all processed, and one new source summary that counts three. *)
Example discord_scenario :
  map (fun r => (id r, source r, processed r))
    (feedback (DB (snd (run Scenario.answering Scenario.discord_batch Scenario.start))))
  = [ (1, "discord", true); (2, "discord", true); (3, "discord", true) ] /\
  map (fun s => (ss_source s, feedback_count s))
    (source_summaries
       (DB (snd (run Scenario.answering Scenario.discord_batch Scenario.start))))
  = [ ("discord", 3) ].
Proof. split; reflexivity. Qed.

(** When D1 rejects the summary insert, the store-summary step fails and the
    three records stay unprocessed. *)
Example summary_insert_rejected :
  fst (run Scenario.summary_insert_down Scenario.discord_batch Scenario.start)
  = Throw "D1_ERROR" /\
  map processed
    (feedback
       (DB (snd (run Scenario.summary_insert_down Scenario.discord_batch Scenario.start))))
  = [false; false; false] /\
  log (snd (run Scenario.summary_insert_down Scenario.discord_batch Scenario.start))
  = [ InsertedFeedback 1; InsertedFeedback 2; InsertedFeedback 3;
      StepCompleted "store-feedback"; StepCompleted "fetch-feedback-records";
      StepCompleted "generate-summary"; StepFailed "store-summary" ].
Proof. repeat split. Qed.


(** *** Minimum and maximum of the batch's timestamps *)

Lemma Math_min_spec t ts :
  In (Summarize.Math_min t ts) (t :: ts) /\
  Forall (fun x => Summarize.Math_min t ts <= x) (t :: ts).
Proof.
  unfold Summarize.Math_min. revert t.
  induction ts as [|u ts IH]; intros t; cbn [fold_left].
  - split; [now left | constructor; [lia | constructor]].
  - destruct (IH (Z.min t u)) as [Hin Hall]. split.
    + destruct Hin as [Heq | Hin]; [|right; right; exact Hin].
      rewrite <- Heq. destruct (Z.min_spec t u) as [[_ ->] | [_ ->]];
        [now left | right; now left].
    + inversion Hall as [|? ? Hm Hrest]; subst.
      constructor; [lia | constructor; [lia | exact Hrest]].
Qed.

Lemma Math_max_spec t ts :
  In (Summarize.Math_max t ts) (t :: ts) /\
  Forall (fun x => x <= Summarize.Math_max t ts) (t :: ts).
Proof.
  unfold Summarize.Math_max. revert t.
  induction ts as [|u ts IH]; intros t; cbn [fold_left].
  - split; [now left | constructor; [lia | constructor]].
  - destruct (IH (Z.max t u)) as [Hin Hall]. split.
    + destruct Hin as [Heq | Hin]; [|right; right; exact Hin].
      rewrite <- Heq. destruct (Z.max_spec t u) as [[_ ->] | [_ ->]];
        [right; now left | now left].
    + inversion Hall as [|? ? Hm Hrest]; subst.
      constructor; [lia | constructor; [lia | exact Hrest]].
Qed.

Lemma empty_well_formed : well_formed Store.empty.
Proof. constructor. Qed.

(** When a run got as far as writing a summary, the earlier steps went
    through. *)
Lemma summary_written E p w text :
  stage_reached E p w = MarkFailed text \/ stage_reached E p w = Completed text ->
  D1_fault E InsertFeedback = None /\
  D1_fault E SelectFeedbackByIds = None /\
  feedbackItems p <> [] /\
  reloaded E p w <> [] /\
  generated E (reloaded E p w) = Ok text.
Proof.
  unfold stage_reached.
  destruct (feedbackItems p); [intros [H | H]; discriminate|].
  destruct (D1_fault E InsertFeedback); [intros [H | H]; discriminate|].
  destruct (D1_fault E SelectFeedbackByIds); [intros [H | H]; discriminate|].
  destruct (reloaded E p w) as [|first others] eqn:Hrel;
    [intros [H | H]; discriminate|].
  destruct (generated E (first :: others)) eqn:Hgen; [|intros [H | H]; discriminate].
  destruct (D1_fault E InsertSourceSummary); [intros [H | H]; discriminate|].
  destruct (D1_fault E UpdateProcessed); intros [H | H]; try discriminate;
    injection H as ->; repeat split; congruence.
Qed.

Lemma no_summary_written E p w :
  (forall text, stage_reached E p w <> MarkFailed text) ->
  (forall text, stage_reached E p w <> Completed text) ->
  source_summaries (db_at E p w (stage_reached E p w)) = source_summaries (DB w).
Proof.
  intros H1 H2. destruct (stage_reached E p w); try reflexivity;
    [now elim (H1 text) | now elim (H2 text)].
Qed.

(** C9.  A run of the feedback workflow adds at most one source summary.
    When it adds one, the reload step returned a non-empty batch, the
    summary's range runs from the least to the greatest [created_at] of that
    batch, its count is the size of the batch, and so
    [date_range_start <= date_range_end] and [feedback_count >= 1].  No
    summary is written when there are no items or when the reloaded batch is
    empty. *)
Theorem source_summary_invariant (E : env) (p : params) (w : world) :
  let after := source_summaries (DB (snd (run E p w))) in
  (after = source_summaries (DB w) \/
   exists s st w1 w2 batch,
     after = (source_summaries (DB w) ++ [s])%list /\
     store_feedback E p w = (Ok st, w1) /\
     fetch_feedback_records E st w1 = (Ok batch, w2) /\
     batch <> [] /\
     In (date_range_start s) (map created_at batch) /\
     Forall (fun r => date_range_start s <= created_at r) batch /\
     In (date_range_end s) (map created_at batch) /\
     Forall (fun r => created_at r <= date_range_end s) batch /\
     feedback_count s = Z.of_nat (List.length batch) /\
     date_range_start s <= date_range_end s /\
     1 <= feedback_count s) /\
  (feedbackItems p = [] -> after = source_summaries (DB w)) /\
  (reloaded E p w = [] -> after = source_summaries (DB w)).
Proof.
  cbn zeta. destruct (run_stage E p w) as (-> & _ & _).
  assert (Hcases : (exists text, stage_reached E p w = MarkFailed text
                                 \/ stage_reached E p w = Completed text)
                   \/ ((forall text, stage_reached E p w <> MarkFailed text)
                       /\ (forall text, stage_reached E p w <> Completed text))).
  { destruct (stage_reached E p w); try (right; split; intros; discriminate);
      left; eauto. }
  destruct Hcases as [[text Hst] | [H1 H2]].
  2:{ rewrite (no_summary_written E p w H1 H2). auto. }
  destruct (summary_written E p w text Hst) as (Hins & Hsel & Hitems & Hrel & Hgen).
  assert (Hafter : source_summaries (db_at E p w (stage_reached E p w)) =
                   (source_summaries (DB w) ++ [summary_row E p w text])%list).
  { destruct Hst as [-> | ->]; reflexivity. }
  rewrite Hafter. split; [|split; [intros H; contradiction | intros H; contradiction]].
  right. destruct (store_feedback_ok E p w Hins) as [stored_items Hstore].
  exists (summary_row E p w text). do 3 eexists. exists (reloaded E p w).
  split; [reflexivity|]. split; [exact Hstore|]. split.
  { rewrite fetch_feedback_records_run, Hsel. reflexivity. }
  split; [exact Hrel|].
  unfold summary_row. destruct (reloaded E p w) as [|first others]; [contradiction|].
  cbn [date_range_start date_range_end feedback_count].
  destruct (Math_min_spec (created_at first) (map created_at others)) as [Hmin_in Hmin].
  destruct (Math_max_spec (created_at first) (map created_at others)) as [Hmax_in Hmax].
  change (created_at first :: map created_at others)
    with (map created_at (first :: others)) in *.
  rewrite Forall_map in Hmin, Hmax.
  repeat split; try assumption.
  - inversion Hmin; inversion Hmax; subst. lia.
  - cbn [List.length]. lia.
Qed.


Lemma source_summary_invariant_witness :
  (exists s,
      source_summaries
        (DB (snd (run Scenario.answering Scenario.discord_batch Scenario.start))) = [s] /\
      date_range_start s <= date_range_end s /\ 1 <= feedback_count s) /\
  source_summaries (DB (snd (run Scenario.answering Scenario.no_items Scenario.start)))
  = [].
Proof.
  split.
  - destruct (source_summary_invariant Scenario.answering Scenario.discord_batch
                Scenario.start) as ([Hsame | Hnew] & _ & _).
    + vm_compute in Hsame. discriminate Hsame.
    + destruct Hnew as (s & st & w1 & w2 & batch & Hs & _ & _ & _ & _ & _ & _ & _ & _
                        & Hle & Hcount).
      exists s. split; [exact Hs | split; assumption].
  - destruct (source_summary_invariant Scenario.answering Scenario.no_items
                Scenario.start) as (_ & Hnone & _).
    apply Hnone. reflexivity.
Defined.

(** *** When Workers AI rejects the request *)

Lemma mapi_from_total items :
  Forall (fun r => Contract.nullish (metadata r) = false) items ->
  forall index, exists ts, Summarize.mapi_from index items = Ok ts.
Proof.
  induction 1 as [|r items Hr _ IH]; intros index; cbn; [eauto|].
  unfold Summarize.feedbackText.
  rewrite (WebhookFacts.get_present _ _ Hr). cbn [rbind].
  destruct (IH (S index)) as [ts ->].
  destruct (truthy (get_opt (metadata r) "author")); cbn; eauto.
Qed.

Lemma combinedContent_total items :
  Forall (fun r => Contract.nullish (metadata r) = false) items ->
  exists combined, Summarize.combinedContent items = Ok combined.
Proof.
  intros H. unfold Summarize.combinedContent.
  destruct (mapi_from_total items H 0%nat) as [ts ->]. cbn. eauto.
Qed.

Lemma generateSummary_fallback E msg items w :
  (forall request, AI_run E request = Rejects msg) ->
  items <> [] ->
  Forall (fun r => Contract.nullish (metadata r) = false) items ->
  Summarize.generateSummary E items w =
  (Ok (VStr (Summarize.fallbackSummary (List.length items) msg)), w).
Proof.
  intros Hai Hne Hmeta. unfold Summarize.generateSummary.
  destruct items as [|r items]; [contradiction|]. cbn [List.length Nat.eqb].
  destruct (combinedContent_total _ Hmeta) as [combined Hc].
  unfold bind, lift, try_catch, AI, ret. rewrite Hc, Hai. reflexivity.
Qed.

Lemma generated_rejected E msg recs :
  (forall request, AI_run E request = Rejects msg) ->
  Forall (fun r => Contract.nullish (metadata r) = false) recs ->
  generated E recs = Throw ("Failed to generate summary: " ++ msg).
Proof.
  intros Hai Hmeta. unfold generated.
  destruct (combinedContent_total _ Hmeta) as [combined ->]. now rewrite Hai.
Qed.

Lemma generated_answered E recs :
  ai_answers E ->
  Forall (fun r => Contract.nullish (metadata r) = false) recs ->
  exists text, generated E recs = Ok text.
Proof.
  intros Hai Hmeta. unfold generated.
  destruct (combinedContent_total _ Hmeta) as [combined ->].
  destruct (Hai (Summarize.feedbackRequest (Summarize.feedbackPrompt combined)))
    as (v & text & -> & ->). eauto.
Qed.

Lemma rows_nonempty E p w : feedbackItems p <> [] -> rows E p w <> [].
Proof. unfold rows. destruct (feedbackItems p); [contradiction | discriminate]. Qed.

(** With D1 and Workers AI in order, a run over a non-empty item list runs
    to completion. *)
Lemma run_completes E p w :
  d1_healthy E -> well_formed (DB w) -> ai_answers E -> feedbackItems p <> [] ->
  exists text, stage_reached E p w = Completed text.
Proof.
  intros Hd1 Hwf Hai Hitems. unfold stage_reached, rows.
  rewrite !Hd1, (reloaded_fresh E p w Hwf).
  pose proof (rows_nonempty E p w Hitems) as Hrows.
  destruct (generated_answered E (rows E p w) Hai
              (inserted_rows_present _ _ _ _ _)) as [text ->].
  destruct (feedbackItems p); [contradiction|].
  destruct (rows E p w); [contradiction | eauto].
Qed.

Lemma run_aborts E msg p w :
  (forall request, AI_run E request = Rejects msg) ->
  d1_healthy E -> well_formed (DB w) -> feedbackItems p <> [] ->
  stage_reached E p w = SummaryFailed /\
  generated E (reloaded E p w) = Throw ("Failed to generate summary: " ++ msg).
Proof.
  intros Hai Hd1 Hwf Hitems. unfold stage_reached.
  rewrite !Hd1, (reloaded_fresh E p w Hwf).
  pose proof (rows_nonempty E p w Hitems) as Hrows.
  rewrite (generated_rejected E msg (rows E p w) Hai (inserted_rows_present _ _ _ _ _)).
  destruct (feedbackItems p); [contradiction|].
  destruct (rows E p w); [contradiction | auto].
Qed.

(** *** processFeedbackBatch *)

Lemma processFeedbackBatch_persists E src feedbackData first others text w :
  d1_healthy E ->
  filter (fun r => (mem (id r) feedbackData && negb (processed r))%bool) (feedback (DB w))
  = first :: others ->
  Summarize.generateSummary E (first :: others) w = (Ok text, w) ->
  DB (snd (Summarize.processFeedbackBatch E src feedbackData w)) =
  mkDatabase
    (map (set_processed feedbackData) (feedback (DB w))) (feedback_seq (DB w))
    (source_summaries (DB w)
     ++ [mkSourceSummary (source_summaries_seq (DB w) + 1) src text
           (Summarize.Math_min (created_at first) (map created_at others))
           (Summarize.Math_max (created_at first) (map created_at others))
           (Z.of_nat (List.length (first :: others)))
           (now_seconds E (ticks w))])
    (source_summaries_seq (DB w) + 1)
    (aggregated_summaries (DB w)) (aggregated_summaries_seq (DB w)).
Proof.
  intros Hd1 Hbatch Hgen. unfold Summarize.processFeedbackBatch.
  destruct feedbackData as [|i ids'].
  { cbn in Hbatch. exfalso. clear -Hbatch.
    induction (feedback (DB w)); cbn in Hbatch; [discriminate | auto]. }
  cbn [List.length Nat.eqb]. unfold try_catch, bind at 1.
  unfold selectUnprocessedByIds, bind at 1, execute. rewrite Hd1.
  unfold bind at 1, read_db, ret. rewrite Hbatch.
  unfold bind at 1. rewrite Hgen.
  unfold insertSourceSummary, markFeedbackProcessed.
  cbn [List.length Nat.eqb].
  unfold bind, now, execute, read_db, write_db, emit, ret. rewrite !Hd1.
  reflexivity.
Qed.


Lemma set_processed_flags ids l r :
  In r (map (set_processed ids) l) -> In (id r) ids -> processed r = true.
Proof.
  intros Hr Hid. apply in_map_iff in Hr. destruct Hr as (r0 & <- & _).
  unfold set_processed in *. destruct (mem (id r0) ids) eqn:Hm; [reflexivity|].
  apply mem_In in Hid. congruence.
Qed.


(** *** Well-formed stores stay well-formed *)




(** The store after a completed run: the old rows untouched, the inserted
    rows flagged, one summary more. *)
Lemma run_completed_store E p w :
  d1_healthy E -> well_formed (DB w) -> ai_answers E -> feedbackItems p <> [] ->
  exists text,
    feedback (DB (snd (run E p w)))
    = (feedback (DB w) ++ map flagged (rows E p w))%list /\
    source_summaries (DB (snd (run E p w)))
    = (source_summaries (DB w) ++ [summary_row E p w text])%list.
Proof.
  intros Hd1 Hwf Hai Hitems.
  destruct (run_completes E p w Hd1 Hwf Hai Hitems) as [text Hst].
  destruct (run_stage E p w) as (-> & _ & _). rewrite Hst. exists text.
  cbn [db_at marked_db feedback source_summaries stored_db summarised_db].
  now rewrite (marked_fresh E p w Hwf).
Qed.

(** C1 (as amended).  When Workers AI rejects the request:
    the summarizer of summarize.js does not propagate the failure, it
    returns the fallback text with the item count and the message, and
    [processFeedbackBatch], which calls it, still stores a source summary and
    flags every record of the batch;
    the generate-summary step of the feedback workflow rethrows as
    "Failed to generate summary: ...", the run ends there, no source summary
    is stored and the inserted records stay unprocessed. *)
Theorem ai_failure_fallback_and_abort (E : env) (msg : string) :
  (forall request, AI_run E request = Rejects msg) ->
  (forall items w,
      items <> [] ->
      Forall (fun r => Contract.nullish (metadata r) = false) items ->
      Summarize.generateSummary E items w =
      (Ok (VStr (Summarize.fallbackSummary (List.length items) msg)), w)) /\
  (forall src feedbackData w,
      d1_healthy E ->
      let batch :=
        filter (fun r => (mem (id r) feedbackData && negb (processed r))%bool)
          (feedback (DB w)) in
      batch <> [] ->
      Forall (fun r => Contract.nullish (metadata r) = false) batch ->
      let after := DB (snd (Summarize.processFeedbackBatch E src feedbackData w)) in
      (exists s,
          source_summaries after = (source_summaries (DB w) ++ [s])%list /\
          summary s = VStr (Summarize.fallbackSummary (List.length batch) msg) /\
          feedback_count s = Z.of_nat (List.length batch)) /\
      List.length (feedback after) = List.length (feedback (DB w)) /\
      (forall r, In r (feedback after) -> In (id r) feedbackData -> processed r = true)) /\
  (forall p w,
      d1_healthy E -> well_formed (DB w) -> feedbackItems p <> [] ->
      fst (run E p w) = Throw ("Failed to generate summary: " ++ msg) /\
      source_summaries (DB (snd (run E p w))) = source_summaries (DB w) /\
      feedback (DB (snd (run E p w))) = (feedback (DB w) ++ rows E p w)%list /\
      List.length (rows E p w) = List.length (feedbackItems p) /\
      Forall (fun r => processed r = false) (rows E p w)).
Proof.
  intros Hai. split; [|split].
  - intros items w Hne Hmeta. now apply generateSummary_fallback.
  - intros src feedbackData w Hd1 batch Hne Hmeta after.
    destruct batch as [|first others] eqn:Hbatch; [contradiction|].
    subst after.
    rewrite (processFeedbackBatch_persists E src feedbackData first others
               (VStr (Summarize.fallbackSummary (List.length (first :: others)) msg))
               w Hd1 Hbatch).
    2:{ apply generateSummary_fallback; [exact Hai | discriminate | exact Hmeta]. }
    cbn [source_summaries feedback]. split; [|split].
    + eexists. split; [reflexivity|]. split; reflexivity.
    + apply length_map.
    + intros r. apply set_processed_flags.
  - intros p w Hd1 Hwf Hitems.
    destruct (run_aborts E msg p w Hai Hd1 Hwf Hitems) as [Hst Hgen].
    destruct (run_stage E p w) as (Hdb & _ & Hres). unfold result_at in Hres.
    rewrite Hdb, Hst in *. destruct Hres as (e & He & ->).
    rewrite Hgen in He. injection He as <-.
    repeat split.
    + unfold rows. apply inserted_rows_length.
    + apply inserted_rows_unprocessed.
Qed.

Lemma ai_failure_fallback_and_abort_witness :
  Summarize.generateSummary Scenario.ai_down (feedback (DB Scenario.pending))
    Scenario.pending
  = (Ok (VStr (Summarize.fallbackSummary 2 "quota exceeded")), Scenario.pending)
  /\ (forall r,
         In r (feedback
                 (DB (snd (Summarize.processFeedbackBatch Scenario.ai_down "github"
                             [1; 2] Scenario.pending)))) ->
         In (id r) [1; 2] -> processed r = true)
  /\ fst (run Scenario.ai_down Scenario.discord_batch Scenario.start)
     = Throw ("Failed to generate summary: " ++ "quota exceeded").
Proof.
  destruct (ai_failure_fallback_and_abort Scenario.ai_down "quota exceeded")
    as (Hfallback & Hbatch & Habort); [intros request; reflexivity|].
  split; [|split].
  - apply (Hfallback (feedback (DB Scenario.pending)) Scenario.pending);
      [discriminate | repeat constructor].
  - apply (Hbatch "github" [1; 2] Scenario.pending);
      [intros s; reflexivity | discriminate | repeat constructor].
  - apply (Habort Scenario.discord_batch Scenario.start);
      [intros s; reflexivity | constructor | discriminate].
Defined.

(** C1, as the specification words it, fails for the workflow: with Workers
    AI down, a run over three Discord items throws, stores no source summary
    and leaves the three records unprocessed. *)
Lemma workflow_aborts_when_ai_down :
  (forall request, AI_run Scenario.ai_down request = Rejects "quota exceeded") /\
  fst (run Scenario.ai_down Scenario.discord_batch Scenario.start)
  = Throw "Failed to generate summary: quota exceeded" /\
  source_summaries (DB (snd (run Scenario.ai_down Scenario.discord_batch Scenario.start)))
  = [] /\
  map processed
    (feedback (DB (snd (run Scenario.ai_down Scenario.discord_batch Scenario.start))))
  = [false; false; false].
Proof. repeat split. Qed.




End RunFacts.

(** ** POST /api/summarize/:source *)

Module WorkerFacts.
Import JS Store FeedbackProcessingWorkflow Runs Worker RunFacts.

Lemma firstn_incl {A} n (l : list A) x : In x (firstn n l) -> In x l.
Proof.
  intros H. rewrite <- (firstn_skipn n l). apply in_or_app. now left.
Qed.






(** The store of the example after one call: records 1 and 2 still
    unprocessed, their copies 3 and 4 processed. *)
Example manual_summarize_example :
  map (fun r => (id r, content r, processed r))
    (feedback (DB (snd (handleAPI_summarize Scenario.answering "github" 1
                          Scenario.pending))))
  = [ (1, "Issue #5: Bug", false); (2, "Issue #6: Typo", false);
      (3, "Issue #5: Bug", true); (4, "Issue #6: Typo", true) ].
Proof. reflexivity. Qed.

End WorkerFacts.

(** ** The aggregation pipeline *)

Module AggregationFacts.
Import JS Store Aggregation Runs.

Lemma totalFeedback_sum l :
  totalFeedback l = fold_right Z.add 0 (map feedback_count l).
Proof.
  unfold totalFeedback.
  assert (H : forall a, fold_left (fun sum s => sum + feedback_count s) l a
                        = a + fold_right Z.add 0 (map feedback_count l)).
  { induction l as [|s l IH]; intros a; cbn; [lia|]. rewrite IH. lia. }
  rewrite H. lia.
Qed.

Lemma uniqueSources_distinct l :
  exists names,
    NoDup names /\
    (forall x, In x names <-> exists s, In s l /\ ss_source s = x) /\
    uniqueSources l = Z.of_nat (List.length names).
Proof.
  exists (nodup string_dec (map ss_source l)). split; [apply NoDup_nodup|].
  split; [|reflexivity].
  intros x. rewrite nodup_In, in_map_iff. split; intros (s & H1 & H2); eauto.
Qed.

Lemma aggregates_row id text l window_start window_end t :
  aggregates
    (mkAggregated id text window_start window_end (uniqueSources l) (totalFeedback l) t)
    l window_start window_end.
Proof.
  unfold aggregates. cbn. repeat split; try apply totalFeedback_sum.
  apply uniqueSources_distinct.
Qed.

Lemma getSourceSummaries_run E a b w :
  getSourceSummaries E a b w =
  match D1_fault E SelectSourceSummaries with
  | None =>
      (Ok (order_by (fun x y => ss_created_at y <=? ss_created_at x)
             (filter (fun s => (a <=? date_range_start s) && (date_range_end s <=? b))
                (source_summaries (DB w)))), w)
  | Some e => (Throw e, w)
  end.
Proof.
  unfold getSourceSummaries, bind, execute, read_db, ret.
  destruct (D1_fault E SelectSourceSummaries); reflexivity.
Qed.

Lemma insertAggregatedSummary_run E text a b n m w :
  D1_fault E InsertAggregatedSummary = None ->
  insertAggregatedSummary E text a b n m w =
  (Ok (aggregated_summaries_seq (DB w) + 1),
   mkWorld
     (mkDatabase (feedback (DB w)) (feedback_seq (DB w))
        (source_summaries (DB w)) (source_summaries_seq (DB w))
        (aggregated_summaries (DB w)
         ++ [mkAggregated (aggregated_summaries_seq (DB w) + 1) text a b n m
               (now_seconds E (ticks w))])
        (aggregated_summaries_seq (DB w) + 1))
     (S (ticks w))
     (log w ++ [InsertedAggregatedSummary (aggregated_summaries_seq (DB w) + 1)])).
Proof.
  intros H. unfold insertAggregatedSummary, bind, now, execute, read_db, write_db,
              emit, ret.
  rewrite H. reflexivity.
Qed.

(** The fallback of aggregate.js: [generateAggregatedSummary] always returns
    a text and leaves the store alone. *)
Lemma generateAggregatedSummary_returns E l w :
  exists text, generateAggregatedSummary E l w = (Ok text, w).
Proof.
  unfold generateAggregatedSummary.
  destruct (List.length l =? 0)%nat; [unfold ret; eauto|].
  unfold try_catch, bind, AI, lift, ret.
  destruct (AI_run E _); [|eauto].
  destruct (Summarize.extract response); eauto.
Qed.

(** C7.  Whenever the fetch returns a non-empty list of source summaries
    and D1 takes the insert, the aggregated summary that is stored has
    [source_count] = the number of distinct sources among the fetched
    summaries, [total_feedback_count] = the sum of their [feedback_count],
    and the bounds of the query window, [now - days * 86400] and [now], as
    its date range: by the persist step of the workflow for any summary
    text, by [aggregateSummaries] whatever Workers AI does, and by a workflow
    run whose generate step returned a text. *)
Theorem aggregated_summary_fields (E : env) (days : Z) (w : world)
        (sourceSummaries : list source_summary) :
  let t := now_seconds E (ticks w) in
  let startTime := t - days * 24 * 60 * 60 in
  fst (getSourceSummaries E startTime t w) = Ok sourceSummaries ->
  sourceSummaries <> [] ->
  D1_fault E InsertAggregatedSummary = None ->
  (forall text w0,
      exists a,
        aggregated_summaries
          (DB (snd (store_aggregated_summary E
                      (mkFetched sourceSummaries (mkRange startTime t)) text w0)))
        = (aggregated_summaries (DB w0) ++ [a])%list /\
        agg_summary a = text /\
        aggregates a sourceSummaries startTime t) /\
  (exists a,
      aggregated_summaries (DB (snd (aggregateSummaries E days w)))
      = (aggregated_summaries (DB w) ++ [a])%list /\
      aggregates a sourceSummaries startTime t) /\
  (ai_answers E ->
   exists a,
     aggregated_summaries (DB (snd (run E days w)))
     = (aggregated_summaries (DB w) ++ [a])%list /\
     aggregates a sourceSummaries startTime t /\
     fst (run E days w)
     = Ok (mkOutcome true "Aggregated summary generated successfully"
             (Some (agg_summary a)) (Some (source_count a))
             (Some (total_feedback_count a)) (Some (mkRange startTime t)))).
Proof.
  intros t startTime Hfetch Hne Hins.
  rewrite getSourceSummaries_run in Hfetch.
  destruct (D1_fault E SelectSourceSummaries) as [e|] eqn:Hsel; [discriminate|].
  cbn [fst] in Hfetch. injection Hfetch as Hfetch.
  assert (Hlen : (List.length sourceSummaries =? 0)%nat = false).
  { destruct sourceSummaries; [contradiction | reflexivity]. }
  split; [|split].
  - intros text w0. unfold store_aggregated_summary, step_do, bind.
    cbn [summaries dateRange range_start range_end].
    rewrite (insertAggregatedSummary_run E _ _ _ _ _ _ Hins). unfold ret.
    cbn [snd DB aggregated_summaries]. eexists. split; [reflexivity|].
    split; [reflexivity | apply aggregates_row].
  - unfold aggregateSummaries, bind at 1, now, try_catch, bind at 1.
    rewrite getSourceSummaries_run, Hsel. cbn [DB ticks]. fold t. fold startTime.
    rewrite Hfetch, Hlen. unfold bind at 1.
    destruct (generateAggregatedSummary_returns E sourceSummaries
                (mkWorld (DB w) (S (ticks w)) (log w))) as [text ->].
    unfold bind. rewrite (insertAggregatedSummary_run E _ _ _ _ _ _ Hins).
    unfold ret. cbn [snd DB aggregated_summaries].
    eexists. split; [reflexivity | apply aggregates_row].
  - intros Hai.
    destruct (Hai (aggregationRequest
                     (aggregationPrompt
                        (combinedSummaries (toLocaleDateString E) sourceSummaries))))
      as (v & text & Hv & Hex).
    assert (Hrun : exists w',
               run E days w =
               (Ok (mkOutcome true "Aggregated summary generated successfully"
                      (Some text) (Some (uniqueSources sourceSummaries))
                      (Some (totalFeedback sourceSummaries))
                      (Some (mkRange startTime t))), w') /\
               aggregated_summaries (DB w') =
               (aggregated_summaries (DB w)
                ++ [mkAggregated (aggregated_summaries_seq (DB w) + 1) text startTime t
                      (uniqueSources sourceSummaries) (totalFeedback sourceSummaries)
                      (now_seconds E (S (ticks w)))])%list).
    { unfold run, bind at 1, fetch_source_summaries, step_do, bind at 1, now.
      unfold bind at 1. rewrite getSourceSummaries_run, Hsel. cbn [DB ticks].
      fold t. fold startTime. rewrite Hfetch. unfold ret. cbn [summaries]. rewrite Hlen.
      unfold bind at 1, generate_aggregated_summary, step_do, try_catch, bind at 1, AI.
      cbn [summaries]. rewrite Hv. unfold lift. rewrite Hex.
      unfold bind, store_aggregated_summary, step_do, bind.
      cbn [summaries dateRange range_start range_end].
      rewrite (insertAggregatedSummary_run E _ _ _ _ _ _ Hins). unfold ret.
      cbn [fst snd DB ticks aggregated_summaries aggregated_summaries_seq].
      eexists. split; reflexivity. }
    destruct Hrun as (w' & -> & Hrows). cbn [fst snd]. rewrite Hrows.
    eexists. split; [reflexivity|]. split; [apply aggregates_row | reflexivity].
Qed.

Lemma aggregated_summary_fields_witness :
  exists a,
    aggregated_summaries (DB (snd (run Scenario.answering 7 Scenario.summarized)))
    = [a] /\
    aggregates a (source_summaries (DB Scenario.summarized))
      (1700000000 - 7 * 24 * 60 * 60) 1700000000 /\
    fst (run Scenario.answering 7 Scenario.summarized)
    = Ok (mkOutcome true "Aggregated summary generated successfully"
            (Some (agg_summary a)) (Some (source_count a))
            (Some (total_feedback_count a))
            (Some (mkRange (1700000000 - 7 * 24 * 60 * 60) 1700000000))).
Proof.
  destruct (aggregated_summary_fields Scenario.answering 7 Scenario.summarized
              [ mkSourceSummary 2 "discord" (VStr "Dark mode.") 1699960000 1699990000 6
                  1699990001;
                mkSourceSummary 1 "github" (VStr "Crashes on save.") 1699900000
                  1699950000 4 1699950001 ])
    as (_ & _ & Hrun); [reflexivity | discriminate | reflexivity |].
  destruct Hrun as (a & Hrows & Hagg & Hres).
  { intros request. do 2 eexists. split; reflexivity. }
  exists a. split; [exact Hrows|]. split; [|exact Hres].
  destruct Hagg as ((names & Hnd & Hnames & Hcount) & Htotal & Hstart & Hend).
  repeat split; try assumption.
  exists names. repeat split; try assumption.
  - intros Hx. apply Hnames in Hx. destruct Hx as (s & Hs & <-). exists s.
    split; [|reflexivity]. cbn in *. tauto.
  - intros (s & Hs & <-). apply Hnames. exists s. split; [|reflexivity].
    cbn in *. tauto.
Defined.

(** Scenario 3 of the specification: summaries from github (4 items) and
    discord (6 items) in the 7-day window give one aggregated summary with
    [source_count = 2] and [total_feedback_count = 10]. *)
Example aggregation_scenario :
  map (fun a => (source_count a, total_feedback_count a,
                 agg_date_range_start a, agg_date_range_end a))
    (aggregated_summaries (DB (snd (run Scenario.answering 7 Scenario.summarized))))
  = [ (2, 10, 1699395200, 1700000000) ].
Proof. reflexivity. Qed.

End AggregationFacts.

(** * Further properties *)

(** ** Adapters: what is not recognized, bounds, trimming *)

Module WebhookExtras.
Import JS Webhooks Contract WebhookFacts.

(** An adapter whose guard does not fire returns the empty sequence: a
    payload other than [null] that carries none of the adapter's fields
    gives no item (for GitHub, a comment without its issue gives none). *)
Lemma adapt_unrecognized (a : adapter) (payload : value) :
  nullish payload = false ->
  recognizable a payload = false ->
  adapt a payload = Ok [].
Proof.
  intros Hn Hr. destruct a; cbn [adapt recognizable] in *.
  - apply orb_false_iff in Hr. destruct Hr as [Hi Hd].
    unfold parseGitHubWebhook. reads. rewrite Hi, Hd, andb_false_r. reflexivity.
  - unfold parseDiscordWebhook. reads. rewrite Hr. reflexivity.
  - apply orb_false_iff in Hr. destruct Hr as [Ht Hx].
    unfold parseTwitterWebhook. reads. rewrite Ht, Hx. reflexivity.
  - unfold parseEmailWebhook. reads. rewrite !truthy_or, Hr. reflexivity.
  - apply orb_false_iff in Hr. destruct Hr as [Hr Hc].
    apply orb_false_iff in Hr. destruct Hr as [Ht Hs].
    unfold parseSupportTicketWebhook. reads. rewrite Ht. reads.
    rewrite truthy_or, Hs, Hc. reflexivity.
  - apply orb_false_iff in Hr. destruct Hr as [Hr Hc].
    apply orb_false_iff in Hr. destruct Hr as [Hp Ht].
    unfold parseForumWebhook. reads. rewrite Hp. reads.
    rewrite truthy_or, Ht, Hc. reflexivity.
Qed.

(** Every named adapter reads a field of the payload first, so a [null]
    JSON body makes it throw a TypeError. *)
Lemma adapt_null_payload (a : adapter) (payload : value) :
  nullish payload = true -> exists e, adapt a payload = Throw e.
Proof.
  intros Hn. destruct payload; try discriminate; destruct a; cbn; eauto.
Qed.

(** A source whose lowercased name is none of the six adapter names and
    none of the two inherited keys gets the generic fallback for every
    payload, [null] included: one item, [metadata = {raw: true}], the payload
    itself as content when it is a string and its JSON text otherwise. *)
Lemma parseWebhook_unknown_source (source : string) (payload : value) :
  ~ In (toLowerCase source)
      ["github"; "discord"; "twitter"; "email"; "support"; "forum";
       "constructor"; "__proto__"] ->
  parseWebhook source payload =
  Ok (Items [ {| content := if is_string payload then payload
                            else JSON_stringify payload;
                 metadata := VObj [("raw", VBool true)] |} ]).
Proof.
  intros Hnot. apply parseWebhook_generic. unfold parsers.
  repeat match goal with
         | |- context [(toLowerCase source =? ?k)%string] =>
             destruct (String.eqb_spec (toLowerCase source) k) as [Heq | _];
             [exfalso; apply Hnot; rewrite Heq; cbn; tauto|]
         end.
  reflexivity.
Qed.

(** *** How many items *)

(** One payload gives at most three items from the GitHub adapter (issue,
    comment, discussion), at most two from the Twitter adapter and at most
    one from each of the others. *)
Theorem adapt_most_items (a : adapter) (payload : value) (items : list item) :
  adapt a payload = Ok items ->
  (List.length items <= Bounds.most_items a)%nat.
Proof.
  intros H. destruct (nullish payload) eqn:Hn.
  { destruct (adapt_null_payload a payload Hn) as [e He]. congruence. }
  destruct a; cbn [adapt Bounds.most_items] in *.
  - unfold parseGitHubWebhook in H. revert H. reads.
    destruct (truthy (get_opt payload "issue")) eqn:Hi; reads;
      destruct (truthy (get_opt payload "comment")) eqn:Hc; cbn [andb]; reads;
      destruct (truthy (get_opt payload "discussion")) eqn:Hd; reads;
      try match goal with
          | |- context [match ?l with VUndefined => _ | _ => _ end] =>
              destruct (match l with VUndefined => _ | _ => _ end);
                cbn [rbind]
          end;
      intros H; try discriminate H; injection H as <-; cbn; lia.
  - unfold parseDiscordWebhook in H. revert H. reads.
    destruct (truthy (get_opt payload "content") || truthy (get_opt payload "embeds"));
      [|intros H; injection H as <-; cbn; lia].
    destruct (truthy (get_opt payload "embeds")) eqn:He; reads;
      match goal with
      | |- context [if ?b then _ else _] => destruct b
      end;
      try match goal with
          | |- context [array_map ?w ?v ?f] => destruct (array_map w v f); cbn [rbind]
          end;
      try match goal with
          | |- context [or ?x ?y] => destruct (or x y); cbn [rbind]
          end;
      intros H; try discriminate H; injection H as <-; cbn; lia.
  - unfold parseTwitterWebhook in H. revert H. reads.
    destruct (truthy (get_opt payload "tweet")) eqn:Ht; reads;
      destruct (truthy (get_opt payload "text")) eqn:Hx; reads;
      intros H; injection H as <-; cbn; lia.
  - unfold parseEmailWebhook in H. revert H. reads.
    match goal with |- context [if ?b then _ else _] => destruct b end;
      intros H; injection H as <-; cbn; lia.
  - unfold parseSupportTicketWebhook in H. revert H. reads.
    destruct (truthy (get_opt payload "ticket")) eqn:Ht; reads;
      try match goal with |- context [if ?b then _ else _] => destruct b end;
      intros H; injection H as <-; cbn; lia.
  - unfold parseForumWebhook in H. revert H. reads.
    destruct (truthy (get_opt payload "post")) eqn:Ht; reads;
      try match goal with |- context [if ?b then _ else _] => destruct b end;
      intros H; injection H as <-; cbn; lia.
Qed.

Lemma adapt_most_items_witness :
  (List.length
     [ {| content := VStr "";
          metadata :=
            VObj [ ("tweet_id", VNum 1); ("author", VUndefined);
                   ("author_id", VUndefined); ("created_at", VUndefined);
                   ("url", VStr "https://twitter.com/undefined/status/1") ] |};
       {| content := VStr "hi";
          metadata :=
            VObj [ ("tweet_id", VUndefined); ("author", VUndefined);
                   ("created_at", VUndefined); ("url", VUndefined) ] |} ]
   <= Bounds.most_items Twitter)%nat.
Proof.
  apply (adapt_most_items Twitter Scenario.tweet_without_text). reflexivity.
Defined.

(** *** Trimmed Discord content *)

Lemma trim_end_cons c s :
  trim_end (String c s) =
  match trim_end s with
  | EmptyString => if is_space c then EmptyString else String c EmptyString
  | t => String c t
  end.
Proof. reflexivity. Qed.

Lemma trim_end_idempotent s : trim_end (trim_end s) = trim_end s.
Proof.
  induction s as [|c s IH]; [reflexivity|]. rewrite trim_end_cons.
  destruct (trim_end s) as [|d t] eqn:Ht.
  - destruct (is_space c) eqn:Hc; [reflexivity|]. cbn. now rewrite Hc.
  - rewrite trim_end_cons, IH. reflexivity.
Qed.

Lemma trim_start_head s :
  trim_start s = "" \/
  exists c t, trim_start s = String c t /\ is_space c = false.
Proof.
  induction s as [|c s IH]; cbn; [auto|].
  destruct (is_space c) eqn:Hc; [exact IH | eauto].
Qed.

Lemma trim_idempotent s : trim (trim s) = trim s.
Proof.
  unfold trim. destruct (trim_start_head s) as [-> | (c & t & -> & Hc)];
    [reflexivity|].
  assert (Hstart : trim_start (trim_end (String c t)) = trim_end (String c t)).
  { rewrite trim_end_cons. destruct (trim_end t); rewrite ?Hc; cbn; now rewrite Hc. }
  rewrite Hstart. apply trim_end_idempotent.
Qed.

(** Every item the Discord adapter returns has text content without white
    space at either end: trimming it again changes nothing. *)
Theorem discord_content_trimmed (payload : value) (items : list item) :
  parseDiscordWebhook payload = Ok items ->
  Forall (fun i => exists s, content i = VStr s /\ trim s = s) items.
Proof.
  intros H. destruct (nullish payload) eqn:Hn.
  { destruct (adapt_null_payload Discord payload Hn) as [e He]. cbn in He. congruence. }
  unfold parseDiscordWebhook in H. revert H. reads.
  destruct (truthy (get_opt payload "content") || truthy (get_opt payload "embeds"));
    [|intros H; injection H as <-; constructor].
  destruct (truthy (get_opt payload "embeds")) eqn:He; reads;
    match goal with
    | |- context [if ?b then _ else _] => destruct b
    end;
    try match goal with
        | |- context [array_map ?w ?v ?f] => destruct (array_map w v f); cbn [rbind]
        end;
    try match goal with
        | |- context [or ?x ?y] => destruct (or x y); cbn [rbind]
        end;
    intros H; try discriminate H; injection H as <-;
    (constructor; [|constructor]); cbn [content];
    eexists; (split; [reflexivity | apply trim_idempotent]).
Qed.

Lemma discord_content_trimmed_witness :
  Forall (fun i => exists s, content i = VStr s /\ trim s = s)
    [ {| content := VStr "hello";
         metadata :=
           VObj [ ("channel_id", VUndefined); ("guild_id", VUndefined);
                  ("author", VUndefined); ("author_id", VUndefined);
                  ("message_id", VUndefined); ("timestamp", VUndefined) ] |} ].
Proof.
  apply (discord_content_trimmed (VObj [("content", VStr "  hello  ")])). reflexivity.
Defined.

End WebhookExtras.

(** ** The D1 bindings: ordering, limits, counts, flags *)

Module StoreExtras.
Import JS Store Queries Ranking Runs.

Section Ranked.
Context {A : Type} (key : A -> Z).

Let asc (a b : A) : Prop := key a <= key b.
Let before (a b : A) : bool := key a <=? key b.

Lemma insert_sorted x l : Sorted asc l -> Sorted asc (insert before x l).
Proof.
  induction 1 as [|y l Hs IH Hhd]; cbn; [repeat constructor|].
  unfold before at 1. destruct (key x <=? key y) eqn:Hxy.
  - apply Z.leb_le in Hxy. repeat constructor; assumption.
  - apply Z.leb_gt in Hxy. constructor; [exact IH|].
    destruct l as [|z l]; cbn.
    + constructor. unfold asc. lia.
    + unfold before at 1. destruct (key x <=? key z).
      * constructor. unfold asc. lia.
      * inversion Hhd; subst. constructor. assumption.
Qed.

Lemma order_by_sorted l : Sorted asc (order_by before l).
Proof. induction l as [|x l IH]; cbn; [constructor | now apply insert_sorted]. Qed.

Lemma sorted_split l :
  Sorted asc l ->
  forall n r r', In r (firstn n l) -> In r' (skipn n l) -> asc r r'.
Proof.
  intros Hs. apply Sorted_StronglySorted in Hs.
  2:{ intros a b c. unfold asc. lia. }
  induction Hs as [|x l Hs IH Hall]; intros n r r' Hr Hr'.
  - destruct n; contradiction.
  - destruct n as [|n]; [contradiction|]. cbn in Hr, Hr'.
    destruct Hr as [<- | Hr].
    + rewrite Forall_forall in Hall. apply Hall.
      rewrite <- (firstn_skipn n l). apply in_or_app. now right.
    + now apply (IH n).
Qed.

Lemma sorted_firstn l n : Sorted asc l -> Sorted asc (firstn n l).
Proof.
  intros Hs. revert n. induction Hs as [|x l Hs IH Hhd]; intros n.
  - destruct n; constructor.
  - destruct n as [|n]; cbn; [constructor|]. constructor; [apply IH|].
    destruct l as [|y l]; destruct n; cbn; constructor.
    now inversion Hhd.
Qed.

Lemma ranked_firstn limit l :
  ranked asc limit l (firstn limit (order_by before l)).
Proof.
  exists (skipn limit (order_by before l)). repeat split.
  - rewrite firstn_skipn. apply StoreFacts.order_by_permutation.
  - rewrite length_firstn, StoreFacts.order_by_length. reflexivity.
  - apply sorted_firstn, order_by_sorted.
  - apply sorted_split, order_by_sorted.
Qed.

End Ranked.

(** [getUnprocessedFeedback] returns the oldest unprocessed records of the
    source: they are unprocessed rows of that source, in ascending
    [created_at], [limit] of them (or all when there are fewer), and every
    matching row left out is at least as recent as every row returned. *)
Theorem getUnprocessedFeedback_oldest (E : env) (src : string) (limit : nat)
        (w : world) :
  D1_fault E SelectUnprocessedFeedback = None ->
  exists result,
    getUnprocessedFeedback E src limit w = (Ok result, w) /\
    ranked (fun a b => created_at a <= created_at b) limit
      (filter (fun r => ((source r =? src)%string && negb (processed r))%bool)
         (feedback (DB w)))
      result /\
    Forall (fun r => In r (feedback (DB w)) /\ source r = src /\ processed r = false)
      result.
Proof.
  intros H. eexists. split; [|split].
  - unfold getUnprocessedFeedback, bind, execute, read_db, ret. rewrite H. reflexivity.
  - apply (ranked_firstn created_at).
  - rewrite Forall_forall. intros r Hr.
    apply WorkerFacts.firstn_incl, StoreFacts.order_by_In, filter_In in Hr.
    destruct Hr as [Hin Hsel]. apply andb_true_iff in Hsel. destruct Hsel as [Hs Hp].
    apply String.eqb_eq in Hs. apply negb_true_iff in Hp. auto.
Qed.

Lemma getUnprocessedFeedback_oldest_witness :
  exists result,
    getUnprocessedFeedback Scenario.answering "github" 1 Scenario.pending
    = (Ok result, Scenario.pending) /\
    ranked (fun a b => created_at a <= created_at b) 1
      (filter (fun r => ((source r =? "github")%string && negb (processed r))%bool)
         (feedback (DB Scenario.pending)))
      result /\
    Forall (fun r => In r (feedback (DB Scenario.pending)) /\ source r = "github"
                     /\ processed r = false)
      result.
Proof.
  apply (getUnprocessedFeedback_oldest Scenario.answering "github" 1 Scenario.pending).
  reflexivity.
Defined.

Lemma ranked_newest {A : Type} (key : A -> Z) limit l :
  ranked (fun a b => key b <= key a) limit l
    (firstn limit (order_by (fun a b => key b <=? key a) l)).
Proof.
  pose proof (ranked_firstn (fun a => - key a) limit l) as (rest & Hp & Hl & Hs & Hr).
  assert (Hins : forall (x : A) m,
             insert (fun a b => - key a <=? - key b) x m
             = insert (fun a b => key b <=? key a) x m).
  { intros x m. induction m as [|y m IH]; cbn; [reflexivity|].
    replace (- key x <=? - key y) with (key y <=? key x)
      by (destruct (key y <=? key x) eqn:H1, (- key x <=? - key y) eqn:H2;
          try reflexivity;
          rewrite ?Z.leb_le, ?Z.leb_gt in *; lia).
    now rewrite IH. }
  assert (Hord : order_by (fun a b => - key a <=? - key b) l
                 = order_by (fun a b => key b <=? key a) l).
  { clear -Hins. induction l as [|x l IH]; cbn; [reflexivity|]. now rewrite IH, Hins. }
  rewrite Hord in *. exists rest. repeat split; try assumption.
  - eapply Sorted_ind with (P := fun m => Sorted (fun a b => key b <= key a) m);
      [constructor | | exact Hs].
    intros a m _ IH Hhd. constructor; [exact IH|].
    destruct Hhd; constructor. lia.
  - intros r r' H1 H2. specialize (Hr r r' H1 H2). cbn in Hr. lia.
Qed.


(** The three "latest" queries return the newest rows: in descending
    [created_at], [limit] of them (or all when there are fewer), every row
    left out at least as old as every row returned;
    [getSourceSummariesBySource] ranks the summaries of that source only. *)
Theorem latest_queries_newest_first (Q_fault : query -> option string) (src : string)
        (limit : nat) (w : world) :
  (forall q, Q_fault q = None) ->
  (exists result,
      getLatestSourceSummaries Q_fault limit w = (Ok result, w) /\
      ranked (fun a b => ss_created_at b <= ss_created_at a) limit
        (source_summaries (DB w)) result) /\
  (exists result,
      getSourceSummariesBySource Q_fault src limit w = (Ok result, w) /\
      ranked (fun a b => ss_created_at b <= ss_created_at a) limit
        (filter (fun s => (ss_source s =? src)%string) (source_summaries (DB w)))
        result /\
      Forall (fun s => ss_source s = src) result) /\
  (exists result,
      getLatestAggregatedSummaries Q_fault limit w = (Ok result, w) /\
      ranked (fun a b => agg_created_at b <= agg_created_at a) limit
        (aggregated_summaries (DB w)) result).
Proof.
  intros Hq. split; [|split]; eexists.
  - split.
    + unfold getLatestSourceSummaries, bind, execute_query, read_db, ret.
      rewrite Hq. reflexivity.
    + apply (ranked_newest ss_created_at).
  - split; [|split].
    + unfold getSourceSummariesBySource, bind, execute_query, read_db, ret.
      rewrite Hq. reflexivity.
    + apply (ranked_newest ss_created_at).
    + rewrite Forall_forall. intros s Hs.
      apply WorkerFacts.firstn_incl, StoreFacts.order_by_In, filter_In in Hs.
      destruct Hs as [_ Hs]. now apply String.eqb_eq in Hs.
  - split.
    + unfold getLatestAggregatedSummaries, bind, execute_query, read_db, ret.
      rewrite Hq. reflexivity.
    + apply (ranked_newest agg_created_at).
Qed.

Lemma latest_queries_newest_first_witness :
  exists result,
    getSourceSummariesBySource (fun _ => None) "discord" 20 Scenario.summarized
    = (Ok result, Scenario.summarized) /\
    ranked (fun a b => ss_created_at b <= ss_created_at a) 20
      (filter (fun s => (ss_source s =? "discord")%string)
         (source_summaries (DB Scenario.summarized)))
      result /\
    Forall (fun s => ss_source s = "discord") result.
Proof.
  apply (latest_queries_newest_first (fun _ => None) "discord" 20 Scenario.summarized).
  intros q. reflexivity.
Defined.

(** *** Counts per source *)

Lemma list_sum_add {A} (f g : A -> nat) l :
  list_sum (map (fun k => (f k + g k)%nat) l)
  = (list_sum (map f l) + list_sum (map g l))%nat.
Proof.
  unfold list_sum. induction l as [|k l IH]; cbn; [reflexivity | rewrite IH; lia].
Qed.

Lemma indicator_absent (x : string) ks :
  ~ In x ks ->
  list_sum (map (fun k => if (x =? k)%string then 1%nat else 0%nat) ks) = 0%nat.
Proof.
  unfold list_sum. induction ks as [|k ks IH]; cbn; [reflexivity|]. intros Hno.
  destruct (String.eqb_spec x k) as [Heq | Hne]; [elim Hno; now left|].
  apply IH. intros Hin. apply Hno. now right.
Qed.

Lemma indicator_present (x : string) ks :
  NoDup ks -> In x ks ->
  list_sum (map (fun k => if (x =? k)%string then 1%nat else 0%nat) ks) = 1%nat.
Proof.
  induction 1 as [|k ks Hk Hnd IH]; [contradiction|]. intros [Heq | Hin].
  - subst k. pose proof (indicator_absent x ks Hk) as H0.
    unfold list_sum in *. cbn. rewrite String.eqb_refl, H0. reflexivity.
  - specialize (IH Hin). unfold list_sum in *. cbn.
    destruct (String.eqb_spec x k) as [Heq | Hne]; [subst; contradiction|].
    exact IH.
Qed.

Lemma group_counts_sum (rows : list feedback_row) ks :
  NoDup ks ->
  (forall r, In r rows -> In (source r) ks) ->
  list_sum (map (fun k => List.length
                            (filter (fun r => (source r =? k)%string) rows)) ks)
  = List.length rows.
Proof.
  intros Hnd. induction rows as [|r rows IH]; intros Hin.
  - cbn. clear. unfold list_sum. induction ks; cbn; [reflexivity | assumption].
  - assert (Heq : forall k,
               List.length (filter (fun r0 => (source r0 =? k)%string) (r :: rows))
               = ((if (source r =? k)%string then 1 else 0)
                  + List.length (filter (fun r0 => (source r0 =? k)%string) rows))%nat).
    { intros k. cbn. destruct (source r =? k)%string; reflexivity. }
    rewrite (map_ext _ _ Heq), list_sum_add.
    rewrite (indicator_present (source r) ks Hnd) by (apply Hin; now left).
    rewrite IH by (intros r0 Hr0; apply Hin; now right). reflexivity.
Qed.

(** [getFeedbackCountsBySource] lists every source of the feedback table
    once, with the number of its rows; the counts are at least 1 and add up
    to the size of the table. *)
Theorem feedback_counts_partition (Q_fault : query -> option string) (w : world) :
  Q_fault SelectFeedbackCounts = None ->
  exists rows,
    getFeedbackCountsBySource Q_fault w = (Ok rows, w) /\
    NoDup (map count_source rows) /\
    (forall r, In r (feedback (DB w)) -> In (source r) (map count_source rows)) /\
    Forall (fun row =>
              count row
              = Z.of_nat (List.length
                            (filter (fun r => (source r =? count_source row)%string)
                               (feedback (DB w))))
              /\ 1 <= count row) rows /\
    fold_right Z.add 0 (map count rows) = Z.of_nat (List.length (feedback (DB w))).
Proof.
  intros Hq. eexists. split.
  { unfold getFeedbackCountsBySource, bind, execute_query, read_db, ret.
    rewrite Hq. reflexivity. }
  set (ks := nodup string_dec (map source (feedback (DB w)))).
  assert (Hnd : NoDup ks) by apply NoDup_nodup.
  assert (Hin : forall r, In r (feedback (DB w)) -> In (source r) ks).
  { intros r Hr. apply nodup_In, in_map, Hr. }
  rewrite map_map. cbn [count_source]. rewrite map_id. repeat split.
  - exact Hnd.
  - exact Hin.
  - rewrite Forall_map, Forall_forall. intros k Hk. cbn [count count_source].
    split; [reflexivity|].
    apply nodup_In, in_map_iff in Hk. destruct Hk as (r & Hs & Hr).
    assert (Hm : In r (filter (fun r0 => (source r0 =? k)%string) (feedback (DB w)))).
    { apply filter_In. split; [exact Hr | now apply String.eqb_eq]. }
    destruct (filter _ _); [contradiction | cbn; lia].
  - rewrite map_map. cbn [count].
    rewrite <- (group_counts_sum (feedback (DB w)) ks Hnd Hin).
    clearbody ks. clear. unfold list_sum.
    induction ks as [|k ks IH]; cbn [map fold_right]; [reflexivity|].
    rewrite IH. lia.
Qed.

Lemma feedback_counts_partition_witness :
  exists rows,
    getFeedbackCountsBySource (fun _ => None) Scenario.pending
    = (Ok rows, Scenario.pending) /\
    NoDup (map count_source rows) /\
    (forall r, In r (feedback (DB Scenario.pending)) ->
               In (source r) (map count_source rows)) /\
    Forall (fun row =>
              count row
              = Z.of_nat (List.length
                            (filter (fun r => (source r =? count_source row)%string)
                               (feedback (DB Scenario.pending))))
              /\ 1 <= count row) rows /\
    fold_right Z.add 0 (map count rows)
    = Z.of_nat (List.length (feedback (DB Scenario.pending))).
Proof.
  apply (feedback_counts_partition (fun _ => None) Scenario.pending). reflexivity.
Defined.


(** *** Flags *)

Lemma set_processed_flag ids r :
  processed (set_processed ids r) = (processed r || mem (id r) ids)%bool.
Proof.
  unfold set_processed. destruct (mem (id r) ids); cbn;
    [now rewrite orb_true_r | now rewrite orb_false_r].
Qed.

Lemma set_processed_id ids r : id (set_processed ids r) = id r.
Proof. unfold set_processed. now destruct (mem (id r) ids). Qed.

Lemma set_processed_twice ids r :
  set_processed ids (set_processed ids r) = set_processed ids r.
Proof.
  unfold set_processed at 1. rewrite set_processed_id.
  unfold set_processed. destruct (mem (id r) ids); reflexivity.
Qed.

(** [markFeedbackProcessed] on a non-empty id list only ever sets flags:
    the table keeps its rows and every column but [processed]; a row is
    processed afterwards exactly when it was before or its id is listed;
    the summary tables are untouched; marking the same ids again changes
    nothing. *)
Theorem markFeedbackProcessed_sets_flags (E : env) (i : Z) (others : list Z)
        (w : world) :
  D1_fault E UpdateProcessed = None ->
  let ids := i :: others in
  let after := DB (snd (markFeedbackProcessed E ids w)) in
  map (fun r => (id r, source r, content r, metadata r, created_at r)) (feedback after)
  = map (fun r => (id r, source r, content r, metadata r, created_at r))
      (feedback (DB w)) /\
  map processed (feedback after)
  = map (fun r => (processed r || mem (id r) ids)%bool) (feedback (DB w)) /\
  source_summaries after = source_summaries (DB w) /\
  aggregated_summaries after = aggregated_summaries (DB w) /\
  DB (snd (markFeedbackProcessed E ids (snd (markFeedbackProcessed E ids w)))) = after.
Proof.
  intros H ids after.
  assert (Hmark : forall w0,
             DB (snd (markFeedbackProcessed E ids w0)) =
             mkDatabase (map (set_processed ids) (feedback (DB w0))) (feedback_seq (DB w0))
               (source_summaries (DB w0)) (source_summaries_seq (DB w0))
               (aggregated_summaries (DB w0)) (aggregated_summaries_seq (DB w0))).
  { intros w0. unfold markFeedbackProcessed. subst ids. cbn [List.length Nat.eqb].
    unfold bind, execute, read_db, write_db, emit, ret. rewrite H. reflexivity. }
  subst after. rewrite !Hmark. cbn [feedback source_summaries aggregated_summaries
                                      feedback_seq source_summaries_seq
                                      aggregated_summaries_seq].
  repeat split.
  - rewrite map_map. apply map_ext. intros r. unfold set_processed.
    destruct (mem (id r) ids); reflexivity.
  - rewrite map_map. apply map_ext. intros r. apply set_processed_flag.
  - f_equal. rewrite map_map. apply map_ext. intros r. apply set_processed_twice.
Qed.

Lemma markFeedbackProcessed_sets_flags_witness :
  map processed
    (feedback (DB (snd (markFeedbackProcessed Scenario.answering [2; 7] Scenario.pending))))
  = map (fun r => (processed r || mem (id r) [2; 7])%bool)
      (feedback (DB Scenario.pending)).
Proof.
  apply (markFeedbackProcessed_sets_flags Scenario.answering 2 [7] Scenario.pending).
  reflexivity.
Defined.

(** *** Insert, then select by id *)

(** In a store whose rowids respect the counter, [insertFeedback] hands out
    an id above every id in the table, keeps the store well-formed, and the
    by-id select of unprocessed rows then returns exactly the new row: the
    given source and content, the metadata as JSON ([{}] when none was
    given), the clock's reading, [processed = 0]. *)
Theorem insert_then_select (E : env) (src text : string) (meta : value) (w : world) :
  well_formed (DB w) ->
  D1_fault E InsertFeedback = None ->
  D1_fault E SelectFeedbackByIds = None ->
  exists new_id w',
    insertFeedback E src text meta w = (Ok new_id, w') /\
    Forall (fun r => id r < new_id) (feedback (DB w)) /\
    well_formed (DB w') /\
    selectUnprocessedByIds E [new_id] w'
    = (Ok [ mkFeedback new_id src text
              (JSON_doc (match meta with VUndefined => VObj [] | _ => meta end))
              (now_seconds E (ticks w)) false ],
       w').
Proof.
  intros Hwf Hins Hsel.
  assert (Hrun : insertFeedback E src text meta w =
                 (Ok (feedback_seq (DB w) + 1),
                  mkWorld
                    (mkDatabase
                       (feedback (DB w)
                        ++ [mkFeedback (feedback_seq (DB w) + 1) src text
                              (JSON_doc (match meta with
                                         | VUndefined => VObj []
                                         | _ => meta
                                         end))
                              (now_seconds E (ticks w)) false])
                       (feedback_seq (DB w) + 1)
                       (source_summaries (DB w)) (source_summaries_seq (DB w))
                       (aggregated_summaries (DB w)) (aggregated_summaries_seq (DB w)))
                    (S (ticks w))
                    (log w ++ [InsertedFeedback (feedback_seq (DB w) + 1)]))).
  { unfold insertFeedback, bind, now, execute, read_db, write_db, emit, ret.
    rewrite Hins. reflexivity. }
  rewrite Hrun. do 2 eexists. split; [reflexivity|]. unfold well_formed in *.
  split; [|split].
  - eapply Forall_impl; [|exact Hwf]. cbn. intros r Hr. lia.
  - cbn. apply Forall_app. split.
    + eapply Forall_impl; [|exact Hwf]. cbn. intros r Hr. lia.
    + repeat constructor. cbn. lia.
  - unfold selectUnprocessedByIds, bind, execute, read_db, ret. rewrite Hsel.
    cbn [DB feedback]. rewrite filter_app. cbn [filter id processed mem existsb].
    rewrite Z.eqb_refl. cbn [orb andb negb]. rewrite RunFacts.filter_none; [reflexivity|].
    eapply Forall_impl; [|exact Hwf]. cbn. intros r Hr.
    replace (id r =? feedback_seq (DB w) + 1) with false
      by (symmetry; apply Z.eqb_neq; lia).
    reflexivity.
Qed.

Lemma insert_then_select_witness :
  exists new_id w',
    insertFeedback Scenario.answering "forum" "Post: Hi" VUndefined Scenario.pending
    = (Ok new_id, w') /\
    Forall (fun r => id r < new_id) (feedback (DB Scenario.pending)) /\
    well_formed (DB w') /\
    selectUnprocessedByIds Scenario.answering [new_id] w'
    = (Ok [ mkFeedback new_id "forum" "Post: Hi" (VObj [])
              (now_seconds Scenario.answering (ticks Scenario.pending)) false ],
       w').
Proof.
  apply (insert_then_select Scenario.answering "forum" "Post: Hi" VUndefined
           Scenario.pending);
    [repeat constructor; cbn; lia | reflexivity | reflexivity].
Defined.

End StoreExtras.

(** ** The feedback workflow: what a run leaves alone *)

Module RunExtras.
Import JS Store FeedbackProcessingWorkflow Runs RunFacts.



Lemma inserted_rows_source E src seq tick todo :
  Forall (fun r => source r = src) (inserted_rows E src seq tick todo).
Proof.
  revert seq tick. induction todo as [|it rest IH]; intros seq tick; cbn; constructor;
    [reflexivity | apply IH].
Qed.




(** What a run that returns has reached. *)
Lemma run_returns E p w o w' :
  run E p w = (Ok o, w') ->
  (stage_reached E p w = NoItems /\ summaryId o = None) \/
  (stage_reached E p w = NoneUnprocessed /\ summaryId o = None) \/
  (exists text first others,
      stage_reached E p w = Completed text /\
      reloaded E p w = first :: others /\
      out_feedbackIds o = ids E p w /\
      message o
      = "Processed " ++ number_to_string (Z.of_nat (List.length (feedbackItems p)))
        ++ " feedback items for " ++ p_source p /\
      summaryId o
      = Some (mkSummaryResult
                (Summarize.Math_min (created_at first) (map created_at others))
                (Summarize.Math_max (created_at first) (map created_at others))
                (Z.of_nat (List.length (first :: others))))).
Proof.
  intros Hrun. unfold run in Hrun. unfold stage_reached.
  unfold bind at 1 in Hrun.
  destruct (feedbackItems p) as [|it rest] eqn:Hitems.
  - unfold store_feedback, step_do, bind in Hrun. rewrite Hitems in Hrun.
    cbn in Hrun. injection Hrun as <- _. auto.
  - destruct (D1_fault E InsertFeedback) as [e|] eqn:Hins.
    + rewrite (store_feedback_rejected E p w e it rest Hins Hitems) in Hrun.
      discriminate Hrun.
    + destruct (store_feedback_ok E p w Hins) as [st Hst]. rewrite Hst in Hrun.
      rewrite Hitems in Hrun.
      cbn [count List.length Nat.eqb] in Hrun. unfold bind at 1 in Hrun.
      rewrite fetch_feedback_records_run in Hrun.
      cbn [feedbackIds DB feedback stored_db] in Hrun.
      fold (reloaded E p w) in Hrun.
      destruct (D1_fault E SelectFeedbackByIds) as [e|] eqn:Hsel;
        [discriminate Hrun|].
      destruct (reloaded E p w) as [|first others] eqn:Hrel.
      { injection Hrun as <- _. auto. }
      unfold bind at 1 in Hrun. rewrite generate_summary_run in Hrun.
      destruct (generated E (first :: others)) as [text|e] eqn:Hgen;
        [|discriminate Hrun].
      unfold bind at 1 in Hrun. rewrite store_summary_run in Hrun.
      destruct (D1_fault E InsertSourceSummary) as [e|] eqn:Hsum;
        [discriminate Hrun|].
      unfold bind at 1 in Hrun.
      assert (exists i l, ids E p w = i :: l) as (i & l & Hids).
      { unfold ids, rows. rewrite Hitems. cbn. eauto. }
      rewrite (mark_processed_run E _ _ i l) in Hrun by exact Hids.
      destruct (D1_fault E UpdateProcessed) as [e|] eqn:Hupd;
        [discriminate Hrun|].
      unfold bind, lift, ret in Hrun.
      destruct (preview text); [|discriminate Hrun].
      injection Hrun as <- _. right. right. exists text, first, others.
      cbn [out_feedbackIds message summaryId count feedbackIds].
      repeat split.
Qed.

(** In a store whose rowids respect the counter, the reload step of a run
    never comes back empty: the records just inserted are unprocessed and
    have ids no older row has.  So whenever the fetch step completes the run
    goes on to the generate-summary step, and a run over a non-empty item
    list that returns has stored a summary that counts every item and has
    flagged every inserted record; the exit "No unprocessed feedback found"
    is not taken. *)
Theorem reload_finds_inserted (E : env) (p : params) (w : world) :
  well_formed (DB w) ->
  (exists evs,
      log (snd (run E p w)) = (log w ++ evs)%list /\
      (In (StepCompleted "fetch-feedback-records") evs ->
       In (StepCompleted "generate-summary") evs \/
       In (StepFailed "generate-summary") evs)) /\
  (forall o,
      feedbackItems p <> [] ->
      fst (run E p w) = Ok o ->
      message o <> "No unprocessed feedback found" /\
      (exists range_start range_end,
          summaryId o
          = Some (mkSummaryResult range_start range_end
                    (Z.of_nat (List.length (feedbackItems p))))) /\
      feedback (DB (snd (run E p w)))
      = (feedback (DB w) ++ map flagged (rows E p w))%list).
Proof.
  intros Hwf.
  assert (Hnot : stage_reached E p w <> NoneUnprocessed).
  { unfold stage_reached. rewrite (reloaded_fresh E p w Hwf).
    destruct (feedbackItems p) as [|it rest] eqn:Hitems; [discriminate|].
    destruct (D1_fault E InsertFeedback); [discriminate|].
    destruct (D1_fault E SelectFeedbackByIds); [discriminate|].
    assert (Hrows : rows E p w <> []) by (apply rows_nonempty; congruence).
    destruct (rows E p w) as [|r l] eqn:Hr; [contradiction|].
    destruct (generated E (r :: l)); [|discriminate].
    destruct (D1_fault E InsertSourceSummary); [discriminate|].
    destruct (D1_fault E UpdateProcessed); discriminate. }
  split.
  - destruct (run_stage E p w) as (_ & Hlog & _).
    exists (events_at E p w (stage_reached E p w)). split; [exact Hlog|].
    destruct (stage_reached E p w); try contradiction; cbn [events_at]; intros H;
      try (cbn in H; repeat (destruct H as [H | H]; try discriminate H); contradiction);
      try (in_trace H; fail);
      try (left; apply in_or_app; right; cbn; tauto);
      right; apply in_or_app; right; cbn; tauto.
  - intros o Hitems Hres.
    destruct (run E p w) as [r w'] eqn:Hrun. cbn [fst snd] in *. subst r.
    pose proof (run_stage_of E p w (Ok o) w' Hrun) as (Hdb & _ & _).
    destruct (run_returns E p w o w' Hrun)
      as [[Hst _] | [[Hst _] | (text & first & others & Hst & Hrel & _ & Hmsg & Hsum)]].
    + exfalso. unfold stage_reached in Hst.
      destruct (feedbackItems p); [contradiction|].
      repeat match type of Hst with
             | match ?x with _ => _ end = _ => destruct x; try discriminate Hst
             end.
    + contradiction.
    + rewrite Hdb, Hst. cbn [db_at marked_db feedback stored_db].
      rewrite (marked_fresh E p w Hwf). split; [|split; [|reflexivity]].
      * rewrite Hmsg. discriminate.
      * rewrite Hsum. do 2 eexists. f_equal. f_equal.
        rewrite <- Hrel, (reloaded_fresh E p w Hwf). unfold rows.
        now rewrite inserted_rows_length.
Qed.


Lemma reload_finds_inserted_witness :
  feedback (DB (snd (run Scenario.answering Scenario.discord_batch Scenario.pending)))
  = (feedback (DB Scenario.pending)
     ++ map flagged (rows Scenario.answering Scenario.discord_batch Scenario.pending))%list.
Proof.
  destruct (reload_finds_inserted Scenario.answering Scenario.discord_batch
              Scenario.pending) as [_ H].
  - repeat constructor; cbn; lia.
  - eapply H; [discriminate | vm_compute; reflexivity].
Defined.

(** *** The summarizer of summarize.js *)

Lemma generateSummary_world E items w :
  snd (Summarize.generateSummary E items w) = w.
Proof.
  unfold Summarize.generateSummary.
  destruct (List.length items =? 0)%nat; [reflexivity|].
  unfold bind, lift, try_catch, AI, ret.
  destruct (Summarize.combinedContent items); [|reflexivity].
  destruct (AI_run E _); [|reflexivity].
  destruct (Summarize.extract response); reflexivity.
Qed.

(** Whatever Workers AI does (answer with text, with an object that has no
    [response], with [null], or reject), [generateSummary] returns a summary
    and writes nothing, provided no record of the batch has [null] metadata:
    the model's failures never leave the summarizer. *)
Lemma generateSummary_always_returns (E : env) (items : list feedback_row)
        (w : world) :
  Forall (fun r => Contract.nullish (metadata r) = false) items ->
  exists text, Summarize.generateSummary E items w = (Ok text, w).
Proof.
  intros Hmeta. unfold Summarize.generateSummary.
  destruct (List.length items =? 0)%nat; [unfold ret; eauto|].
  destruct (combinedContent_total items Hmeta) as [combined Hc].
  unfold bind, lift, try_catch, AI, ret. rewrite Hc.
  destruct (AI_run E _); [|eauto].
  destruct (Summarize.extract response); eauto.
Qed.

(** [processFeedbackBatch] never throws, whatever the ids, Workers AI and D1
    do; it adds and removes no feedback row and changes no column but
    [processed]; and when D1 rejects the summary insert the store is left as
    it was, so no record is flagged without a stored summary. *)
Theorem processFeedbackBatch_never_throws (E : env) (src : string)
        (feedbackData : list Z) (w : world) :
  let after := DB (snd (Summarize.processFeedbackBatch E src feedbackData w)) in
  fst (Summarize.processFeedbackBatch E src feedbackData w) = Ok tt /\
  map (fun r => (id r, source r, content r, metadata r, created_at r)) (feedback after)
  = map (fun r => (id r, source r, content r, metadata r, created_at r))
      (feedback (DB w)) /\
  aggregated_summaries after = aggregated_summaries (DB w) /\
  (D1_fault E InsertSourceSummary <> None -> after = DB w).
Proof.
  cbn zeta.
  destruct (Summarize.processFeedbackBatch E src feedbackData w) as [r w'] eqn:Hrun.
  cbn [fst snd]. revert Hrun. unfold Summarize.processFeedbackBatch.
  destruct feedbackData as [|i ids'].
  { intros Hrun. injection Hrun as <- <-. repeat split. }
  cbn [List.length Nat.eqb]. unfold try_catch, bind at 1.
  unfold selectUnprocessedByIds, bind at 1, execute.
  destruct (D1_fault E SelectFeedbackByIds).
  { intros Hrun. injection Hrun as <- <-. repeat split. }
  unfold bind at 1, read_db, ret.
  destruct (filter _ (feedback (DB w))) as [|first others].
  { intros Hrun. injection Hrun as <- <-. repeat split. }
  unfold bind at 1.
  pose proof (generateSummary_world E (first :: others) w) as Hw.
  destruct (Summarize.generateSummary E (first :: others) w) as [[text|e] w1];
    cbn [snd] in Hw; subst w1.
  2:{ intros Hrun. injection Hrun as <- <-. repeat split. }
  unfold insertSourceSummary, markFeedbackProcessed. cbn [List.length Nat.eqb].
  unfold bind, now, execute, read_db, write_db, emit, ret.
  destruct (D1_fault E InsertSourceSummary) eqn:Hsum.
  { intros Hrun. injection Hrun as <- <-. repeat split. }
  cbn [DB ticks log].
  destruct (D1_fault E UpdateProcessed); intros Hrun; injection Hrun as <- <-;
    cbn [fst snd DB feedback aggregated_summaries];
    repeat split; try (intros H; now elim H).
  rewrite map_map. apply map_ext. intros r. unfold set_processed.
  destruct (mem (id r) (i :: ids')); reflexivity.
Qed.

Lemma processFeedbackBatch_never_throws_witness :
  DB (snd (Summarize.processFeedbackBatch Scenario.summary_insert_down "github" [1; 2]
             Scenario.pending))
  = DB Scenario.pending.
Proof.
  apply (processFeedbackBatch_never_throws Scenario.summary_insert_down "github" [1; 2]
           Scenario.pending).
  discriminate.
Defined.

End RunExtras.

(** ** summarizeSourceFeedback *)

Module SummarizeSourceFacts.
Import JS Store SummarizeSource Runs RunFacts RunExtras.

Lemma summarizeSourceFeedback_fetch E src days w :
  D1_fault E SelectUnprocessedFeedback = None ->
  summarizeSourceFeedback E src days w =
  match matched E src days w with
  | [] =>
      (Ok (mkOutcome true
             (if Nat.eqb
                   (List.length
                      (firstn 100
                         (order_by (fun a b => created_at a <=? created_at b)
                            (filter (fun r => ((source r =? src)%string
                                               && negb (processed r))%bool)
                               (feedback (DB w))))))
                   0
              then "No unprocessed feedback for " ++ src
              else "No recent feedback for " ++ src)
             None None),
       mkWorld (DB w) (S (ticks w)) (log w))
  | first :: others =>
      try_catch
        (bind (Summarize.generateSummary E (first :: others))
           (fun text =>
              bind (insertSourceSummary E src text
                      (Summarize.Math_min (created_at first) (map created_at others))
                      (Summarize.Math_max (created_at first) (map created_at others))
                      (Z.of_nat (List.length (first :: others))))
                (fun _ =>
                   bind (markFeedbackProcessed E (map id (first :: others)))
                     (fun _ =>
                        ret (mkOutcome true ("Generated summary for " ++ src)
                               (Some text) (Some (List.length (first :: others))))))))
        (fun e => ret (mkOutcome false ("Error: " ++ e) None None))
        (mkWorld (DB w) (S (ticks w)) (log w))
  end.
Proof.
  intros Hsel. unfold summarizeSourceFeedback, bind at 1, now.
  unfold bind at 1, getUnprocessedFeedback, bind at 1, execute. rewrite Hsel.
  unfold bind at 1, read_db, ret. cbn [DB ticks]. unfold matched.
  set (fetched := firstn 100 _).
  destruct (List.length fetched =? 0)%nat eqn:Hlen.
  - destruct fetched; [reflexivity | discriminate].
  - destruct (filter _ fetched); reflexivity.
Qed.

(** With D1 in order, whatever Workers AI does, [summarizeSourceFeedback]
    on a non-empty set of matched records (none with [null] metadata)
    stores one source summary that counts them and spans their least and
    greatest [created_at], and flags exactly the records with a matched id.
    It inserts no feedback row: unlike the workflow path, the records
    summarized are the ones that end up processed. *)
Theorem summarizeSourceFeedback_marks_matched (E : env) (src : string) (days : Z)
        (w : world) (first : feedback_row) (others : list feedback_row) :
  d1_healthy E ->
  matched E src days w = first :: others ->
  Forall (fun r => Contract.nullish (metadata r) = false) (first :: others) ->
  let after := DB (snd (summarizeSourceFeedback E src days w)) in
  exists text,
    fst (summarizeSourceFeedback E src days w)
    = Ok (mkOutcome true ("Generated summary for " ++ src) (Some text)
            (Some (List.length (first :: others)))) /\
    feedback after
    = map (set_processed (map id (first :: others))) (feedback (DB w)) /\
    (forall r, In r (feedback after) -> In (id r) (map id (first :: others)) ->
               processed r = true) /\
    source_summaries after
    = (source_summaries (DB w)
       ++ [mkSourceSummary (source_summaries_seq (DB w) + 1) src text
             (Summarize.Math_min (created_at first) (map created_at others))
             (Summarize.Math_max (created_at first) (map created_at others))
             (Z.of_nat (List.length (first :: others)))
             (now_seconds E (S (ticks w)))])%list.
Proof.
  intros Hd1 Hm Hmeta after. subst after.
  destruct (generateSummary_always_returns E (first :: others)
              (mkWorld (DB w) (S (ticks w)) (log w)) Hmeta) as [text Hgen].
  exists text.
  destruct (summarizeSourceFeedback E src days w) as [r w'] eqn:Hrun.
  rewrite (summarizeSourceFeedback_fetch E src days w (Hd1 _)), Hm in Hrun.
  unfold try_catch, bind at 1 in Hrun. rewrite Hgen in Hrun.
  unfold insertSourceSummary, markFeedbackProcessed in Hrun.
  cbn [map List.length Nat.eqb] in Hrun.
  unfold bind, now, execute, read_db, write_db, emit, ret in Hrun.
  rewrite !Hd1 in Hrun. injection Hrun as <- <-.
  cbn [fst snd DB ticks feedback source_summaries]. repeat split.
  intros r. apply set_processed_flags.
Qed.

Lemma summarizeSourceFeedback_marks_matched_witness :
  exists text,
    fst (summarizeSourceFeedback Scenario.ai_down "github" 1 Scenario.pending)
    = Ok (mkOutcome true ("Generated summary for " ++ "github") (Some text) (Some 2%nat))
    /\ map processed
         (feedback (DB (snd (summarizeSourceFeedback Scenario.ai_down "github" 1
                               Scenario.pending))))
       = [true; true].
Proof.
  destruct (summarizeSourceFeedback_marks_matched Scenario.ai_down "github" 1
              Scenario.pending
              (mkFeedback 1 "github" "Issue #5: Bug" (VObj [("author", VStr "al")])
                 1699999000 false)
              [mkFeedback 2 "github" "Issue #6: Typo" (VObj []) 1699999500 false])
    as (text & Hres & Hfb & _ & _).
  - intros s; reflexivity.
  - reflexivity.
  - repeat constructor.
  - exists text. split; [exact Hres|]. rewrite Hfb. reflexivity.
Defined.

(** What [summarizeSourceFeedback] does when something is missing: with
    nothing matched it reports success and writes nothing; a rejected fetch
    is not caught and leaves the function as a throw; a rejected summary
    insert is caught, reported as ["Error: ..."] with [success = false], and
    leaves every record unprocessed. *)
Theorem summarizeSourceFeedback_failures (E : env) (src : string) (days : Z)
        (w : world) :
  (D1_fault E SelectUnprocessedFeedback = None ->
   matched E src days w = [] ->
   DB (snd (summarizeSourceFeedback E src days w)) = DB w /\
   exists text,
     fst (summarizeSourceFeedback E src days w) = Ok (mkOutcome true text None None)) /\
  (forall e,
      D1_fault E SelectUnprocessedFeedback = Some e ->
      fst (summarizeSourceFeedback E src days w) = Throw e /\
      DB (snd (summarizeSourceFeedback E src days w)) = DB w) /\
  (forall e,
      D1_fault E SelectUnprocessedFeedback = None ->
      D1_fault E InsertSourceSummary = Some e ->
      matched E src days w <> [] ->
      Forall (fun r => Contract.nullish (metadata r) = false) (matched E src days w) ->
      fst (summarizeSourceFeedback E src days w)
      = Ok (mkOutcome false ("Error: " ++ e) None None) /\
      DB (snd (summarizeSourceFeedback E src days w)) = DB w).
Proof.
  split; [|split].
  - intros Hsel Hm. rewrite (summarizeSourceFeedback_fetch E src days w Hsel), Hm.
    cbn [fst snd DB]. split; [reflexivity | eauto].
  - intros e Hsel. unfold summarizeSourceFeedback, bind at 1, now.
    unfold bind at 1, getUnprocessedFeedback, bind at 1, execute. rewrite Hsel.
    split; reflexivity.
  - intros e Hsel Hsum Hne Hmeta.
    rewrite (summarizeSourceFeedback_fetch E src days w Hsel).
    destruct (matched E src days w) as [|first others]; [contradiction|].
    destruct (generateSummary_always_returns E (first :: others)
                (mkWorld (DB w) (S (ticks w)) (log w)) Hmeta) as [text Hgen].
    match goal with
    | |- fst ?run = _ /\ _ => destruct run as [r w'] eqn:Hrun
    end.
    unfold try_catch, bind at 1 in Hrun. rewrite Hgen in Hrun.
    unfold insertSourceSummary, bind, now, execute, ret in Hrun. rewrite Hsum in Hrun.
    injection Hrun as <- <-. split; reflexivity.
Qed.

Lemma summarizeSourceFeedback_failures_witness :
  fst (summarizeSourceFeedback Scenario.summary_insert_down "github" 1 Scenario.pending)
  = Ok (mkOutcome false ("Error: " ++ "D1_ERROR") None None) /\
  DB (snd (summarizeSourceFeedback Scenario.summary_insert_down "github" 1
             Scenario.pending))
  = DB Scenario.pending.
Proof.
  destruct (summarizeSourceFeedback_failures Scenario.summary_insert_down "github" 1
              Scenario.pending) as (_ & _ & Hinsert).
  apply (Hinsert "D1_ERROR");
    [reflexivity | reflexivity | discriminate | repeat constructor].
Defined.

End SummarizeSourceFacts.

(** ** Aggregation: what it reads, what it writes, how it fails *)

Module AggregationExtras.
Import JS Store Aggregation Runs AggregationFacts Frames.

Lemma generateAggregatedSummary_world E l w :
  snd (generateAggregatedSummary E l w) = w.
Proof.
  destruct (generateAggregatedSummary_returns E l w) as [text ->]. reflexivity.
Qed.

(** How the tables after an aggregation relate to the tables before. *)
Lemma reads_only_refl d : reads_only d d.
Proof. unfold reads_only. auto. Qed.

Lemma insert_aggregated_frame E text a b n m w r w' :
  insertAggregatedSummary E text a b n m w = (r, w') ->
  reads_only (DB w) (DB w').
Proof.
  unfold insertAggregatedSummary, bind, now, execute, read_db, write_db, emit, ret,
    reads_only.
  destruct (D1_fault E InsertAggregatedSummary); intros H; injection H as <- <-;
    cbn; eauto.
Qed.

(** Aggregation only reads the feedback and the source summaries: whatever
    Workers AI and D1 do, a workflow run, [aggregateSummaries] and the cron
    handler leave both tables as they are and add at most one aggregated
    summary; [aggregateSummaries] and the cron handler never throw. *)
Theorem aggregation_reads_only (E : env) (days : Z) (w : world) :
  reads_only (DB w) (DB (snd (run E days w))) /\
  reads_only (DB w) (DB (snd (aggregateSummaries E days w))) /\
  (exists o, fst (aggregateSummaries E days w) = Ok o) /\
  reads_only (DB w) (DB (snd (Stats.handleCronTrigger E w))) /\
  fst (Stats.handleCronTrigger E w) = Ok tt.
Proof.
  assert (Hrun : forall d, reads_only (DB w) (DB (snd (run E d w)))).
  { intros d. destruct (run E d w) as [r w'] eqn:Hrun. cbn [snd]. revert Hrun.
    unfold run, bind at 1, fetch_source_summaries, step_do, bind at 1, now.
    unfold bind at 1. rewrite getSourceSummaries_run.
    destruct (D1_fault E SelectSourceSummaries).
    { intros H; injection H as <- <-. apply reads_only_refl. }
    cbn [DB ticks log]. unfold ret. cbn [summaries].
    destruct (List.length _ =? 0)%nat.
    { intros H; injection H as <- <-. apply reads_only_refl. }
    unfold bind at 1, generate_aggregated_summary, step_do, try_catch, bind at 1, AI.
    destruct (AI_run E _) as [v|e].
    2:{ unfold throw. intros H; injection H as <- <-. apply reads_only_refl. }
    unfold lift. destruct (Summarize.extract v) as [text|e].
    2:{ unfold throw. intros H; injection H as <- <-. apply reads_only_refl. }
    unfold bind at 1, store_aggregated_summary, step_do, bind at 1.
    cbn [summaries dateRange range_start range_end].
    match goal with
    | |- context [insertAggregatedSummary E ?t ?a ?b ?n ?m ?w0] =>
        pose proof (insert_aggregated_frame E t a b n m w0) as Hframe;
        destruct (insertAggregatedSummary E t a b n m w0) as [[i|e] w1]
    end;
      specialize (Hframe _ _ eq_refl); cbn [DB] in Hframe;
      unfold ret; intros H; injection H as <- <-; cbn [snd DB]; exact Hframe. }
  assert (Hagg : reads_only (DB w) (DB (snd (aggregateSummaries E days w)))
                 /\ exists o, fst (aggregateSummaries E days w) = Ok o).
  { destruct (aggregateSummaries E days w) as [r w'] eqn:Hagg. cbn [fst snd].
    revert Hagg. unfold aggregateSummaries, bind at 1, now, try_catch, bind at 1.
    rewrite getSourceSummaries_run.
    destruct (D1_fault E SelectSourceSummaries).
    { unfold ret. intros H; injection H as <- <-. split; [apply reads_only_refl | eauto]. }
    cbn [DB ticks log].
    destruct (List.length _ =? 0)%nat.
    { unfold ret. intros H; injection H as <- <-. split; [apply reads_only_refl | eauto]. }
    unfold bind at 1.
    match goal with
    | |- context [generateAggregatedSummary E ?l ?w0] =>
        destruct (generateAggregatedSummary_returns E l w0) as [text ->]
    end.
    unfold bind at 1.
    match goal with
    | |- context [insertAggregatedSummary E ?t ?a ?b ?n ?m ?w0] =>
        pose proof (insert_aggregated_frame E t a b n m w0) as Hframe;
        destruct (insertAggregatedSummary E t a b n m w0) as [[i|e] w1]
    end;
      specialize (Hframe _ _ eq_refl); cbn [DB] in Hframe;
      unfold ret; intros H; injection H as <- <-; cbn [snd DB]; eauto. }
  destruct Hagg as [Hagg Hok]. repeat split; try apply Hrun; try apply Hagg; try exact Hok.
Qed.


(** When no source summary lies inside the window (each starts before it
    or ends after it), the workflow run and [aggregateSummaries] both end
    with success and a null summary and write nothing. *)
Theorem aggregation_empty_window (E : env) (days : Z) (w : world) :
  D1_fault E SelectSourceSummaries = None ->
  (forall s, In s (source_summaries (DB w)) ->
             date_range_start s < now_seconds E (ticks w) - days * 24 * 60 * 60 \/
             now_seconds E (ticks w) < date_range_end s) ->
  DB (snd (run E days w)) = DB w /\
  fst (run E days w)
  = Ok (mkOutcome true "No source summaries found for the specified time period"
          None None None
          (Some (mkRange (now_seconds E (ticks w) - days * 24 * 60 * 60)
                   (now_seconds E (ticks w))))) /\
  DB (snd (aggregateSummaries E days w)) = DB w /\
  fst (aggregateSummaries E days w)
  = Ok (mkOutcome true "No source summaries found for the specified time period"
          None None None None).
Proof.
  intros Hsel Hout.
  assert (Hnone : filter (fun s => (now_seconds E (ticks w) - days * 24 * 60 * 60
                                    <=? date_range_start s)
                                   && (date_range_end s <=? now_seconds E (ticks w)))
                    (source_summaries (DB w)) = []).
  { apply RunFacts.filter_none. rewrite Forall_forall. intros s Hs.
    apply andb_false_iff. destruct (Hout s Hs) as [H | H];
      [left; apply Z.leb_gt | right; apply Z.leb_gt]; exact H. }
  assert (Hrun : exists w',
             run E days w =
             (Ok (mkOutcome true "No source summaries found for the specified time period"
                    None None None
                    (Some (mkRange (now_seconds E (ticks w) - days * 24 * 60 * 60)
                             (now_seconds E (ticks w))))), w') /\ DB w' = DB w).
  { unfold run, bind at 1, fetch_source_summaries, step_do, bind at 1, now.
    unfold bind at 1. rewrite getSourceSummaries_run, Hsel. cbn [DB ticks].
    rewrite Hnone. cbn. unfold ret. eauto. }
  assert (Hagg : exists w',
             aggregateSummaries E days w =
             (Ok (mkOutcome true "No source summaries found for the specified time period"
                    None None None None), w') /\ DB w' = DB w).
  { unfold aggregateSummaries, bind at 1, now, try_catch, bind at 1.
    rewrite getSourceSummaries_run, Hsel. cbn [DB ticks]. rewrite Hnone. cbn.
    unfold ret. eauto. }
  destruct Hrun as (w1 & -> & H1). destruct Hagg as (w2 & -> & H2). auto.
Qed.

Lemma aggregation_empty_window_witness :
  DB (snd (run Scenario.answering 0 Scenario.summarized)) = DB Scenario.summarized.
Proof.
  apply (aggregation_empty_window Scenario.answering 0 Scenario.summarized);
    [reflexivity|].
  intros s [<- | [<- | []]]; cbn; lia.
Defined.

(** When Workers AI rejects the request and the window holds source
    summaries: the generate step of the aggregation workflow rethrows as
    "Failed to generate aggregated summary: ...", the run ends there and no
    aggregated summary is stored; [aggregateSummaries] instead stores one
    whose text is the fallback, which names the number of summaries (not of
    distinct sources) and the sum of their feedback counts. *)
Theorem aggregation_when_ai_rejects (E : env) (msg : string) (days : Z) (w : world)
        (sourceSummaries : list source_summary) :
  (forall request, AI_run E request = Rejects msg) ->
  fst (getSourceSummaries E (now_seconds E (ticks w) - days * 24 * 60 * 60)
         (now_seconds E (ticks w)) w) = Ok sourceSummaries ->
  sourceSummaries <> [] ->
  D1_fault E InsertAggregatedSummary = None ->
  (fst (run E days w) = Throw ("Failed to generate aggregated summary: " ++ msg) /\
   DB (snd (run E days w)) = DB w) /\
  (exists a,
      aggregated_summaries (DB (snd (aggregateSummaries E days w)))
      = (aggregated_summaries (DB w) ++ [a])%list /\
      agg_summary a
      = VStr ("Aggregated summary of "
              ++ number_to_string (Z.of_nat (List.length sourceSummaries))
              ++ " sources covering "
              ++ number_to_string (fold_right Z.add 0 (map feedback_count sourceSummaries))
              ++ " total feedback items. Error generating AI summary: " ++ msg)).
Proof.
  intros Hai Hfetch Hne Hins.
  rewrite getSourceSummaries_run in Hfetch.
  destruct (D1_fault E SelectSourceSummaries) as [e|] eqn:Hsel; [discriminate|].
  cbn [fst] in Hfetch. injection Hfetch as Hfetch.
  assert (Hlen : (List.length sourceSummaries =? 0)%nat = false).
  { destruct sourceSummaries; [contradiction | reflexivity]. }
  split.
  - assert (Hrun : exists w',
               run E days w
               = (Throw ("Failed to generate aggregated summary: " ++ msg), w')
               /\ DB w' = DB w).
    { unfold run, bind at 1, fetch_source_summaries, step_do, bind at 1, now.
      unfold bind at 1. rewrite getSourceSummaries_run, Hsel. cbn [DB ticks].
      rewrite Hfetch. unfold ret. cbn [summaries]. rewrite Hlen.
      unfold bind at 1, generate_aggregated_summary, step_do, try_catch, bind at 1, AI.
      rewrite Hai. unfold throw. cbn. eauto. }
    destruct Hrun as (w' & -> & Hdb). auto.
  - assert (Hagg : exists o w',
               aggregateSummaries E days w = (o, w') /\
               aggregated_summaries (DB w')
               = (aggregated_summaries (DB w)
                  ++ [mkAggregated (aggregated_summaries_seq (DB w) + 1)
                        (VStr ("Aggregated summary of "
                               ++ number_to_string
                                    (Z.of_nat (List.length sourceSummaries))
                               ++ " sources covering "
                               ++ number_to_string (totalFeedback sourceSummaries)
                               ++ " total feedback items. Error generating AI summary: "
                               ++ msg))
                        (now_seconds E (ticks w) - days * 24 * 60 * 60)
                        (now_seconds E (ticks w))
                        (uniqueSources sourceSummaries) (totalFeedback sourceSummaries)
                        (now_seconds E (S (ticks w)))])%list).
    { unfold aggregateSummaries, bind at 1, now, try_catch, bind at 1.
      rewrite getSourceSummaries_run, Hsel. cbn [DB ticks]. rewrite Hfetch, Hlen.
      unfold bind at 1, generateAggregatedSummary. rewrite Hlen.
      unfold try_catch, bind at 1, AI. rewrite Hai. unfold ret.
      unfold bind. rewrite (insertAggregatedSummary_run E _ _ _ _ _ _ Hins).
      cbn [DB ticks aggregated_summaries aggregated_summaries_seq]. eauto. }
    destruct Hagg as (o & w' & -> & Hrows). cbn [snd]. rewrite Hrows.
    eexists. split; [reflexivity|]. cbn [agg_summary].
    now rewrite totalFeedback_sum.
Qed.

Lemma aggregation_when_ai_rejects_witness :
  fst (run Scenario.ai_down 7 Scenario.summarized)
  = Throw ("Failed to generate aggregated summary: " ++ "quota exceeded") /\
  DB (snd (run Scenario.ai_down 7 Scenario.summarized)) = DB Scenario.summarized.
Proof.
  apply (aggregation_when_ai_rejects Scenario.ai_down "quota exceeded" 7
           Scenario.summarized
           [ mkSourceSummary 2 "discord" (VStr "Dark mode.") 1699960000 1699990000 6
               1699990001;
             mkSourceSummary 1 "github" (VStr "Crashes on save.") 1699900000
               1699950000 4 1699950001 ]);
    [intros request; reflexivity | reflexivity | discriminate | reflexivity].
Defined.

End AggregationExtras.

(** ** getAggregationStats *)

Module StatsFacts.
Import JS Store Queries Stats Ranking StoreExtras.



End StatsFacts.

(** ** handleWebhook *)

Module HandlerFacts.
Import JS Store Webhooks Contract Handlers WebhookFacts.

Section Binding.
Variable B : string -> list item -> M value.

Lemma try_lift_ok {X Y : Type} (v : X) (k : X -> M Y) (h : string -> M Y) w :
  try_catch (bind (lift (Ok v)) k) h w = try_catch (k v) h w.
Proof. reflexivity. Qed.

Lemma try_lift_throw {X Y : Type} (e : string) (k : X -> M Y) (h : string -> M Y) w :
  try_catch (bind (lift (Throw e)) k) h w = h e w.
Proof. reflexivity. Qed.

Lemma try_ret {Y : Type} (y : Y) (h : string -> M Y) w :
  try_catch (ret y) h w = (Ok y, w).
Proof. reflexivity. Qed.

Lemma try_throw {Y : Type} (e : string) (h : string -> M Y) w :
  try_catch (throw e) h w = h e w.
Proof. reflexivity. Qed.

Lemma started_world source feedbackItems n w :
  exists resp,
    fst (try_catch (started B source feedbackItems n)
           (fun e => ret (failure e)) w) = Ok resp /\
    snd (try_catch (started B source feedbackItems n)
           (fun e => ret (failure e)) w) = snd (B source feedbackItems w).
Proof.
  unfold try_catch, started, bind, lift, ret.
  destruct (B source feedbackItems w) as [[instance|e] w1]; cbn [snd];
    [|cbn; eauto].
  destruct (get instance "id"); cbn; eauto.
Qed.

Lemma mapR_length {X Y : Type} (f : X -> result Y) l ys :
  mapR f l = Ok ys -> List.length ys = List.length l.
Proof.
  revert ys. induction l as [|x l IH]; cbn; intros ys H.
  - injection H as <-. reflexivity.
  - destruct (f x); [|discriminate]. destruct (mapR f l) as [ys'|]; [|discriminate].
    injection H as <-. cbn. now rewrite (IH ys' eq_refl).
Qed.

(** The handler after the source has been read off the path. *)
Lemma handleWebhook_post req source :
  (method req =? "POST")%string = true ->
  nth_error (split "/webhook/" (pathname req)) 1 = Some source ->
  source <> EmptyString ->
  forall w,
    handleWebhook B req w
    = match json req with
      | Throw e => (Ok (failure e), w)
      | Ok payload =>
          match parseWebhook source payload with
          | Throw e => (Ok (failure e), w)
          | Ok (Items feedbackItems) =>
              match feedbackItems with
              | [] => (Ok no_items, w)
              | _ => try_catch (started B source feedbackItems
                                  (List.length feedbackItems))
                       (fun e => ret (failure e)) w
              end
          | Ok (ObjectOf object) =>
              if is_zero (object_length object) then (Ok no_items, w)
              else
                match object with
                | VArr elements =>
                    match mapR (fun element =>
                                  rbind (get element "content")
                                    (fun c => rbind (get element "metadata")
                                                (fun m => Ok (mkItem c m))))
                            elements with
                    | Ok rewrapped =>
                        try_catch (started B source rewrapped (List.length elements))
                          (fun e => ret (failure e)) w
                    | Throw e => (Ok (failure e), w)
                    end
                | _ => (Ok (failure "feedbackItems.map is not a function"), w)
                end
          end
      end.
Proof.
  intros Hm Hs Hne w. unfold handleWebhook. rewrite Hm, Hs. cbn [negb].
  destruct source as [|c source]; [congruence|].
  fold failure.
  destruct (json req) as [payload|e]; [rewrite try_lift_ok | reflexivity].
  destruct (parseWebhook (String c source) payload) as [[items|object]|e];
    [rewrite try_lift_ok | rewrite try_lift_ok | reflexivity].
  - destruct items; reflexivity.
  - destruct (is_zero (object_length object)); [reflexivity|].
    destruct object as [| | | | |elements|]; try reflexivity.
    destruct (mapR _ elements); [rewrite try_lift_ok|]; reflexivity.
Qed.

(** [handleWebhook] never throws.  It leaves the store and the log as they
    were unless it calls the workflow binding, which it does at most once
    and only with a non-empty list of items: a request that yields no item
    starts no pipeline. *)
Theorem handleWebhook_dispatches_items (req : request) (w : world) :
  (exists resp, fst (handleWebhook B req w) = Ok resp) /\
  (snd (handleWebhook B req w) = w \/
   exists source feedbackItems,
     feedbackItems <> [] /\
     snd (handleWebhook B req w) = snd (B source feedbackItems w)).
Proof.
  destruct (method req =? "POST")%string eqn:Hm.
  2:{ unfold handleWebhook. rewrite Hm. cbn. eauto. }
  destruct (nth_error (split "/webhook/" (pathname req)) 1) as [source|] eqn:Hs.
  2:{ unfold handleWebhook. rewrite Hm, Hs. cbn. eauto. }
  destruct source as [|c source].
  { unfold handleWebhook. rewrite Hm, Hs. cbn. eauto. }
  rewrite (handleWebhook_post req (String c source) Hm Hs ltac:(discriminate) w).
  destruct (json req) as [payload|e]; [|cbn; eauto].
  destruct (parseWebhook (String c source) payload) as [[items|object]|e];
    [| |cbn; eauto].
  - destruct items as [|i items]; [cbn; eauto|].
    destruct (started_world (String c source) (i :: items)
                (List.length (i :: items)) w) as (resp & Hres & Hw).
    split; [eauto|]. right. exists (String c source), (i :: items).
    split; [discriminate | exact Hw].
  - destruct (is_zero (object_length object)) eqn:Hz; [cbn; eauto|].
    destruct object as [| | | | |elements|]; try (cbn; eauto; fail).
    destruct (mapR _ elements) as [rewrapped|e] eqn:Hmap; [|cbn; eauto].
    destruct (started_world (String c source) rewrapped (List.length elements) w)
      as (resp & Hres & Hw).
    split; [eauto|]. right. exists (String c source), rewrapped. split; [|exact Hw].
    apply mapR_length in Hmap. destruct elements; [discriminate Hz|].
    destruct rewrapped; [discriminate Hmap | discriminate].
Qed.

Lemma append_empty (s : string) : (s ++ "")%string = s.
Proof. induction s as [|c s IH]; cbn; [reflexivity | now rewrite IH]. Qed.

Lemma append_assoc (a b c : string) : ((a ++ b) ++ c)%string = (a ++ (b ++ c))%string.
Proof. induction a as [|x a IH]; cbn; [reflexivity | now rewrite IH]. Qed.

Lemma split_no_slash cur s :
  no_slash s = true -> split_from "/webhook/" 0 cur s = [(cur ++ s)%string].
Proof.
  revert cur. induction s as [|c s IH]; intros cur H; cbn in H.
  - cbn. now rewrite append_empty.
  - apply andb_true_iff in H as [Hc Hs].
    cbn [split_from]. 
    assert (Hp : String.prefix "/webhook/" (String c s) = false).
    { cbn [String.prefix]. destruct (ascii_dec "/" c) as [<-|Hne]; [vm_compute in Hc; discriminate Hc|].
      reflexivity. }
    rewrite Hp, (IH _ Hs), append_assoc. reflexivity.
Qed.

(** The path [/webhook/<source>] names [source] when it holds no slash. *)
Lemma post_source source :
  no_slash source = true ->
  forall body,
    nth_error (split "/webhook/" (pathname (post source body))) 1 = Some source.
Proof.
  intros H body. unfold post, split. cbn.
  replace (String.prefix "" source) with true by now destruct source.
  now rewrite (split_no_slash "" source H).
Qed.

Lemma handleWebhook_sourced source body w :
  no_slash source = true -> source <> EmptyString ->
  handleWebhook B (post source body) w
  = match body with
    | Throw e => (Ok (failure e), w)
    | Ok payload =>
        match parseWebhook source payload with
        | Throw e => (Ok (failure e), w)
        | Ok (Items feedbackItems) =>
            match feedbackItems with
            | [] => (Ok no_items, w)
            | _ => try_catch (started B source feedbackItems
                                (List.length feedbackItems))
                     (fun e => ret (failure e)) w
            end
        | Ok (ObjectOf object) =>
            if is_zero (object_length object) then (Ok no_items, w)
            else
              match object with
              | VArr elements =>
                  match mapR (fun element =>
                                rbind (get element "content")
                                  (fun c => rbind (get element "metadata")
                                              (fun m => Ok (mkItem c m))))
                          elements with
                  | Ok rewrapped =>
                      try_catch (started B source rewrapped (List.length elements))
                        (fun e => ret (failure e)) w
                  | Throw e => (Ok (failure e), w)
                  end
              | _ => (Ok (failure "feedbackItems.map is not a function"), w)
              end
        end
    end.
Proof.
  intros Hs Hne.
  apply (handleWebhook_post (post source body) source eq_refl
           (post_source source Hs body) Hne w).
Qed.

Lemma started_outcome source feedbackItems n w :
  snd (try_catch (started B source feedbackItems n) (fun e => ret (failure e)) w)
  = snd (B source feedbackItems w) /\
  (forall instance,
      fst (B source feedbackItems w) = Ok instance ->
      nullish instance = false ->
      fst (try_catch (started B source feedbackItems n) (fun e => ret (failure e)) w)
      = Ok (jsonResponse
              (VObj [ ("success", VBool true);
                      ("message",
                       VStr ("Processing " ++ number_to_string (Z.of_nat n)
                             ++ " feedback items via workflow"));
                      ("workflowId", get_opt instance "id") ])
              200)) /\
  (forall e,
      fst (B source feedbackItems w) = Throw e ->
      fst (try_catch (started B source feedbackItems n) (fun e => ret (failure e)) w)
      = Ok (failure e)).
Proof.
  unfold try_catch, started, bind, lift, ret.
  destruct (B source feedbackItems w) as [[instance|e] w1]; cbn [fst snd].
  - split; [destruct (get instance "id"); reflexivity|].
    split; [|discriminate].
    intros i [= <-] Hn. now rewrite (get_present _ _ Hn).
  - split; [reflexivity|]. split; [discriminate|]. now intros e' [= <-].
Qed.

Lemma named_source a source :
  parsers (toLowerCase source) = Parser a -> source <> EmptyString.
Proof. intros H ->. discriminate H. Qed.

(** A POST for a named adapter whose body is JSON other than [null] and
    carries none of the adapter's fields: the adapter returns the empty
    sequence, the answer is 200 with the message that no feedback items
    were extracted, the workflow binding is not called and nothing changes
    (for GitHub, a comment without its issue is such a body). *)
Theorem handleWebhook_nothing_extracted
  (a : adapter) (source : string) (payload : value) (w : world) :
  parsers (toLowerCase source) = Parser a ->
  no_slash source = true ->
  nullish payload = false ->
  recognizable a payload = false ->
  adapt a payload = Ok [] /\
  handleWebhook B (post source (Ok payload)) w = (Ok no_items, w) /\
  status no_items = 200.
Proof.
  intros Ha Hs Hn Hr.
  pose proof (WebhookExtras.adapt_unrecognized a payload Hn Hr) as Hadapt.
  split; [exact Hadapt|]. split; [|reflexivity].
  rewrite (handleWebhook_sourced source (Ok payload) w Hs (named_source a source Ha)).
  rewrite (parseWebhook_named source a payload Ha), Hadapt. reflexivity.
Qed.

(** What the handler turns into a 500: a body that is not JSON, a [null]
    body for a named adapter (the adapter throws reading its first field),
    and any body sent to the source [__proto__].  The answer carries
    [success: false] and the error's message; the binding is not called and
    nothing changes. *)
Theorem handleWebhook_failures (source : string) (w : world) :
  no_slash source = true -> source <> EmptyString ->
  (forall e,
      handleWebhook B (post source (Throw e)) w = (Ok (failure e), w)) /\
  (forall a payload,
      parsers (toLowerCase source) = Parser a -> nullish payload = true ->
      exists e, handleWebhook B (post source (Ok payload)) w = (Ok (failure e), w)) /\
  (forall payload,
      handleWebhook B (post "__proto__" (Ok payload)) w
      = (Ok (failure "parser is not a function"), w)) /\
  (forall e, status (failure e) = 500).
Proof.
  intros Hs Hne. split; [|split; [|split]].
  - intros e. now rewrite (handleWebhook_sourced source (Throw e) w Hs Hne).
  - intros a payload Ha Hn.
    destruct (WebhookExtras.adapt_null_payload a payload Hn) as [e He]. exists e.
    rewrite (handleWebhook_sourced source (Ok payload) w Hs Hne).
    now rewrite (parseWebhook_named source a payload Ha), He.
  - intros payload.
    now rewrite (handleWebhook_sourced "__proto__" (Ok payload) w eq_refl
                   ltac:(discriminate)).
  - reflexivity.
Qed.

(** A source that names no adapter is not refused: the handler starts the
    workflow on one raw item, the body itself when it is a JSON string and
    its JSON text otherwise.  The answer is the binding's: 200 with the
    instance id when the binding returns an instance, 500 with the message
    when it throws; the store and the log are as the binding leaves them. *)
Theorem handleWebhook_unknown_source (source : string) (payload : value) (w : world) :
  no_slash source = true -> source <> EmptyString ->
  ~ In (toLowerCase source)
      ["github"; "discord"; "twitter"; "email"; "support"; "forum";
       "constructor"; "__proto__"] ->
  let raw := {| content := if is_string payload then payload
                           else JSON_stringify payload;
                metadata := VObj [("raw", VBool true)] |} in
  snd (handleWebhook B (post source (Ok payload)) w) = snd (B source [raw] w) /\
  (forall instance,
      fst (B source [raw] w) = Ok instance -> nullish instance = false ->
      fst (handleWebhook B (post source (Ok payload)) w)
      = Ok (jsonResponse
              (VObj [ ("success", VBool true);
                      ("message", VStr "Processing 1 feedback items via workflow");
                      ("workflowId", get_opt instance "id") ])
              200)) /\
  (forall e,
      fst (B source [raw] w) = Throw e ->
      fst (handleWebhook B (post source (Ok payload)) w) = Ok (failure e)).
Proof.
  intros Hs Hne Hnot raw.
  rewrite (handleWebhook_sourced source (Ok payload) w Hs Hne).
  rewrite (WebhookExtras.parseWebhook_unknown_source source payload Hnot).
  fold raw. exact (started_outcome source [raw] 1 w).
Qed.

Lemma headed_items a payload :
  headed a = true -> valid_input a payload = true -> recognizable a payload = true ->
  exists items, adapt a payload = Ok items /\ items <> []
                /\ forallb has_content items = true.
Proof.
  intros Hh Hv Hr. destruct a; try discriminate Hh; cbn [adapt].
  - now apply github_items.
  - now apply email_items.
  - now apply support_items.
  - now apply forum_items.
Qed.

Lemma has_content_texts items :
  forallb has_content items = true ->
  exists texts,
    map text_item items = map Some texts /\
    map (fun t => VStr (FeedbackProcessingWorkflow.item_content t)) texts
    = map Webhooks.content items.
Proof.
  induction items as [|i items IH]; cbn [forallb]; intros H.
  - exists []. split; reflexivity.
  - apply andb_true_iff in H as [Hi Hrest]. destruct (IH Hrest) as (texts & Hm & Hc).
    unfold has_content in Hi. destruct (Webhooks.content i) as [| | | |s| |] eqn:Hci;
      try discriminate Hi.
    exists (FeedbackProcessingWorkflow.mkItem s (Webhooks.metadata i) :: texts).
    cbn [map]. unfold text_item at 1. rewrite Hci, Hm, Hc. split; reflexivity.
Qed.

Lemma inserted_rows_content E src seq tick todo :
  map Store.content (Runs.inserted_rows E src seq tick todo)
  = map FeedbackProcessingWorkflow.item_content todo.
Proof.
  revert seq tick. induction todo as [|it rest IH]; intros seq tick; cbn;
    [reflexivity | now rewrite IH].
Qed.

(** From the request to the store.  A POST for one of the adapters with a
    headed content (GitHub, email, support, forum) whose body is a valid,
    recognizable payload, with D1 and Workers AI in order and a binding that
    runs the feedback workflow: the answer is 200 with the number of items
    and the instance id; the store has gained one processed record of this
    source per item, with the item's content and in the adapter's order, and
    one source summary that counts them. *)
Theorem webhook_to_summary
  (E : env) (a : adapter) (source : string) (payload : value) (w : world) :
  starts_workflow E B ->
  parsers (toLowerCase source) = Parser a ->
  no_slash source = true ->
  headed a = true ->
  valid_input a payload = true ->
  recognizable a payload = true ->
  Runs.d1_healthy E -> Runs.well_formed (DB w) -> Runs.ai_answers E ->
  exists items instance new text first last created,
    adapt a payload = Ok items /\ items <> [] /\
    fst (handleWebhook B (post source (Ok payload)) w)
    = Ok (jsonResponse
            (VObj [ ("success", VBool true);
                    ("message",
                     VStr ("Processing "
                           ++ number_to_string (Z.of_nat (List.length items))
                           ++ " feedback items via workflow"));
                    ("workflowId", VStr instance) ])
            200) /\
    feedback (DB (snd (handleWebhook B (post source (Ok payload)) w)))
    = (feedback (DB w) ++ new)%list /\
    map (fun r => VStr (Store.content r)) new = map Webhooks.content items /\
    Forall (fun r => Store.source r = source /\ processed r = true) new /\
    source_summaries (DB (snd (handleWebhook B (post source (Ok payload)) w)))
    = (source_summaries (DB w)
       ++ [mkSourceSummary (source_summaries_seq (DB w) + 1) source text first last
             (Z.of_nat (List.length items)) created])%list.
Proof.
  intros Hstart Ha Hs Hh Hv Hr Hd1 Hwf Hai.
  destruct (headed_items a payload Hh Hv Hr) as (items & Hadapt & Hne & Hc).
  destruct (has_content_texts items Hc) as (texts & Hmap & Hcontents).
  destruct (Hstart source items texts w Hmap) as (instance & Hfst & Hdb).
  set (p := FeedbackProcessingWorkflow.mkParams source texts) in *.
  assert (Hlen : List.length texts = List.length items).
  { apply (f_equal (@List.length _)) in Hmap. now rewrite !length_map in Hmap. }
  assert (Htexts : FeedbackProcessingWorkflow.feedbackItems p <> []).
  { cbn. destruct texts; [|discriminate]. destruct items; [contradiction|discriminate]. }
  destruct (RunFacts.run_completed_store E p w Hd1 Hwf Hai Htexts)
    as (text & Hfeedback & Hsummaries).
  rewrite (handleWebhook_sourced source (Ok payload) w Hs (named_source a source Ha)).
  rewrite (parseWebhook_named source a payload Ha), Hadapt. cbn [rbind].
  destruct items as [|i items']; [contradiction|]. set (items := i :: items') in *.
  destruct (started_outcome source items (List.length items) w) as (Hw & Hok & _).
  rewrite Hw, Hdb, Hfeedback, Hsummaries.
  rewrite (Hok _ Hfst eq_refl). cbn [get_opt].
  pose proof (RunFacts.reloaded_fresh E p w Hwf) as Hre.
  pose proof (RunFacts.rows_nonempty E p w Htexts) as Hrows.
  assert (Hcount : List.length (Runs.rows E p w) = List.length items).
  { unfold Runs.rows. now rewrite RunFacts.inserted_rows_length. }
  unfold Runs.summary_row. rewrite Hre.
  destruct (Runs.rows E p w) as [|r rs] eqn:Hrs; [contradiction|]. rewrite <- Hrs in *.
  exists items, instance, (map Runs.flagged (Runs.rows E p w)), text.
  do 3 eexists. split; [reflexivity|]. split; [discriminate|].
  split; [reflexivity|]. split; [reflexivity|]. split; [|split].
  - rewrite map_map. cbn [Runs.flagged Store.content].
    rewrite <- Hcontents. unfold Runs.rows.
    rewrite <- (map_map Store.content VStr), inserted_rows_content.
    now rewrite map_map.
  - rewrite Forall_map. eapply Forall_impl;
      [|apply (RunExtras.inserted_rows_source E source)].
    cbn. intros r0 Hr0. split; [exact Hr0 | reflexivity].
  - rewrite Hcount. reflexivity.
Qed.

End Binding.

Lemma text_only_binding_starts E : starts_workflow E (text_only_binding E).
Proof.
  intros source feedbackItems texts w Hmap. exists "instance-1".
  unfold text_only_binding.
  assert (Hfold : fold_right
                    (fun i acc =>
                       match text_item i, acc with
                       | Some t, Some l => Some (t :: l)
                       | _, _ => None
                       end) (Some []) feedbackItems = Some texts).
  { revert texts Hmap. induction feedbackItems as [|i rest IH]; intros texts Hmap.
    - destruct texts; [reflexivity | discriminate Hmap].
    - destruct texts as [|t texts]; [discriminate Hmap|].
      cbn [map] in Hmap. injection Hmap as Hi Hrest.
      cbn [fold_right]. now rewrite Hi, (IH texts Hrest). }
  rewrite Hfold. split; reflexivity.
Qed.

Lemma handleWebhook_nothing_extracted_witness :
  adapt GitHub (VObj [("comment", VObj [("body", VStr "me too")])]) = Ok [] /\
  handleWebhook (text_only_binding Scenario.answering)
    (post "GitHub" (Ok (VObj [("comment", VObj [("body", VStr "me too")])])))
    Scenario.start
  = (Ok no_items, Scenario.start) /\
  status no_items = 200.
Proof.
  apply (handleWebhook_nothing_extracted (text_only_binding Scenario.answering)
           GitHub "GitHub" (VObj [("comment", VObj [("body", VStr "me too")])])
           Scenario.start); reflexivity.
Defined.

Lemma handleWebhook_failures_witness :
  handleWebhook (text_only_binding Scenario.answering)
    (post "email" (Throw "Unexpected end of JSON input")) Scenario.pending
  = (Ok (failure "Unexpected end of JSON input"), Scenario.pending) /\
  exists e,
    handleWebhook (text_only_binding Scenario.answering) (post "email" (Ok VNull))
      Scenario.pending
    = (Ok (failure e), Scenario.pending).
Proof.
  destruct (handleWebhook_failures (text_only_binding Scenario.answering) "email"
              Scenario.pending) as (Hjson & Hnull & _ & _);
    [reflexivity | discriminate |].
  split; [apply Hjson | apply (Hnull Email VNull); reflexivity].
Defined.

Lemma handleWebhook_unknown_source_witness :
  let B := text_only_binding Scenario.answering in
  let raw := {| Webhooks.content := VStr "null";
                Webhooks.metadata := VObj [("raw", VBool true)] |} in
  snd (handleWebhook B (post "Slack" (Ok VNull)) Scenario.start)
  = snd (B "Slack" [raw] Scenario.start) /\
  fst (handleWebhook B (post "Slack" (Ok VNull)) Scenario.start)
  = Ok (jsonResponse
          (VObj [ ("success", VBool true);
                  ("message", VStr "Processing 1 feedback items via workflow");
                  ("workflowId", VStr "instance-1") ])
          200).
Proof.
  destruct (handleWebhook_unknown_source (text_only_binding Scenario.answering)
              "Slack" VNull Scenario.start) as (Hw & Hok & _);
    [reflexivity | discriminate | |].
  - cbn. intros H. repeat (destruct H as [H | H]; [discriminate H|]). exact H.
  - split; [exact Hw|].
    apply (Hok (VObj [("id", VStr "instance-1")])); reflexivity.
Defined.

Lemma webhook_to_summary_witness :
  exists items instance new text first last created,
    adapt GitHub Scenario.github_issue = Ok items /\ items <> [] /\
    fst (handleWebhook (text_only_binding Scenario.answering)
           (post "github" (Ok Scenario.github_issue)) Scenario.pending)
    = Ok (jsonResponse
            (VObj [ ("success", VBool true);
                    ("message",
                     VStr ("Processing "
                           ++ number_to_string (Z.of_nat (List.length items))
                           ++ " feedback items via workflow"));
                    ("workflowId", VStr instance) ])
            200) /\
    feedback (DB (snd (handleWebhook (text_only_binding Scenario.answering)
                         (post "github" (Ok Scenario.github_issue)) Scenario.pending)))
    = (feedback (DB Scenario.pending) ++ new)%list /\
    map (fun r => VStr (Store.content r)) new = map Webhooks.content items /\
    Forall (fun r => Store.source r = "github" /\ processed r = true) new /\
    source_summaries
      (DB (snd (handleWebhook (text_only_binding Scenario.answering)
                  (post "github" (Ok Scenario.github_issue)) Scenario.pending)))
    = (source_summaries (DB Scenario.pending)
       ++ [mkSourceSummary (source_summaries_seq (DB Scenario.pending) + 1) "github"
             text first last (Z.of_nat (List.length items)) created])%list.
Proof.
  apply (webhook_to_summary (text_only_binding Scenario.answering)
           Scenario.answering GitHub "github" Scenario.github_issue Scenario.pending).
  - exact (text_only_binding_starts Scenario.answering).
  - reflexivity.
  - reflexivity.
  - reflexivity.
  - reflexivity.
  - reflexivity.
  - intros s. reflexivity.
  - repeat constructor; cbn; lia.
  - intros request. do 2 eexists. split; reflexivity.
Defined.

End HandlerFacts.

(** ** Metadata through [JSON.stringify] and [JSON.parse] *)

Module MetadataFacts.
Import JS Store FeedbackProcessingWorkflow Worker Runs Documents RunFacts WorkerFacts.

Lemma JSON_doc_defined v : JSON_doc v <> VUndefined.
Proof. destruct v; discriminate. Qed.

(** A document read back from its JSON text is unchanged by a second round
    trip. *)
Lemma JSON_doc_idempotent : forall v, JSON_doc (JSON_doc v) = JSON_doc v.
Proof.
  fix IH 1. intros [| | | | | l | fields]; cbn; try reflexivity.
  - f_equal. induction l as [|x l IHl]; cbn; [reflexivity|].
    now rewrite (IH x), IHl.
  - f_equal. induction fields as [|[k x] fields IHf]; cbn; [reflexivity|].
    pose proof (IH x) as Hx. pose proof (JSON_doc_defined x) as Hd.
    destruct x; cbn in *; try (rewrite IHf; reflexivity).
    + rewrite IHf. congruence.
    + rewrite IHf. congruence.
Qed.

Lemma or_document m : round_trips (JSON_doc (or m (VObj []))).
Proof.
  unfold round_trips.
  assert (Ht : truthy (JSON_doc (or m (VObj []))) = true).
  { unfold or. destruct (truthy m) eqn:Hm; [|reflexivity].
    destruct m; try discriminate Hm; try exact Hm; reflexivity. }
  unfold or at 1. rewrite Ht. apply JSON_doc_idempotent.
Qed.

Lemma inserted_rows_documents E src seq tick todo :
  Forall (fun r => round_trips (metadata r)) (inserted_rows E src seq tick todo).
Proof.
  revert seq tick. induction todo as [|it rest IH]; intros seq tick; cbn; constructor;
    [apply or_document | apply IH].
Qed.

(** Whatever the run reaches, every feedback row of the store holds a
    metadata document that is its own round trip through
    [JSON.stringify(item.metadata || {})] and [JSON.parse], when this was so
    before: the store step writes only such documents and the mark step
    leaves metadata alone. *)
Theorem run_keeps_documents (E : env) (p : params) (w : world) :
  documents (DB w) -> documents (DB (snd (run E p w))).
Proof.
  intros Hdoc. destruct (run_stage E p w) as (-> & _ & _).
  assert (Hs : documents (stored_db E p w)).
  { unfold documents. cbn. apply Forall_app. split; [exact Hdoc|].
    apply inserted_rows_documents. }
  destruct (stage_reached E p w); cbn [db_at]; try assumption.
  unfold documents in *. cbn in *. rewrite Forall_map.
  eapply Forall_impl; [|exact Hs]. cbn. intros r Hr.
  unfold set_processed. destruct (mem (id r) (ids E p w)); exact Hr.
Qed.

Lemma run_keeps_documents_witness :
  documents (DB (snd (run Scenario.answering Scenario.discord_batch Scenario.pending))).
Proof.
  apply (run_keeps_documents Scenario.answering Scenario.discord_batch Scenario.pending).
  repeat constructor.
Defined.




End MetadataFacts.
